(** * Rational function analyzer (rational_analyzer.py)

    A shallow embedding of the class [RationalAnalyzer].  The class keeps
    two parsed expressions and their quotient, and answers queries about
    the quotient (asymptotes, holes, intercepts, end behaviour) by calling
    the computer-algebra library and post-processing what it returns.

    The methods are embedded in a state-and-exception monad over the
    object's attributes; the computer-algebra library is an interface
    (class [Sympy]) with one field per library call the methods make. *)

From Stdlib Require Import List String Ascii ZArith QArith Qabs Bool Lia Permutation.
From Stdlib Require Import SpecFloat.
Import ListNotations.
Local Open Scope string_scope.
Local Open Scope Z_scope.
Local Open Scope list_scope.

Set Implicit Arguments.
Set Warnings "-register-all".

(** ** Python results: a value, or a raised exception carrying [str(e)] *)

Inductive result (A : Type) : Type :=
| Ok (a : A)
| Raise (e : string).
Arguments Ok {A} a.
Arguments Raise {A} e.

(** ** The library interface

    One field per operation the analyzer calls, with the arguments the
    analyzer passes (the symbol [x] is fixed).  Library calls are
    deterministic functions that either return or raise. *)

(** What [sp.degree] returns: a non-negative integer, or [-oo] for the
    zero polynomial. *)
Inductive degree_value : Type :=
| NegativeInfinity
| Degree (n : N).

(** The two directions [sp.oo] and [-sp.oo] passed to [sp.limit]. *)
Inductive direction : Type := PlusInfinity | MinusInfinity.

Class Sympy : Type := {
  Expr : Type;                                   (* library objects *)
  pyfloat : Type;                                (* Python floats *)
  sp_sympify : string -> result Expr;            (* sp.sympify(s) *)
  sp_solve : Expr -> result (list Expr);         (* sp.solve(e, x) *)
  sp_degree : Expr -> result degree_value;       (* sp.degree(e, x) *)
  sp_LC : Expr -> result Expr;                   (* sp.LC(e, x) *)
  sp_factor : Expr -> result Expr;               (* sp.factor(e) *)
  sp_gcd : Expr -> Expr -> result Expr;          (* sp.gcd(a, b) *)
  sp_simplify : Expr -> result Expr;             (* sp.simplify(e) *)
  sp_limit : Expr -> direction -> result Expr;   (* sp.limit(e, x, +-oo) *)
  sp_Integer : Z -> Expr;                        (* an int literal, sympified *)
  truediv : Expr -> Expr -> result Expr;         (* a / b *)
  subs : Expr -> Expr -> result Expr;            (* e.subs(x, v) *)
  is_real : Expr -> option bool;                 (* e.is_real: True, False or None *)
  is_finite : Expr -> option bool;               (* e.is_finite *)
  eq_int : Expr -> Z -> bool;                    (* e == k *)
  py_float : Expr -> result pyfloat;             (* float(e) *)
  py_str : Expr -> result string;                (* str(e) *)
  rsub : pyfloat -> Expr -> result Expr;         (* f - e, f a Python float *)
  py_abs : Expr -> result Expr;                  (* abs(e) *)
  lt_float : Expr -> pyfloat -> result bool;     (* bool(e < f) *)
  float_1e_10 : pyfloat;                         (* the literal 1e-10 *)
  float_lt : pyfloat -> pyfloat -> bool          (* f < g on floats *)
}.

(** Truthiness of a three-valued attribute: [None] is falsy. *)
Definition truthy (b : option bool) : bool :=
  match b with Some true => true | _ => false end.

(** Comparison of degrees, as [<] and [==] decide it on integers and [-oo]. *)
Definition degree_lt (a b : degree_value) : bool :=
  match a, b with
  | NegativeInfinity, NegativeInfinity => false
  | NegativeInfinity, Degree _ => true
  | Degree _, NegativeInfinity => false
  | Degree m, Degree n => N.ltb m n
  end.

Definition degree_eq (a b : degree_value) : bool :=
  match a, b with
  | NegativeInfinity, NegativeInfinity => true
  | Degree m, Degree n => N.eqb m n
  | _, _ => false
  end.

(** ** Values handed back to the caller *)

Section Values.
Context {S : Sympy}.

(** [find_horizontal_asymptote] returns the int [0] or a float. *)
Inductive number : Type :=
| Int (z : Z)
| Float (f : pyfloat).

(** One side of [analyze_end_behavior]: a float, or the printed limit. *)
Inductive limit_value : Type :=
| LimitFloat (f : pyfloat)
| LimitStr (s : string).

(** The values stored in the summary dictionary. *)
Inductive pyvalue : Type :=
| PyNone
| PyInt (z : Z)
| PyFloat (f : pyfloat)
| PyStr (s : string)
| PyList (l : list pyvalue)
| PyTuple (l : list pyvalue).

Definition of_optional {A} (f : A -> pyvalue) (o : option A) : pyvalue :=
  match o with Some a => f a | None => PyNone end.

Definition of_number (n : number) : pyvalue :=
  match n with Int z => PyInt z | Float f => PyFloat f end.

Definition of_limit_value (v : limit_value) : pyvalue :=
  match v with LimitFloat f => PyFloat f | LimitStr s => PyStr s end.

Definition of_hole (h : pyfloat * pyfloat) : pyvalue :=
  PyTuple [PyFloat (fst h); PyFloat (snd h)].

(** A dictionary with string keys, in insertion order. *)
Definition dict : Type := list (string * pyvalue).

Definition keys (d : dict) : list string := map fst d.

Fixpoint get (d : dict) (k : string) : option pyvalue :=
  match d with
  | [] => None
  | (k', v) :: rest => if String.eqb k k' then Some v else get rest k
  end.

(** [sorted] on a list of floats: stable, and decided by [<] alone. *)
Fixpoint insert_sorted (x : pyfloat) (l : list pyfloat) : list pyfloat :=
  match l with
  | [] => [x]
  | y :: rest => if float_lt x y then x :: y :: rest else y :: insert_sorted x rest
  end.

Definition sorted (l : list pyfloat) : list pyfloat :=
  fold_left (fun acc x => insert_sorted x acc) l [].
End Values.

(** ** The object and the method monad *)

Section Analyzer.
Context {S : Sympy}.

(** The attributes [__init__] assigns.  An attribute that was never
    assigned is [None]; reading it raises [AttributeError]. *)
Record RationalAnalyzer : Type := {
  numerator : option Expr;
  denominator : option Expr;
  function : option Expr;
  valid : bool;
  error_message : option string
}.

(** A method body: reads and writes [self], returns or raises. *)
Definition M (A : Type) : Type := RationalAnalyzer -> result A * RationalAnalyzer.

Definition ret {A} (a : A) : M A := fun self => (Ok a, self).

Definition bind {A B} (m : M A) (k : A -> M B) : M B :=
  fun self =>
    match m self with
    | (Ok a, self') => k a self'
    | (Raise e, self') => (Raise e, self')
    end.

(** A library call: no access to [self]. *)
Definition call {A} (r : result A) : M A := fun self => (r, self).

(** [try: m  except ... as e: h e] -- assignments made before the
    exception are kept. *)
Definition try_except {A} (m : M A) (h : string -> M A) : M A :=
  fun self =>
    match m self with
    | (Ok a, self') => (Ok a, self')
    | (Raise e, self') => h e self'
    end.

Definition getattr {A} (attr : RationalAnalyzer -> option A) : M A :=
  fun self =>
    match attr self with
    | Some a => (Ok a, self)
    | None => (Raise "AttributeError", self)
    end.

Definition get_valid : M bool := fun self => (Ok (valid self), self).

Definition setattr (update : RationalAnalyzer -> RationalAnalyzer) : M unit :=
  fun self => (Ok tt, update self).
End Analyzer.

Declare Scope py_scope.
Delimit Scope py_scope with py.
Notation "x <- m ;; k" := (bind m (fun x => k))
  (at level 61, m at next level, right associativity) : py_scope.
Notation "m ;;; k" := (bind m (fun _ => k))
  (at level 61, right associativity) : py_scope.
Local Open Scope py_scope.

Section Methods.
Context {S : Sympy}.

(** [for x in l: body] with the local list the body appends to. *)
Fixpoint for_each {A B} (l : list A) (body : A -> B -> M B) (acc : B) : M B :=
  match l with
  | [] => ret acc
  | x :: rest => acc' <- body x acc ;; for_each rest body acc'
  end.

(** [any(test(h) for h in l)]: stops at the first true element. *)
Fixpoint any {A} (test : A -> M bool) (l : list A) : M bool :=
  match l with
  | [] => ret false
  | h :: rest => b <- test h ;; if b then ret true else any test rest
  end.

Definition set_numerator (e : Expr) (self : RationalAnalyzer) : RationalAnalyzer :=
  {| numerator := Some e; denominator := denominator self;
     function := function self; valid := valid self;
     error_message := error_message self |}.

Definition set_denominator (e : Expr) (self : RationalAnalyzer) : RationalAnalyzer :=
  {| numerator := numerator self; denominator := Some e;
     function := function self; valid := valid self;
     error_message := error_message self |}.

Definition set_function (e : Expr) (self : RationalAnalyzer) : RationalAnalyzer :=
  {| numerator := numerator self; denominator := denominator self;
     function := Some e; valid := valid self;
     error_message := error_message self |}.

Definition set_valid (b : bool) (self : RationalAnalyzer) : RationalAnalyzer :=
  {| numerator := numerator self; denominator := denominator self;
     function := function self; valid := b;
     error_message := error_message self |}.

Definition set_error_message (m : option string) (self : RationalAnalyzer)
  : RationalAnalyzer :=
  {| numerator := numerator self; denominator := denominator self;
     function := function self; valid := valid self;
     error_message := m |}.

(** [RationalAnalyzer.__init__] *)
Definition __init__ (numerator_str denominator_str : string) : M unit :=
  try_except
    (n <- call (sp_sympify numerator_str) ;;
     setattr (set_numerator n) ;;;
     d <- call (sp_sympify denominator_str) ;;
     setattr (set_denominator d) ;;;
     n <- getattr numerator ;;
     d <- getattr denominator ;;
     f <- call (truediv n d) ;;
     setattr (set_function f) ;;;
     setattr (set_valid true) ;;;
     setattr (set_error_message None))
    (fun e =>
     setattr (set_valid false) ;;;
     setattr (set_error_message (Some ("Invalid function: " ++ e)%string))).

(** The object before [__init__] has run. *)
Definition blank : RationalAnalyzer :=
  {| numerator := None; denominator := None; function := None;
     valid := false; error_message := None |}.

(** [RationalAnalyzer(numerator_str, denominator_str)] *)
Definition new (numerator_str denominator_str : string) : RationalAnalyzer :=
  snd (__init__ numerator_str denominator_str blank).

(** The body of the loop over [common_roots] in [find_holes]. *)
Definition hole_step (common_factors root : Expr) (holes : list (pyfloat * pyfloat))
  : M (list (pyfloat * pyfloat)) :=
  if truthy (is_real root) then
    n <- getattr numerator ;;
    qn <- call (truediv n common_factors) ;;
    simplified_num <- call (sp_simplify qn) ;;
    d <- getattr denominator ;;
    qd <- call (truediv d common_factors) ;;
    simplified_den <- call (sp_simplify qd) ;;
    vn <- call (subs simplified_num root) ;;
    vd <- call (subs simplified_den root) ;;
    q <- call (truediv vn vd) ;;
    y_val <- call (py_float q) ;;
    x_val <- call (py_float root) ;;
    ret (holes ++ [(x_val, y_val)])
  else ret holes.

(** [RationalAnalyzer.find_holes] *)
Definition find_holes : M (list (pyfloat * pyfloat)) :=
  v <- get_valid ;;
  if negb v then ret []
  else
    try_except
      (n <- getattr numerator ;;
       num_factors <- call (sp_factor n) ;;
       d <- getattr denominator ;;
       den_factors <- call (sp_factor d) ;;
       n <- getattr numerator ;;
       d <- getattr denominator ;;
       common_factors <- call (sp_gcd n d) ;;
       if eq_int common_factors 1 then ret []
       else
         common_roots <- call (sp_solve common_factors) ;;
         for_each common_roots (hole_step common_factors) [])
      (fun _ => ret []).

(** [abs(hole[0] - x_val) < 1e-10] *)
Definition close_to (x_val : Expr) (hole : pyfloat * pyfloat) : M bool :=
  diff <- call (rsub (fst hole) x_val) ;;
  a <- call (py_abs diff) ;;
  call (lt_float a float_1e_10).

(** [RationalAnalyzer.is_hole] *)
Definition is_hole (x_val : Expr) : M bool :=
  holes <- find_holes ;;
  any (close_to x_val) holes.

(** The body of the loop over the roots, the same in
    [find_vertical_asymptotes] and [find_x_intercepts]: append the float
    of a real root that is not a hole. *)
Definition keep_step (root : Expr) (kept : list pyfloat) : M (list pyfloat) :=
  if truthy (is_real root) then
    h <- is_hole root ;;
    if negb h then
      f <- call (py_float root) ;;
      ret (kept ++ [f])
    else ret kept
  else ret kept.

(** [RationalAnalyzer.find_vertical_asymptotes] *)
Definition find_vertical_asymptotes : M (list pyfloat) :=
  v <- get_valid ;;
  if negb v then ret []
  else
    try_except
      (d <- getattr denominator ;;
       denom_roots <- call (sp_solve d) ;;
       asymptotes <- for_each denom_roots keep_step [] ;;
       ret (sorted asymptotes))
      (fun _ => ret []).

(** [RationalAnalyzer.find_horizontal_asymptote] *)
Definition find_horizontal_asymptote : M (option number) :=
  v <- get_valid ;;
  if negb v then ret None
  else
    try_except
      (n <- getattr numerator ;;
       num_degree <- call (sp_degree n) ;;
       d <- getattr denominator ;;
       den_degree <- call (sp_degree d) ;;
       if degree_lt num_degree den_degree then ret (Some (Int 0))
       else if degree_eq num_degree den_degree then
         n <- getattr numerator ;;
         num_leading <- call (sp_LC n) ;;
         d <- getattr denominator ;;
         den_leading <- call (sp_LC d) ;;
         q <- call (truediv num_leading den_leading) ;;
         f <- call (py_float q) ;;
         ret (Some (Float f))
       else ret None)
      (fun _ => ret None).

(** [RationalAnalyzer.find_x_intercepts] *)
Definition find_x_intercepts : M (list pyfloat) :=
  v <- get_valid ;;
  if negb v then ret []
  else
    try_except
      (n <- getattr numerator ;;
       num_roots <- call (sp_solve n) ;;
       intercepts <- for_each num_roots keep_step [] ;;
       ret (sorted intercepts))
      (fun _ => ret []).

(** [RationalAnalyzer.find_y_intercept] *)
Definition find_y_intercept : M (option pyfloat) :=
  v <- get_valid ;;
  if negb v then ret None
  else
    try_except
      (d <- getattr denominator ;;
       d0 <- call (subs d (sp_Integer 0)) ;;
       if negb (eq_int d0 0) then
         f <- getattr function ;;
         f0 <- call (subs f (sp_Integer 0)) ;;
         y <- call (py_float f0) ;;
         ret (Some y)
       else ret None)
      (fun _ => ret None).

(** [float(l) if l.is_finite else str(l)], with the fallback to
    [str(l)] when that raises. *)
Definition float_or_str (l : Expr) : M limit_value :=
  try_except
    (if truthy (is_finite l) then
       f <- call (py_float l) ;; ret (LimitFloat f)
     else
       s <- call (py_str l) ;; ret (LimitStr s))
    (fun _ => s <- call (py_str l) ;; ret (LimitStr s)).

(** [RationalAnalyzer.analyze_end_behavior] *)
Definition analyze_end_behavior : M (option limit_value * option limit_value) :=
  v <- get_valid ;;
  if negb v then ret (None, None)
  else
    try_except
      (f <- getattr function ;;
       limit_pos_inf <- call (sp_limit f PlusInfinity) ;;
       f <- getattr function ;;
       limit_neg_inf <- call (sp_limit f MinusInfinity) ;;
       limit_pos_inf <- float_or_str limit_pos_inf ;;
       limit_neg_inf <- float_or_str limit_neg_inf ;;
       ret (Some limit_neg_inf, Some limit_pos_inf))
      (fun _ => ret (None, None)).

(** [RationalAnalyzer.get_analysis_summary] *)
Definition get_analysis_summary : M dict :=
  v <- get_valid ;;
  if negb v then
    fun self => (Ok [("error", of_optional PyStr (error_message self))], self)
  else
    va <- find_vertical_asymptotes ;;
    ha <- find_horizontal_asymptote ;;
    holes <- find_holes ;;
    xi <- find_x_intercepts ;;
    yi <- find_y_intercept ;;
    eb <- analyze_end_behavior ;;
    ret [("vertical_asymptotes", PyList (map PyFloat va));
         ("horizontal_asymptote", of_optional of_number ha);
         ("holes", PyList (map of_hole holes));
         ("x_intercepts", PyList (map PyFloat xi));
         ("y_intercept", of_optional PyFloat yi);
         ("end_behavior",
          PyTuple [of_optional of_limit_value (fst eb);
                   of_optional of_limit_value (snd eb)])].
End Methods.


(** * A reference instance of the library interface

    The library itself is not part of the repository.  [PolyCAS]
    implements the interface on the inputs the specification's scenarios
    use: polynomials in [x] with rational coefficients, written with
    [+ - * / **], integer literals and parentheses, whose roots are all
    rational.  Floats are IEEE binary64 values ([spec_float] at precision
    53).  Outside that fragment an operation answers [Raise] with a
    message starting with [unsupported]; such answers say nothing
    about the library. *)

Module PolyCAS.

(** Modelled from the spec: the PolynomialExpression of section 3, as the
    coefficient list of a polynomial by increasing degree, without
    trailing zeros and with reduced fractions. *)
Definition poly : Type := list Q.

Definition norm (p : poly) : poly :=
  fold_right
    (fun c acc =>
       match acc with
       | [] => if Qeq_bool c 0 then [] else [Qred c]
       | _ => Qred c :: acc
       end) [] p.

Fixpoint padd_raw (p q : poly) : poly :=
  match p, q with
  | [], _ => q
  | _, [] => p
  | a :: p', b :: q' => (a + b)%Q :: padd_raw p' q'
  end.

Definition padd (p q : poly) : poly := norm (padd_raw p q).

Definition pscale (c : Q) (p : poly) : poly := norm (map (Qmult c) p).

Definition pneg (p : poly) : poly := pscale (-1 # 1) p.

Definition psub (p q : poly) : poly := padd p (pneg q).

Fixpoint pmul (p q : poly) : poly :=
  match p with
  | [] => []
  | a :: p' => padd (pscale a q) (norm (0%Q :: pmul p' q))
  end.

Fixpoint ppow (p : poly) (n : nat) : poly :=
  match n with
  | O => [1%Q]
  | S k => pmul p (ppow p k)
  end.

(** Modelled from the spec: evaluation at a numeric point (section 3). *)
Definition peval (p : poly) (x : Q) : Q :=
  Qred (fold_right (fun c acc => c + x * acc)%Q 0%Q p).

(** Modelled from the spec: the leading-coefficient query (section 3). *)
Definition lead (p : poly) : Q := last p 0%Q.

(** Modelled from the spec: the degree query (section 3); the zero
    polynomial has degree [-oo]. *)
Definition pdegree (p : poly) : degree_value :=
  match p with
  | [] => NegativeInfinity
  | _ :: t => Degree (N.of_nat (List.length t))
  end.

Definition monomial (c : Q) (k : nat) : poly := norm (repeat 0%Q k ++ [c]).

(** Long division by a non-zero polynomial: quotient and remainder. *)
Fixpoint pdivmod_loop (fuel : nat) (a b q : poly) : poly * poly :=
  match fuel with
  | O => (q, a)
  | S k =>
      if (List.length a <? List.length b)%nat then (q, a)
      else
        let t := monomial (lead a / lead b) (List.length a - List.length b) in
        pdivmod_loop k (psub a (pmul t b)) b (padd q t)
  end.

Definition pdivmod (a b : poly) : poly * poly := pdivmod_loop (List.length a) a b [].

Fixpoint pgcd_loop (fuel : nat) (a b : poly) : poly :=
  match fuel with
  | O => a
  | S k =>
      match b with
      | [] => a
      | _ => pgcd_loop k b (snd (pdivmod a b))
      end
  end.

Definition monic (p : poly) : poly :=
  match p with
  | [] => []
  | _ => pscale (/ lead p) p
  end.

Definition pgcd_monic (a b : poly) : poly :=
  monic (pgcd_loop (Datatypes.S (List.length a + List.length b)) a b).

Definition is_integral (p : poly) : bool :=
  forallb (fun c => Pos.eqb (Qden c) 1) p.

Definition content (p : poly) : Z :=
  fold_right (fun c g => Z.gcd (Qnum c) g) 0 p.

Definition denominators_lcm (p : poly) : Z :=
  fold_right (fun c l => Z.lcm (Zpos (Qden c)) l) 1 p.

(** Modelled from the spec: the greatest common divisor of section 3.
    For integer polynomials it is the integer gcd (content times
    primitive part, positive leading coefficient), otherwise monic. *)
Definition poly_gcd (a b : poly) : poly :=
  let g := pgcd_monic a b in
  if is_integral a && is_integral b then
    pscale (inject_Z (Z.gcd (content a) (content b)))
           (pscale (inject_Z (denominators_lcm g)) g)
  else g.

(** Rational roots: the candidates [p/q] with [p] dividing the constant
    and [q] the leading coefficient of the integer multiple. *)
Definition divisors (n : Z) : list Z :=
  filter (fun k => Z.eqb (n mod k) 0)
         (map Z.of_nat (seq 1 (Z.to_nat (Z.abs n)))).

Fixpoint strip_zero_root (p : poly) : poly :=
  match p with
  | c :: rest => if Qeq_bool c 0 then strip_zero_root rest else p
  | [] => []
  end.

Definition candidates (p : poly) : list Q :=
  let l := denominators_lcm p in
  let zs := map (fun c => Qnum (Qred (c * inject_Z l))) p in
  flat_map
    (fun n =>
       flat_map (fun d => [Qred (n # Z.to_pos d); Qred (- n # Z.to_pos d)])
                (divisors (last zs 0)))
    (divisors (hd 0 zs)).

Fixpoint insert_root (r : Q) (l : list Q) : list Q :=
  match l with
  | [] => [r]
  | s :: rest =>
      if Qeq_bool r s then l
      else if Qle_bool r s then r :: l
      else s :: insert_root r rest
  end.

Definition rational_roots (p : poly) : list Q :=
  let p' := strip_zero_root p in
  let zero := match p with c :: _ => if Qeq_bool c 0 then [0%Q] else [] | [] => [] end in
  fold_right insert_root []
    (zero ++ filter (fun r => Qeq_bool (peval p' r) 0) (candidates p')).

Fixpoint deflate (fuel : nat) (p : poly) (r : Q) : poly :=
  match fuel with
  | O => p
  | S k =>
      if Qeq_bool (peval p r) 0 && (1 <? List.length p)%nat
      then deflate k (fst (pdivmod p [Qopp r; 1%Q])) r
      else p
  end.

Definition splits (p : poly) (roots : list Q) : bool :=
  (List.length (fold_left (fun acc r => deflate (List.length p) acc r) roots p) <=? 1)%nat.

(** Modelled from the spec: root-finding (section 3), on polynomials
    whose roots are all rational: the distinct roots in ascending order. *)
Definition solve_poly (p : poly) : result (list Q) :=
  match p with
  | [] => Ok []
  | _ =>
      let rs := rational_roots p in
      if splits p rs then Ok rs
      else Raise "unsupported: a polynomial with irrational or complex roots"
  end.

(** ** Floats *)

Definition prec : Z := 53.
Definition emax : Z := 1024.

(** The binary64 value nearest to a rational. *)
Definition float_of_Q (q : Q) : spec_float :=
  let r := Qred q in
  match Qnum r with
  | Z0 => S754_zero false
  | Zpos n => SFdiv prec emax (S754_finite false n 0) (S754_finite false (Qden r) 0)
  | Zneg n => SFdiv prec emax (S754_finite true n 0) (S754_finite false (Qden r) 0)
  end.

(** ** Library objects *)

Inductive expr : Type :=
| Quotient (num den : poly)      (* num/den; a polynomial has den = [1] *)
| FloatNumber (f : spec_float)   (* a Float *)
| Infinity (negative : bool)     (* oo and -oo *)
| ComplexInfinity                (* zoo *)
| NaN.                           (* nan *)

Definition rational (q : Q) : expr := Quotient (norm [q]) [1%Q].

Definition as_poly (e : expr) : option poly :=
  match e with
  | Quotient p [c] => if Qeq_bool c 1 then Some p else None
  | _ => None
  end.

Definition as_number (e : expr) : option Q :=
  match as_poly e with
  | Some [] => Some 0%Q
  | Some [c] => Some c
  | _ => None
  end.

(** The value of [n/d] after the automatic evaluation of numbers:
    division by the number zero gives [zoo] (or [nan] for 0/0) and raises
    nothing. *)
Definition quotient (n d : poly) : expr :=
  match d with
  | [] =>
      match n with
      | [] => NaN
      | [_] => ComplexInfinity
      | _ => Quotient n []
      end
  | [c] => Quotient (pscale (/ c) n) [1%Q]
  | _ =>
      match n with
      | [] => Quotient [] [1%Q]
      | _ => Quotient n d
      end
  end.

Definition unsupported {A} : result A := Raise "unsupported: outside the polynomial fragment".

(** Modelled from the spec: the ratio numerator/denominator of section 4.1. *)
Definition poly_truediv (a b : expr) : result expr :=
  match a, b with
  | Quotient n1 ((_ :: _) as d1), Quotient n2 ((_ :: _) as d2) =>
      Ok (quotient (pmul n1 d2) (pmul d1 n2))
  | _, _ => unsupported
  end.

(** Modelled from the spec: substitution at a numeric point (section 3). *)
Definition poly_subs (e v : expr) : result expr :=
  match e with
  | Quotient n d =>
      match as_number v with
      | Some q => Ok (quotient (norm [peval n q]) (norm [peval d q]))
      | None => unsupported
      end
  | _ => Ok e
  end.

(** Modelled from the spec: symbolic simplification (section 3), here the
    cancellation of the common factor of a quotient. *)
Definition poly_simplify (e : expr) : result expr :=
  match e with
  | Quotient n ((_ :: _) as d) =>
      let g := pgcd_monic n d in
      Ok (quotient (fst (pdivmod n g)) (fst (pdivmod d g)))
  | _ => Ok e
  end.

(** Modelled from the spec: the degree query of section 3, as [sp.degree]
    answers it: an exception on what is no polynomial. *)
Definition poly_degree (e : expr) : result degree_value :=
  match as_poly e with
  | Some p => Ok (pdegree p)
  | None => Raise "PolynomialError"
  end.

(** Modelled from the spec: the leading-coefficient query of section 3. *)
Definition poly_LC (e : expr) : result expr :=
  match as_poly e with
  | Some p => Ok (rational (lead p))
  | None => Raise "PolynomialError"
  end.

(** Modelled from the spec: the greatest common divisor of two
    expressions (sections 3 and 4.4). *)
Definition poly_gcd_expr (a b : expr) : result expr :=
  match as_poly a, as_poly b with
  | Some p, Some q => Ok (Quotient (poly_gcd p q) [1%Q])
  | _, _ => unsupported
  end.

(** Modelled from the spec: root-finding on an expression (sections 3
    and 4.2). *)
Definition poly_solve (e : expr) : result (list expr) :=
  match as_poly e with
  | Some p =>
      match solve_poly p with
      | Ok rs => Ok (map rational rs)
      | Raise m => Raise m
      end
  | None => unsupported
  end.

(** Modelled from the spec: limit evaluation as the variable tends to
    plus or minus infinity (sections 3 and 4.7): degree comparison, the
    sign of the leading coefficients and the parity of the degree
    difference. *)
Definition poly_limit (e : expr) (dir : direction) : result expr :=
  match e with
  | Quotient n ((_ :: _) as d) =>
      match pdegree n, pdegree d with
      | Degree a, Degree b =>
          if N.ltb a b then Ok (rational 0)
          else if N.eqb a b then Ok (rational (Qred (lead n / lead d)))
          else
            let negative_ratio := negb (Qle_bool 0 (lead n / lead d)) in
            let flips :=
              match dir with
              | PlusInfinity => false
              | MinusInfinity => N.odd (a - b)
              end in
            Ok (Infinity (xorb negative_ratio flips))
      | _, _ => Ok (rational 0)
      end
  | Quotient _ [] => unsupported
  | _ => Ok e
  end.

(** Modelled from the spec: which library objects are real numbers
    (section 4.2 retains real roots only); unknown for what contains [x]. *)
Definition poly_is_real (e : expr) : option bool :=
  match e with
  | Quotient _ _ => match as_number e with Some _ => Some true | None => None end
  | FloatNumber _ => Some true
  | Infinity _ => Some false
  | ComplexInfinity => Some false
  | NaN => None
  end.

(** Modelled from the spec: which limits are finite numbers rather than
    symbolic tokens (section 4.7). *)
Definition poly_is_finite (e : expr) : option bool :=
  match e with
  | Quotient _ _ => match as_number e with Some _ => Some true | None => None end
  | FloatNumber _ => Some true
  | Infinity _ => Some false
  | ComplexInfinity => Some false
  | NaN => None
  end.

(** Modelled from the spec: comparison of a value with an integer, as in
    "denominator at 0 is nonzero" (section 4.6). *)
Definition poly_eq_int (e : expr) (k : Z) : bool :=
  match as_number e with
  | Some q => Qeq_bool q (inject_Z k)
  | None => false
  end.

(** Modelled from the spec: conversion of a value to a floating-point
    number (sections 4.2 to 4.7); [oo] and [nan] convert, [zoo] and
    whatever contains [x] raise. *)
Definition poly_float (e : expr) : result spec_float :=
  match e with
  | Quotient _ _ =>
      match as_number e with
      | Some q => Ok (float_of_Q q)
      | None => Raise "TypeError: Cannot convert expression to float"
      end
  | FloatNumber f => Ok f
  | Infinity negative => Ok (S754_infinity negative)
  | ComplexInfinity => Raise "TypeError: Cannot convert complex to float"
  | NaN => Ok S754_nan
  end.

(** Modelled from the spec: the symbolic tokens of section 4.7. *)
Definition poly_str (e : expr) : result string :=
  match e with
  | Infinity false => Ok "oo"
  | Infinity true => Ok "-oo"
  | ComplexInfinity => Ok "zoo"
  | NaN => Ok "nan"
  | _ => unsupported
  end.

(** Modelled from the spec: a float minus a library number, computed in
    binary64 (the hole test of section 4.5). *)
Definition poly_rsub (f : spec_float) (e : expr) : result expr :=
  match e with
  | Quotient _ _ =>
      match as_number e with
      | Some q => Ok (FloatNumber (SFsub prec emax f (float_of_Q q)))
      | None => unsupported
      end
  | FloatNumber g => Ok (FloatNumber (SFsub prec emax f g))
  | _ => unsupported
  end.

(** Modelled from the spec: the absolute value in the hole test. *)
Definition poly_abs (e : expr) : result expr :=
  match e with
  | FloatNumber f => Ok (FloatNumber (SFabs f))
  | Infinity _ => Ok (Infinity false)
  | Quotient _ _ =>
      match as_number e with
      | Some q => Ok (rational (Qabs q))
      | None => unsupported
      end
  | _ => unsupported
  end.

(** Modelled from the spec: the comparison with the tolerance in the
    hole test. *)
Definition poly_lt_float (e : expr) (f : spec_float) : result bool :=
  match e with
  | FloatNumber g => Ok (SFltb g f)
  | Quotient _ _ =>
      match as_number e with
      | Some q => Ok (SFltb (float_of_Q q) f)
      | None => Raise "TypeError: cannot determine truth value of Relational"
      end
  | _ => unsupported
  end.

(** ** Parsing *)

Inductive token : Type :=
| TNumber (n : Z)
| TSymbol
| TPlus
| TMinus
| TStar
| TDoubleStar
| TSlash
| TOpen
| TClose.

Definition flush (cur : option Z) (ts : list token) : list token :=
  match cur with
  | Some n => TNumber n :: ts
  | None => ts
  end.

Fixpoint lex (s : string) (cur : option Z) : option (list token) :=
  match s with
  | EmptyString => Some (flush cur [])
  | String c rest =>
      let n := Z.of_nat (nat_of_ascii c) in
      let emit (t : token) (r : option (list token)) :=
        option_map (fun ts => flush cur (t :: ts)) r in
      if (48 <=? n) && (n <=? 57) then
        lex rest (Some (10 * match cur with Some v => v | None => 0 end + (n - 48)))
      else if Ascii.eqb c " " then option_map (flush cur) (lex rest None)
      else if Ascii.eqb c "x" then emit TSymbol (lex rest None)
      else if Ascii.eqb c "+" then emit TPlus (lex rest None)
      else if Ascii.eqb c "-" then emit TMinus (lex rest None)
      else if Ascii.eqb c "/" then emit TSlash (lex rest None)
      else if Ascii.eqb c "(" then emit TOpen (lex rest None)
      else if Ascii.eqb c ")" then emit TClose (lex rest None)
      else if Ascii.eqb c "*" then
        match rest with
        | String c' rest' =>
            if Ascii.eqb c' "*" then emit TDoubleStar (lex rest' None)
            else emit TStar (lex rest None)
        | EmptyString => emit TStar (lex rest None)
        end
      else None
  end.

Inductive parsed : Type :=
| Parsed (p : poly) (rest : list token)
| SyntaxError
| Unsupported.

Fixpoint parse_sum (fuel : nat) (ts : list token) : parsed :=
  match fuel with
  | O => Unsupported
  | S k =>
      match parse_product k ts with
      | Parsed a rest => sum_tail k a rest
      | err => err
      end
  end
with sum_tail (fuel : nat) (acc : poly) (ts : list token) : parsed :=
  match fuel with
  | O => Unsupported
  | S k =>
      match ts with
      | TPlus :: ts' =>
          match parse_product k ts' with
          | Parsed b rest => sum_tail k (padd acc b) rest
          | err => err
          end
      | TMinus :: ts' =>
          match parse_product k ts' with
          | Parsed b rest => sum_tail k (psub acc b) rest
          | err => err
          end
      | _ => Parsed acc ts
      end
  end
with parse_product (fuel : nat) (ts : list token) : parsed :=
  match fuel with
  | O => Unsupported
  | S k =>
      match parse_unary k ts with
      | Parsed a rest => product_tail k a rest
      | err => err
      end
  end
with product_tail (fuel : nat) (acc : poly) (ts : list token) : parsed :=
  match fuel with
  | O => Unsupported
  | S k =>
      match ts with
      | TStar :: ts' =>
          match parse_unary k ts' with
          | Parsed b rest => product_tail k (pmul acc b) rest
          | err => err
          end
      | TSlash :: ts' =>
          match parse_unary k ts' with
          | Parsed [c] rest => product_tail k (pscale (/ c) acc) rest
          | Parsed _ _ => Unsupported
          | err => err
          end
      | _ => Parsed acc ts
      end
  end
with parse_unary (fuel : nat) (ts : list token) : parsed :=
  match fuel with
  | O => Unsupported
  | S k =>
      match ts with
      | TMinus :: ts' =>
          match parse_unary k ts' with
          | Parsed a rest => Parsed (pneg a) rest
          | err => err
          end
      | TPlus :: ts' => parse_unary k ts'
      | _ => parse_power k ts
      end
  end
with parse_power (fuel : nat) (ts : list token) : parsed :=
  match fuel with
  | O => Unsupported
  | S k =>
      match parse_atom k ts with
      | Parsed a (TDoubleStar :: TNumber n :: TDoubleStar :: _) => Unsupported
      | Parsed a (TDoubleStar :: TNumber n :: rest) => Parsed (ppow a (Z.to_nat n)) rest
      | Parsed a [TDoubleStar] => SyntaxError
      | Parsed a (TDoubleStar :: _) => Unsupported
      | r => r
      end
  end
with parse_atom (fuel : nat) (ts : list token) : parsed :=
  match fuel with
  | O => Unsupported
  | S k =>
      match ts with
      | TNumber n :: rest => Parsed (norm [inject_Z n]) rest
      | TSymbol :: rest => Parsed [0%Q; 1%Q] rest
      | TOpen :: ts' =>
          match parse_sum k ts' with
          | Parsed a (TClose :: rest) => Parsed a rest
          | Parsed _ _ => SyntaxError
          | err => err
          end
      | _ => SyntaxError
      end
  end.

(** Modelled from the spec: the expression parser of section 4.1, on
    polynomial formulas; a string that is no formula raises. *)
Definition poly_sympify (s : string) : result expr :=
  match lex s None with
  | None => unsupported
  | Some ts =>
      match parse_sum (6 * List.length ts + 10) ts with
      | Parsed p [] => Ok (Quotient p [1%Q])
      | Parsed _ (_ :: _) => Raise "SympifyError: could not parse"
      | SyntaxError => Raise "SympifyError: could not parse"
      | Unsupported => unsupported
      end
  end.

#[export] Instance sympy : Sympy := {|
  Expr := expr;
  pyfloat := spec_float;
  sp_sympify := poly_sympify;
  sp_solve := poly_solve;
  sp_degree := poly_degree;
  sp_LC := poly_LC;
  sp_factor := fun e => Ok e;
  sp_gcd := poly_gcd_expr;
  sp_simplify := poly_simplify;
  sp_limit := poly_limit;
  sp_Integer := fun z => rational (inject_Z z);
  truediv := poly_truediv;
  subs := poly_subs;
  is_real := poly_is_real;
  is_finite := poly_is_finite;
  eq_int := poly_eq_int;
  py_float := poly_float;
  py_str := poly_str;
  rsub := poly_rsub;
  py_abs := poly_abs;
  lt_float := poly_lt_float;
  float_1e_10 := float_of_Q (1 # 10000000000);
  float_lt := SFltb
|}.

End PolyCAS.

(** * Vocabulary of the statements *)

Section Vocabulary.
Context {S : Sympy}.

(** The value a method returns (or the exception it raises). *)
Definition eval {A} (m : M A) (self : RationalAnalyzer) : result A := fst (m self).

(** A method body that leaves every attribute as it found it. *)
Definition readonly {A} (m : M A) : Prop := forall self, snd (m self) = self.

(** Calling [m] and then [m] again: the object is unchanged after the
    first call and the second call returns what the first returned. *)
Definition same_twice {A} (m : M A) : Prop :=
  forall self,
    snd (m self) = self /\ fst (m (snd (m self))) = fst (m self).

(** The test [abs(hole[0] - x_val) < 1e-10] of [is_hole], as a function
    of the hole and the root. *)
Definition within_tolerance (hole : pyfloat * pyfloat) (x_val : Expr) : result bool :=
  match rsub (fst hole) x_val with
  | Ok diff =>
      match py_abs diff with
      | Ok a => lt_float a float_1e_10
      | Raise e => Raise e
      end
  | Raise e => Raise e
  end.

(** [r] is a root of [e]: substituting it gives zero. *)
Definition is_root (e r : Expr) : Prop :=
  exists v, subs e r = Ok v /\ eq_int v 0 = true.

(** Some hole is within the tolerance of [r]. *)
Definition near_a_hole (holes : list (pyfloat * pyfloat)) (r : Expr) : bool :=
  existsb
    (fun h => match within_tolerance h r with Ok b => b | Raise _ => false end)
    holes.

(** The roots the filter loop keeps: the real ones away from every hole. *)
Definition kept_roots (holes : list (pyfloat * pyfloat)) (roots : list Expr)
  : list Expr :=
  filter (fun r => truthy (is_real r) && negb (near_a_hole holes r)) roots.

(** The record [__init__] leaves behind when it succeeds. *)
Definition constructed (n d f : Expr) : RationalAnalyzer :=
  {| numerator := Some n; denominator := Some d; function := Some f;
     valid := true; error_message := None |}.
End Vocabulary.

(** The library with a limit evaluation that always fails. *)
Definition failing_limit (S : Sympy) : Sympy := {|
  Expr := @Expr S;
  pyfloat := @pyfloat S;
  sp_sympify := sp_sympify;
  sp_solve := sp_solve;
  sp_degree := sp_degree;
  sp_LC := sp_LC;
  sp_factor := sp_factor;
  sp_gcd := sp_gcd;
  sp_simplify := sp_simplify;
  sp_limit := fun _ _ => Raise "NotImplementedError";
  sp_Integer := sp_Integer;
  truediv := truediv;
  subs := subs;
  is_real := is_real;
  is_finite := is_finite;
  eq_int := eq_int;
  py_float := py_float;
  py_str := py_str;
  rsub := rsub;
  py_abs := py_abs;
  lt_float := lt_float;
  float_1e_10 := float_1e_10;
  float_lt := float_lt
|}.


(** Binary64 constants of the scenarios: mantissa times a power of two. *)
Definition float_1_0 : @pyfloat PolyCAS.sympy := S754_finite false 4503599627370496 (-52).
Definition float_2_0 : @pyfloat PolyCAS.sympy := S754_finite false 4503599627370496 (-51).
Definition float_minus_1_0 : @pyfloat PolyCAS.sympy := S754_finite true 4503599627370496 (-52).
Definition float_minus_0_5 : @pyfloat PolyCAS.sympy := S754_finite true 4503599627370496 (-53).


(** * The game around the analyzer (game_modes.py, app.py) *)

From Stdlib Require Import DecimalString.

(** ** Pure mirrors of the analyzer's loop bodies, for the statements *)

Section HoleVocabulary.
Context {S : Sympy}.

(** The hole [find_holes] computes from one real root [root] of the
    common factor [g]: the library calls of the loop body, in order. *)
Definition hole_at (n d g root : Expr) : result (pyfloat * pyfloat) :=
  match truediv n g with
  | Raise e => Raise e
  | Ok qn =>
  match sp_simplify qn with
  | Raise e => Raise e
  | Ok simplified_num =>
  match truediv d g with
  | Raise e => Raise e
  | Ok qd =>
  match sp_simplify qd with
  | Raise e => Raise e
  | Ok simplified_den =>
  match subs simplified_num root with
  | Raise e => Raise e
  | Ok vn =>
  match subs simplified_den root with
  | Raise e => Raise e
  | Ok vd =>
  match truediv vn vd with
  | Raise e => Raise e
  | Ok q =>
  match py_float q with
  | Raise e => Raise e
  | Ok y_val =>
  match py_float root with
  | Raise e => Raise e
  | Ok x_val => Ok (x_val, y_val)
  end end end end end end end end end.

(** One side of the end behaviour, from the limit [l]: the float when
    the limit is finite and converts, the printed limit otherwise. *)
Definition limit_side (l : Expr) : result limit_value :=
  let printed :=
    match py_str l with
    | Ok s => Ok (LimitStr s)
    | Raise e => Raise e
    end in
  if truthy (is_finite l) then
    match py_float l with
    | Ok f => Ok (LimitFloat f)
    | Raise _ => printed
    end
  else printed.

(** The dictionary [get_analysis_summary] builds from the six results. *)
Definition summary_of (va : list pyfloat) (ha : option number)
           (holes : list (pyfloat * pyfloat)) (xi : list pyfloat)
           (yi : option pyfloat)
           (eb : option limit_value * option limit_value) : dict :=
  [("vertical_asymptotes", PyList (map PyFloat va));
   ("horizontal_asymptote", of_optional of_number ha);
   ("holes", PyList (map of_hole holes));
   ("x_intercepts", PyList (map PyFloat xi));
   ("y_intercept", of_optional PyFloat yi);
   ("end_behavior",
    PyTuple [of_optional of_limit_value (fst eb);
             of_optional of_limit_value (snd eb)])].
End HoleVocabulary.

(** ** Python builtins the game uses on answers *)

Class Python (S : Sympy) : Type := {
  str_strip : string -> string;              (* s.strip() *)
  str_lower : string -> string;              (* s.lower() *)
  float_of_str : string -> result pyfloat;   (* float(s) *)
  float_of_int : Z -> pyfloat;               (* an int operand of float arithmetic *)
  float_sub : pyfloat -> pyfloat -> pyfloat; (* f - g *)
  float_abs : pyfloat -> pyfloat;            (* abs(f) *)
  float_eqb : pyfloat -> pyfloat -> bool;    (* f == g *)
  float_0_01 : pyfloat                       (* the literal 0.01 *)
}.

(** [s.split(',')]: the empty string splits into one empty piece. *)
Fixpoint split_comma (s : string) : list string :=
  match s with
  | EmptyString => [EmptyString]
  | String c rest =>
      if Ascii.eqb c "," then EmptyString :: split_comma rest
      else
        match split_comma rest with
        | piece :: pieces => String c piece :: pieces
        | [] => [String c EmptyString]
        end
  end.

(** [s.replace(old, new)] for a non-empty [old]: occurrences are replaced
    from left to right without overlap.  [skip] counts the characters of
    an occurrence still to be dropped. *)
Fixpoint replace_from (old new : string) (skip : nat) (s : string) : string :=
  match s with
  | EmptyString => EmptyString
  | String c rest =>
      match skip with
      | Datatypes.S k => replace_from old new k rest
      | O =>
          if String.prefix old s
          then (new ++ replace_from old new (String.length old - 1) rest)%string
          else String c (replace_from old new O rest)
      end
  end.

Definition replace (old new s : string) : string := replace_from old new O s.

(** [str(z)] for an int, as an f-string prints it. *)
Definition format_int (z : Z) : string := NilZero.string_of_int (Z.to_int z).

(** [s] with every occurrence of the character [c] deleted. *)
Fixpoint without (c : ascii) (s : string) : string :=
  match s with
  | EmptyString => EmptyString
  | String c' rest =>
      if Ascii.eqb c' c then without c rest else String c' (without c rest)
  end.

(** A dictionary with string keys and string values (the function data
    kept in the session). *)
Definition func_data : Type := list (string * string).

(** [d[key]] *)
Fixpoint getitem {V : Type} (d : list (string * V)) (key : string) : result V :=
  match d with
  | [] => Raise "KeyError"
  | (k, v) :: rest => if String.eqb key k then Ok v else getitem rest key
  end.

(** ** Random draws

    [random.randint(lo, hi)] against an arbitrary stream of raw draws:
    the [i]-th raw draw is reduced into [lo..hi]. *)
Definition Rand (A : Type) : Type := (nat -> N) -> nat -> A * nat.

Definition rand_ret {A} (a : A) : Rand A := fun _ i => (a, i).

Definition rand_bind {A B} (m : Rand A) (k : A -> Rand B) : Rand B :=
  fun raw i => let (a, j) := m raw i in k a raw j.

Definition randint (lo hi : Z) : Rand Z :=
  fun raw i => (lo + Z.of_N (raw i) mod (hi - lo + 1), Datatypes.S i).

Declare Scope rand_scope.
Delimit Scope rand_scope with rand.
Notation "x <~ m ;; k" := (rand_bind m (fun x => k))
  (at level 61, m at next level, right associativity) : rand_scope.

(** [[random.randint(lo, hi) for _ in range(n)]] *)
Fixpoint randints (n : nat) (lo hi : Z) : Rand (list Z) :=
  match n with
  | O => rand_ret []
  | Datatypes.S k =>
      (v <~ randint lo hi ;;
       vs <~ randints k lo hi ;;
       rand_ret (v :: vs))%rand
  end.

(** The dictionary stored for a generated function; the two latex
    conversions differ between the generators. *)
Definition function_entry (numerator denominator numerator_latex denominator_latex : string)
  : func_data :=
  [("numerator", numerator); ("denominator", denominator);
   ("numerator_latex", numerator_latex);
   ("denominator_latex", denominator_latex)].

(** [s.replace('*', '').replace('**', '^')] *)
Definition latex_of (s : string) : string := replace "**" "^" (replace "*" "" s).

(** [GameModes.generate_quiz_function]: reads the session level, returns
    the dictionary it stores under [quiz_function]. *)
Definition generate_quiz_function (session_level : Z) : Rand func_data :=
  let level := Z.min session_level 4 in
  if level =? 1 then
    (a <~ randint 1 3 ;;
     b <~ randint (-3) 3 ;;
     c <~ randint (-3) 3 ;;
     d <~ randint (-3) 3 ;;
     let c := if c =? 0 then 1 else c in
     let d := if d =? 0 then 1 else d in
     let numerator := (format_int a ++ "*x + " ++ format_int b)%string in
     let denominator := ("x + " ++ format_int c)%string in
     rand_ret (function_entry numerator denominator
                 (latex_of numerator) (latex_of denominator)))%rand
  else if level =? 2 then
    (a <~ randint 1 2 ;;
     b <~ randint (-2) 2 ;;
     c <~ randint (-3) 3 ;;
     d <~ randint (-3) 3 ;;
     let numerator := (format_int a ++ "*x + " ++ format_int b)%string in
     let denominator :=
       ("x**2 + " ++ format_int c ++ "*x + " ++ format_int d)%string in
     rand_ret (function_entry numerator denominator
                 (latex_of numerator) (latex_of denominator)))%rand
  else
    (coeffs <~ randints 6 (-2) 2 ;;
     let co := fun k => format_int (nth k coeffs 0) in
     let numerator :=
       (co 0%nat ++ "*x**2 + " ++ co 1%nat ++ "*x + " ++ co 2%nat)%string in
     let denominator :=
       (co 3%nat ++ "*x**2 + " ++ co 4%nat ++ "*x + " ++ co 5%nat)%string in
     rand_ret (function_entry numerator denominator
                 (latex_of numerator) (latex_of denominator)))%rand.

(** [GameModes.generate_builder_function]: returns the dictionary it
    stores under [builder_function]. *)
Definition generate_builder_function : Rand func_data :=
  (a <~ randint 1 2 ;;
   b <~ randint (-2) 2 ;;
   c <~ randint (-2) 2 ;;
   d <~ randint (-2) 2 ;;
   let numerator := (format_int a ++ "*x + " ++ format_int b)%string in
   let denominator :=
     ("(x + " ++ format_int c ++ ")*(x + " ++ format_int d ++ ")")%string in
   rand_ret (function_entry numerator denominator
               (replace "*" "" numerator) (latex_of denominator)))%rand.

(** One round of the loop of [generate_race_functions]. *)
Definition race_function : Rand func_data :=
  (coeffs <~ randints 4 1 3 ;;
   let co := fun k => format_int (nth k coeffs 0) in
   let numerator := (co 0%nat ++ "*x + " ++ co 1%nat)%string in
   let denominator := (co 2%nat ++ "*x + " ++ co 3%nat)%string in
   rand_ret (function_entry numerator denominator
               (replace "*" "" numerator) (replace "*" "" denominator)))%rand.

(** [GameModes.generate_race_functions]: [range(count)] is empty for a
    count below one. *)
Fixpoint race_functions_loop (rounds : nat) (functions : list func_data)
  : Rand (list func_data) :=
  match rounds with
  | O => rand_ret functions
  | Datatypes.S k =>
      (f <~ race_function ;;
       race_functions_loop k (functions ++ [f]))%rand
  end.

Definition generate_race_functions (count : Z) : Rand (list func_data) :=
  race_functions_loop (Z.to_nat count) [].

(** The functions of the race: both sides linear, every coefficient
    between 1 and 3. *)
Definition race_shaped (f : func_data) : Prop :=
  exists a b c d,
    1 <= a <= 3 /\ 1 <= b <= 3 /\ 1 <= c <= 3 /\ 1 <= d <= 3 /\
    f = function_entry
          (format_int a ++ "*x + " ++ format_int b)%string
          (format_int c ++ "*x + " ++ format_int d)%string
          (without "*" (format_int a ++ "*x + " ++ format_int b)%string)
          (without "*" (format_int c ++ "*x + " ++ format_int d)%string).

Section Game.
Context {S : Sympy} {P : Python S}.

(** [[float(x.strip()) for x in pieces if x.strip()]] *)
Fixpoint floats_of_pieces (pieces : list string) : result (list pyfloat) :=
  match pieces with
  | [] => Ok []
  | x :: rest =>
      match str_strip x with
      | EmptyString => floats_of_pieces rest
      | _ =>
          match float_of_str (str_strip x) with
          | Raise e => Raise e
          | Ok f =>
              match floats_of_pieces rest with
              | Raise e => Raise e
              | Ok fs => Ok (f :: fs)
              end
          end
      end
  end.

(** The floats of a list value, for [set(...)]; the summary only ever
    holds lists of floats under the keys read here. *)
Fixpoint floats_of_items (items : list pyvalue) : result (list pyfloat) :=
  match items with
  | [] => Ok []
  | PyFloat f :: rest =>
      match floats_of_items rest with
      | Raise e => Raise e
      | Ok fs => Ok (f :: fs)
      end
  | PyInt z :: rest =>
      match floats_of_items rest with
      | Raise e => Raise e
      | Ok fs => Ok (float_of_int z :: fs)
      end
  | _ :: _ => Raise "TypeError"
  end.

Definition floats_of_value (v : pyvalue) : result (list pyfloat) :=
  match v with
  | PyList items => floats_of_items items
  | PyTuple items => floats_of_items items
  | _ => Raise "TypeError"
  end.

(** [set(a) == set(b)] on floats: each element of one equals an element
    of the other. *)
Definition set_eq (a b : list pyfloat) : bool :=
  forallb (fun x => existsb (float_eqb x) b) a &&
  forallb (fun y => existsb (float_eqb y) a) b.

(** The right operand of [float - value]: a float, or an int converted. *)
Definition float_operand (v : pyvalue) : result pyfloat :=
  match v with
  | PyFloat f => Ok f
  | PyInt z => Ok (float_of_int z)
  | _ => Raise "TypeError"
  end.

Definition is_none (v : pyvalue) : bool :=
  match v with PyNone => true | _ => false end.

(** [analysis[key]] *)
Definition summary_item (analysis : dict) (key : string) : result pyvalue :=
  match get analysis key with
  | Some v => Ok v
  | None => Raise "KeyError"
  end.

(** [abs(float(answer.strip()) - correct) < 0.01] *)
Definition close_answer (answer : string) (correct : pyvalue) : M bool :=
  u <- call (float_of_str (str_strip answer)) ;;
  c <- call (float_operand correct) ;;
  ret (float_lt (float_abs (float_sub u c)) float_0_01).

(** The four graded blocks of [grade_quiz_answers]: each is one [try]
    statement that adds its points to [score] or leaves it, and whose
    [except] clause passes. *)
Definition check_vertical_asymptotes (analysis : dict) (va_answer : string)
           (score : Z) : M Z :=
  try_except
    (user_vas <- call (floats_of_pieces (split_comma va_answer)) ;;
     correct_vas <- call (summary_item analysis "vertical_asymptotes") ;;
     correct_set <- call (floats_of_value correct_vas) ;;
     if set_eq user_vas correct_set then ret (score + 2) else ret score)
    (fun _ => ret score).

Definition check_horizontal_asymptote (analysis : dict) (ha_answer : string)
           (score : Z) : M Z :=
  try_except
    (correct_ha <- call (summary_item analysis "horizontal_asymptote") ;;
     if String.eqb (str_lower (str_strip ha_answer)) "none"
        && is_none correct_ha
     then ret (score + 2)
     else if negb (is_none correct_ha) then
       ok <- close_answer ha_answer correct_ha ;;
       if ok then ret (score + 2) else ret score
     else ret score)
    (fun _ => ret score).

Definition check_x_intercepts (analysis : dict) (xi_answer : string)
           (score : Z) : M Z :=
  try_except
    (user_xis <- call (floats_of_pieces (split_comma xi_answer)) ;;
     correct_xis <- call (summary_item analysis "x_intercepts") ;;
     correct_set <- call (floats_of_value correct_xis) ;;
     if set_eq user_xis correct_set then ret (score + 1) else ret score)
    (fun _ => ret score).

Definition check_y_intercept (analysis : dict) (yi_answer : string)
           (score : Z) : M Z :=
  try_except
    (correct_yi <- call (summary_item analysis "y_intercept") ;;
     if negb (is_none correct_yi) then
       ok <- close_answer yi_answer correct_yi ;;
       if ok then ret (score + 1) else ret score
     else ret score)
    (fun _ => ret score).

(** [GameModes.grade_quiz_answers]; [self] is the analyzer. *)
Definition grade_quiz_answers (va_answer ha_answer xi_answer yi_answer : string)
  : M Z :=
  let score := 0 in
  analysis <- get_analysis_summary ;;
  score <- check_vertical_asymptotes analysis va_answer score ;;
  score <- check_horizontal_asymptote analysis ha_answer score ;;
  score <- check_x_intercepts analysis xi_answer score ;;
  score <- check_y_intercept analysis yi_answer score ;;
  ret score.

(** [GameModes.check_end_behavior] *)
Definition check_end_behavior (data : func_data)
           (neg_inf_answer pos_inf_answer : string) : result bool :=
  match getitem data "numerator" with
  | Raise e => Raise e
  | Ok numerator_str =>
      match getitem data "denominator" with
      | Raise e => Raise e
      | Ok denominator_str =>
          let analyzer := new numerator_str denominator_str in
          match fst (analyze_end_behavior analyzer) with
          | Raise e => Raise e
          | Ok (neg_limit, pos_limit) => Ok true
          end
      end
  end.
End Game.

(** ** Achievements (app.py) *)

(** The part of the session state [check_achievements] reads and writes. *)
Record session : Type := {
  score : Z;
  level : Z;
  achievements : list string
}.

(** [name in st.session_state.achievements] *)
Definition earned (name : string) (owned : list string) : bool :=
  existsb (String.eqb name) owned.

(** The message [st.success] shows for a new achievement. *)
Definition announce (achievement : string) : string :=
  ("🎉 Achievement Unlocked: " ++ achievement ++ "!")%string.

(** The loop of [check_achievements]: append what is not yet owned and
    announce it. *)
Fixpoint unlock (new_achievements : list string) (st : session)
         (messages : list string) : session * list string :=
  match new_achievements with
  | [] => (st, messages)
  | achievement :: rest =>
      if negb (earned achievement (achievements st)) then
        unlock rest
          {| score := score st; level := level st;
             achievements := achievements st ++ [achievement] |}
          (messages ++ [announce achievement])
      else unlock rest st messages
  end.

(** [check_achievements]: the new session state and the messages shown. *)
Definition check_achievements (st : session) : session * list string :=
  let new_achievements := [] in
  let new_achievements :=
    if (10 <=? score st) && negb (earned "First Steps" (achievements st))
    then new_achievements ++ ["First Steps"] else new_achievements in
  let new_achievements :=
    if (50 <=? score st) && negb (earned "Asymptote Ace" (achievements st))
    then new_achievements ++ ["Asymptote Ace"] else new_achievements in
  let new_achievements :=
    if (5 <=? level st) && negb (earned "Level Master" (achievements st))
    then new_achievements ++ ["Level Master"] else new_achievements in
  let new_achievements :=
    if (100 <=? score st) && negb (earned "Function Expert" (achievements st))
    then new_achievements ++ ["Function Expert"] else new_achievements in
  unlock new_achievements st [].

(** An achievement is due when its threshold is reached and it is not
    owned yet. *)
Definition due (name : string) (st : session) : Prop :=
  ~ In name (achievements st) /\
  ((name = "First Steps" /\ 10 <= score st) \/
   (name = "Asymptote Ace" /\ 50 <= score st) \/
   (name = "Level Master" /\ 5 <= level st) \/
   (name = "Function Expert" /\ 100 <= score st)).

(** ** A reference instance of the Python builtins, on ASCII text *)

Module AsciiPython.

Definition is_space (c : ascii) : bool :=
  let n := nat_of_ascii c in
  ((9 <=? n) && (n <=? 13) || (28 <=? n) && (n <=? 32))%nat.

Fixpoint lstrip (s : string) : string :=
  match s with
  | String c rest => if is_space c then lstrip rest else s
  | EmptyString => EmptyString
  end.

Fixpoint rev_string (s acc : string) : string :=
  match s with
  | EmptyString => acc
  | String c rest => rev_string rest (String c acc)
  end.

Definition strip (s : string) : string :=
  rev_string (lstrip (rev_string (lstrip s) EmptyString)) EmptyString.

Definition lower_char (c : ascii) : ascii :=
  let n := nat_of_ascii c in
  if ((65 <=? n) && (n <=? 90))%nat then ascii_of_nat (n + 32) else c.

Fixpoint lower (s : string) : string :=
  match s with
  | EmptyString => EmptyString
  | String c rest => String (lower_char c) (lower rest)
  end.

(** The blanks [float] itself skips around a numeral: fewer than
    [str.strip] removes. *)
Definition is_blank (c : ascii) : bool :=
  let n := nat_of_ascii c in
  ((9 <=? n) && (n <=? 13) || (n =? 32))%nat.

Fixpoint skip_blanks (s : string) : string :=
  match s with
  | String c rest => if is_blank c then skip_blanks rest else s
  | EmptyString => EmptyString
  end.

Definition trimmed (s : string) : string :=
  rev_string (skip_blanks (rev_string (skip_blanks s) EmptyString)) EmptyString.

(** A run of digits, where a single underscore may stand between two
    digits: the number read on top of [value], how many digits, and what
    follows; nothing when an underscore is not followed by a digit. *)
Fixpoint digitpart (s : string) (value : Z) (digits : nat) (after_underscore : bool)
  : option (Z * nat * string) :=
  match s with
  | String c rest =>
      let n := Z.of_nat (nat_of_ascii c) in
      if (48 <=? n) && (n <=? 57) then
        digitpart rest (10 * value + (n - 48)) (Datatypes.S digits) false
      else if Ascii.eqb c "_" && negb after_underscore && (0 <? digits)%nat then
        digitpart rest value digits true
      else if after_underscore then None
      else Some (value, digits, s)
  | EmptyString =>
      if after_underscore then None else Some (value, digits, s)
  end.

(** An optional sign: whether it is a minus, and what follows. *)
Definition signed (s : string) : bool * string :=
  match s with
  | String "-" rest => (true, rest)
  | String "+" rest => (false, rest)
  | _ => (false, s)
  end.

(** The float nearest to [mantissa * 10 ** (exponent - fraction_digits)],
    with the sign kept on a zero. *)
Definition decimal_value (negative : bool) (mantissa : Z) (fraction_digits : nat)
           (exponent : Z) : @pyfloat PolyCAS.sympy :=
  if mantissa =? 0 then S754_zero negative
  else
    let shift := exponent - Z.of_nat fraction_digits in
    let q :=
      if 0 <=? shift then inject_Z (mantissa * 10 ^ shift)
      else mantissa # Z.to_pos (10 ^ (- shift)) in
    PolyCAS.float_of_Q (if negative then (- q)%Q else q).

(** [float(s)] on ASCII text: blanks around, an optional sign, then
    [inf], [infinity] or [nan] in any case, or a decimal numeral with an
    optional fraction and an optional exponent, underscores allowed
    between digits. *)
Definition parse_float (s : string) : result (@pyfloat PolyCAS.sympy) :=
  let invalid := Raise "ValueError: could not convert string to float" in
  let (negative, body) := signed (trimmed s) in
  let word := lower body in
  if String.eqb word "inf" || String.eqb word "infinity" then
    Ok (S754_infinity negative)
  else if String.eqb word "nan" then Ok S754_nan
  else
    match digitpart body 0 O false with
    | None => invalid
    | Some (whole, whole_digits, after_whole) =>
        let fraction :=
          match after_whole with
          | String "." rest => digitpart rest whole O false
          | _ => Some (whole, O, after_whole)
          end in
        match fraction with
        | None => invalid
        | Some (mantissa, fraction_digits, after_fraction) =>
            if (whole_digits + fraction_digits =? 0)%nat then invalid
            else
              match after_fraction with
              | EmptyString =>
                  Ok (decimal_value negative mantissa fraction_digits 0)
              | String c rest =>
                  if Ascii.eqb c "e" || Ascii.eqb c "E" then
                    let (negative_exponent, digits_text) := signed rest in
                    match digitpart digits_text 0 O false with
                    | Some (e, Datatypes.S _, EmptyString) =>
                        Ok (decimal_value negative mantissa fraction_digits
                              (if negative_exponent then - e else e))
                    | _ => invalid
                    end
                  else invalid
              end
        end
    end.

#[export] Instance python : Python PolyCAS.sympy := {|
  str_strip := strip;
  str_lower := lower;
  float_of_str := parse_float;
  float_of_int := fun z => PolyCAS.float_of_Q (inject_Z z) : @pyfloat PolyCAS.sympy;
  float_sub := SFsub PolyCAS.prec PolyCAS.emax
               : @pyfloat PolyCAS.sympy -> @pyfloat PolyCAS.sympy -> @pyfloat PolyCAS.sympy;
  float_abs := SFabs : @pyfloat PolyCAS.sympy -> @pyfloat PolyCAS.sympy;
  float_eqb := SFeqb : @pyfloat PolyCAS.sympy -> @pyfloat PolyCAS.sympy -> bool;
  float_0_01 := PolyCAS.float_of_Q (1 # 100) : @pyfloat PolyCAS.sympy
|}.

End AsciiPython.

(** ** What the analyzer reports on the generated functions

    The features below are those of the analyzer run on the reference
    instance of the library, on the strings the generators build. *)

(** The binary64 value of a rational, as a float of the reference
    instance. *)
Definition binary64 (q : Q) : @pyfloat PolyCAS.sympy := PolyCAS.float_of_Q q.

(** A race function [(a*x + b)/(c*x + d)]: the function is accepted,
    both limits are the float of [a/c], and so is the horizontal
    asymptote. *)
Definition race_features (a b c d : Z) : Prop :=
  let numerator := (format_int a ++ "*x + " ++ format_int b)%string in
  let denominator := (format_int c ++ "*x + " ++ format_int d)%string in
  let analyzer := @new PolyCAS.sympy numerator denominator in
  let ratio := binary64 (inject_Z a / inject_Z c) in
  valid analyzer = true /\
  eval analyze_end_behavior analyzer
    = Ok (Some (LimitFloat ratio), Some (LimitFloat ratio)) /\
  eval find_horizontal_asymptote analyzer = Ok (Some (Float ratio)).

(** A quiz function of level 1, [(a*x + b)/(x + c)]: the horizontal
    asymptote is [a], the y-intercept [b/c]; when [b = a*c] the only
    discontinuity is the hole [(-c, a)] and there is no x-intercept,
    otherwise it is the vertical asymptote [-c] and the x-intercept is
    [-b/a]. *)
Definition level_one_features (a b c : Z) : Prop :=
  let numerator := (format_int a ++ "*x + " ++ format_int b)%string in
  let denominator := ("x + " ++ format_int c)%string in
  let analyzer := @new PolyCAS.sympy numerator denominator in
  valid analyzer = true /\
  eval find_horizontal_asymptote analyzer
    = Ok (Some (Float (binary64 (inject_Z a)))) /\
  eval find_y_intercept analyzer
    = Ok (Some (binary64 (inject_Z b / inject_Z c))) /\
  eval analyze_end_behavior analyzer
    = Ok (Some (LimitFloat (binary64 (inject_Z a))),
          Some (LimitFloat (binary64 (inject_Z a)))) /\
  if b =? a * c then
    eval find_holes analyzer
      = Ok [(binary64 (inject_Z (- c)), binary64 (inject_Z a))] /\
    eval find_vertical_asymptotes analyzer = Ok [] /\
    eval find_x_intercepts analyzer = Ok []
  else
    eval find_holes analyzer = Ok [] /\
    eval find_vertical_asymptotes analyzer = Ok [binary64 (inject_Z (- c))] /\
    eval find_x_intercepts analyzer
      = Ok [binary64 (inject_Z (- b) / inject_Z a)].

(** A builder function [(a*x + b)/((x + c)*(x + d))]: the horizontal
    asymptote is the int 0, both limits are 0.0, and at least one
    vertical asymptote is reported. *)
Definition builder_features (a b c d : Z) : Prop :=
  let numerator := (format_int a ++ "*x + " ++ format_int b)%string in
  let denominator :=
    ("(x + " ++ format_int c ++ ")*(x + " ++ format_int d ++ ")")%string in
  let analyzer := @new PolyCAS.sympy numerator denominator in
  valid analyzer = true /\
  eval find_horizontal_asymptote analyzer = Ok (Some (Int 0)) /\
  eval analyze_end_behavior analyzer
    = Ok (Some (LimitFloat (binary64 0)), Some (LimitFloat (binary64 0))) /\
  match eval find_vertical_asymptotes analyzer with
  | Ok (_ :: _) => True
  | _ => False
  end.
(** * Reasoning about method bodies *)

Section Framework.
Context {S : Sympy}.

Lemma readonly_ret {A} (a : A) : readonly (ret a).
Proof. intro self; reflexivity. Qed.

Lemma readonly_call {A} (r : result A) : readonly (call r).
Proof. intro self; reflexivity. Qed.

Lemma readonly_getattr {A} (attr : RationalAnalyzer -> option A) :
  readonly (getattr attr).
Proof. intro self; unfold getattr; destruct (attr self); reflexivity. Qed.

Lemma readonly_get_valid : readonly get_valid.
Proof. intro self; reflexivity. Qed.

Lemma readonly_bind {A B} (m : M A) (k : A -> M B) :
  readonly m -> (forall a, readonly (k a)) -> readonly (bind m k).
Proof.
  intros Hm Hk self. unfold bind.
  specialize (Hm self). destruct (m self) as [[a | e] self']; simpl in *; subst.
  - apply Hk.
  - reflexivity.
Qed.

Lemma readonly_try_except {A} (m : M A) (h : string -> M A) :
  readonly m -> (forall e, readonly (h e)) -> readonly (try_except m h).
Proof.
  intros Hm Hh self. unfold try_except.
  specialize (Hm self). destruct (m self) as [[a | e] self']; simpl in *; subst.
  - reflexivity.
  - apply Hh.
Qed.

Lemma readonly_if {A} (c : bool) (m1 m2 : M A) :
  readonly m1 -> readonly m2 -> readonly (if c then m1 else m2).
Proof. destruct c; auto. Qed.

Lemma readonly_for_each {A B} (body : A -> B -> M B) :
  (forall x acc, readonly (body x acc)) ->
  forall l acc, readonly (for_each l body acc).
Proof.
  intros Hb l; induction l as [| x rest IH]; intro acc; simpl.
  - apply readonly_ret.
  - apply readonly_bind; auto.
Qed.

Lemma readonly_any {A} (test : A -> M bool) :
  (forall h, readonly (test h)) -> forall l, readonly (any test l).
Proof.
  intros Ht l; induction l as [| h rest IH]; simpl.
  - apply readonly_ret.
  - apply readonly_bind; auto. intros []; auto using readonly_ret.
Qed.

(** Under [readonly], [eval] distributes over the monad operations. *)
Lemma run_readonly {A} (m : M A) self : readonly m -> m self = (eval m self, self).
Proof.
  intro H. specialize (H self). unfold eval.
  destruct (m self) as [r s']; simpl in *; congruence.
Qed.

Lemma eval_ret {A} (a : A) self : eval (ret a) self = Ok a.
Proof. reflexivity. Qed.

Lemma eval_call {A} (r : result A) self : eval (call r) self = r.
Proof. reflexivity. Qed.

Lemma eval_get_valid self : eval get_valid self = Ok (valid self).
Proof. reflexivity. Qed.

Lemma eval_getattr {A} (attr : RationalAnalyzer -> option A) self a :
  attr self = Some a -> eval (getattr attr) self = Ok a.
Proof. intro H; unfold eval, getattr; rewrite H; reflexivity. Qed.

Lemma eval_getattr_unset {A} (attr : RationalAnalyzer -> option A) self :
  attr self = None -> eval (getattr attr) self = Raise "AttributeError".
Proof. intro H; unfold eval, getattr; rewrite H; reflexivity. Qed.

Lemma eval_bind {A B} (m : M A) (k : A -> M B) self :
  readonly m ->
  eval (bind m k) self =
  match eval m self with Ok a => eval (k a) self | Raise e => Raise e end.
Proof.
  intro H. unfold eval at 1. unfold bind. rewrite (run_readonly self H).
  destruct (eval m self); reflexivity.
Qed.

Lemma eval_try_except {A} (m : M A) (h : string -> M A) self :
  readonly m ->
  eval (try_except m h) self =
  match eval m self with Ok a => Ok a | Raise e => eval (h e) self end.
Proof.
  intro H. unfold eval at 1. unfold try_except. rewrite (run_readonly self H).
  destruct (eval m self); reflexivity.
Qed.

Lemma eval_if {A} (c : bool) (m1 m2 : M A) self :
  eval (if c then m1 else m2) self = if c then eval m1 self else eval m2 self.
Proof. destruct c; reflexivity. Qed.
End Framework.

Ltac readonly_tac :=
  repeat first
    [ apply readonly_ret | apply readonly_call | apply readonly_getattr
    | apply readonly_get_valid | apply readonly_if
    | apply readonly_bind; [| intro]
    | apply readonly_try_except; [| intro]
    | apply readonly_for_each; intros
    | apply readonly_any; intros
    | assumption ].

Section Purity.
Context {S : Sympy}.

Lemma readonly_hole_step g root holes : readonly (hole_step g root holes).
Proof. unfold hole_step. readonly_tac. Qed.

Lemma readonly_find_holes : readonly find_holes.
Proof.
  unfold find_holes.
  apply readonly_bind; [apply readonly_get_valid | intro].
  apply readonly_if; [apply readonly_ret |].
  apply readonly_try_except; [| intro; apply readonly_ret].
  do 7 (apply readonly_bind; [readonly_tac | intro]).
  apply readonly_if; [apply readonly_ret |].
  apply readonly_bind; [apply readonly_call | intro].
  apply readonly_for_each. intros. apply readonly_hole_step.
Qed.

Lemma readonly_close_to x_val hole : readonly (close_to x_val hole).
Proof. unfold close_to. readonly_tac. Qed.

Lemma readonly_is_hole x_val : readonly (is_hole x_val).
Proof.
  unfold is_hole. apply readonly_bind; [apply readonly_find_holes |].
  intro. apply readonly_any. intro. apply readonly_close_to.
Qed.

Lemma readonly_keep_step root kept : readonly (keep_step root kept).
Proof.
  unfold keep_step.
  apply readonly_if; [| apply readonly_ret].
  apply readonly_bind; [apply readonly_is_hole |]. intro. readonly_tac.
Qed.

Lemma readonly_keep_loop roots kept : readonly (for_each roots keep_step kept).
Proof. apply readonly_for_each. intros. apply readonly_keep_step. Qed.

Lemma readonly_find_vertical_asymptotes : readonly find_vertical_asymptotes.
Proof.
  unfold find_vertical_asymptotes.
  apply readonly_bind; [apply readonly_get_valid | intro].
  apply readonly_if; [apply readonly_ret |].
  apply readonly_try_except; [| intro; apply readonly_ret].
  apply readonly_bind; [apply readonly_getattr | intro].
  apply readonly_bind; [apply readonly_call | intro].
  apply readonly_bind; [apply readonly_keep_loop | intro; apply readonly_ret].
Qed.

Lemma readonly_find_x_intercepts : readonly find_x_intercepts.
Proof.
  unfold find_x_intercepts.
  apply readonly_bind; [apply readonly_get_valid | intro].
  apply readonly_if; [apply readonly_ret |].
  apply readonly_try_except; [| intro; apply readonly_ret].
  apply readonly_bind; [apply readonly_getattr | intro].
  apply readonly_bind; [apply readonly_call | intro].
  apply readonly_bind; [apply readonly_keep_loop | intro; apply readonly_ret].
Qed.

Lemma readonly_find_horizontal_asymptote : readonly find_horizontal_asymptote.
Proof. unfold find_horizontal_asymptote. readonly_tac. Qed.

Lemma readonly_find_y_intercept : readonly find_y_intercept.
Proof. unfold find_y_intercept. readonly_tac. Qed.

Lemma readonly_float_or_str l : readonly (float_or_str l).
Proof. unfold float_or_str. readonly_tac. Qed.

Lemma readonly_analyze_end_behavior : readonly analyze_end_behavior.
Proof.
  unfold analyze_end_behavior.
  apply readonly_bind; [apply readonly_get_valid | intro].
  apply readonly_if; [apply readonly_ret |].
  apply readonly_try_except; [| intro; apply readonly_ret].
  do 4 (apply readonly_bind; [readonly_tac | intro]).
  do 2 (apply readonly_bind; [apply readonly_float_or_str | intro]).
  apply readonly_ret.
Qed.

Lemma readonly_get_analysis_summary : readonly get_analysis_summary.
Proof.
  unfold get_analysis_summary.
  apply readonly_bind; [apply readonly_get_valid | intro v].
  apply readonly_if; [intro self; reflexivity |].
  apply readonly_bind; [apply readonly_find_vertical_asymptotes | intro].
  apply readonly_bind; [apply readonly_find_horizontal_asymptote | intro].
  apply readonly_bind; [apply readonly_find_holes | intro].
  apply readonly_bind; [apply readonly_find_x_intercepts | intro].
  apply readonly_bind; [apply readonly_find_y_intercept | intro].
  apply readonly_bind; [apply readonly_analyze_end_behavior | intro].
  apply readonly_ret.
Qed.

Lemma readonly_same_twice {A} (m : M A) : readonly m -> same_twice m.
Proof. intros H self. split; [apply H | rewrite (H self); reflexivity]. Qed.
End Purity.

(** Discharges the side conditions of [eval_bind] and [eval_try_except]. *)
Ltac solve_readonly :=
  repeat first
    [ apply readonly_find_holes | apply readonly_is_hole
    | apply readonly_close_to | apply readonly_hole_step
    | apply readonly_keep_step | apply readonly_keep_loop
    | apply readonly_float_or_str
    | apply readonly_find_vertical_asymptotes
    | apply readonly_find_horizontal_asymptote
    | apply readonly_find_x_intercepts | apply readonly_find_y_intercept
    | apply readonly_analyze_end_behavior
    | apply readonly_ret | apply readonly_call | apply readonly_getattr
    | apply readonly_get_valid | apply readonly_if
    | apply readonly_bind; [| intro]
    | apply readonly_try_except; [| intro]
    | apply readonly_for_each; intros
    | apply readonly_any; intros
    | assumption ].

(** One step of symbolic execution of a method body under [eval]. *)
Ltac eval_step :=
  first
    [ rewrite eval_ret | rewrite eval_call | rewrite eval_get_valid
    | erewrite eval_getattr by eassumption
    | rewrite eval_bind by solve_readonly
    | rewrite eval_try_except by solve_readonly ];
  cbv beta iota.

Ltac eval_simpl := cbv beta iota; repeat eval_step.

(** * Construction *)

Section Construction.
Context {S : Sympy}.

(** What [__init__] leaves in the object, by the outcome of the three
    calls it makes. *)
Lemma new_cases (ns ds : string) :
  new ns ds =
  match sp_sympify ns with
  | Raise e =>
      {| numerator := None; denominator := None; function := None;
         valid := false;
         error_message := Some ("Invalid function: " ++ e)%string |}
  | Ok n =>
      match sp_sympify ds with
      | Raise e =>
          {| numerator := Some n; denominator := None; function := None;
             valid := false;
             error_message := Some ("Invalid function: " ++ e)%string |}
      | Ok d =>
          match truediv n d with
          | Raise e =>
              {| numerator := Some n; denominator := Some d; function := None;
                 valid := false;
                 error_message := Some ("Invalid function: " ++ e)%string |}
          | Ok f => constructed n d f
          end
      end
  end.
Proof.
  unfold new, __init__, try_except, bind, call, setattr, getattr, blank.
  destruct (sp_sympify ns) as [n | e]; simpl; [| reflexivity].
  destruct (sp_sympify ds) as [d | e]; simpl; [| reflexivity].
  destruct (truediv n d) as [f | e]; reflexivity.
Qed.

Lemma init_returns (ns ds : string) : fst (__init__ ns ds blank) = Ok tt.
Proof.
  unfold __init__, try_except, bind, call, setattr, getattr, blank.
  destruct (sp_sympify ns) as [n | e]; simpl; [| reflexivity].
  destruct (sp_sympify ds) as [d | e]; simpl; [| reflexivity].
  destruct (truediv n d) as [f | e]; reflexivity.
Qed.

Lemma parse_failure_invalid (ns ds : string) :
  (exists e, sp_sympify ns = Raise e) \/ (exists e, sp_sympify ds = Raise e) ->
  valid (new ns ds) = false /\ exists msg, error_message (new ns ds) = Some msg.
Proof.
  intro Hfail. rewrite new_cases.
  destruct (sp_sympify ns) as [n | e1];
    [destruct (sp_sympify ds) as [d | e2] |]; simpl; eauto.
  destruct Hfail as [[e He] | [e He]]; discriminate He.
Qed.

(** C5 (as amended): construction succeeds exactly when both strings
    parse and their quotient can be formed, and then stores the two
    parsed expressions and the quotient (nothing is checked about the
    denominator); otherwise the object is marked invalid and the message
    "Invalid function: " followed by the text of the exception is
    recorded.  A parse failure of either string makes construction fail. *)
Theorem construction_outcome (ns ds : string) :
  (valid (new ns ds) = true <->
   exists n d f,
     sp_sympify ns = Ok n /\ sp_sympify ds = Ok d /\ truediv n d = Ok f) /\
  (forall n d f,
     sp_sympify ns = Ok n -> sp_sympify ds = Ok d -> truediv n d = Ok f ->
     new ns ds = constructed n d f) /\
  (valid (new ns ds) = false ->
   exists e,
     error_message (new ns ds) = Some ("Invalid function: " ++ e)%string /\
     (sp_sympify ns = Raise e \/
      sp_sympify ds = Raise e \/
      exists n d, sp_sympify ns = Ok n /\ sp_sympify ds = Ok d /\
                  truediv n d = Raise e)) /\
  ((exists e, sp_sympify ns = Raise e) \/ (exists e, sp_sympify ds = Raise e) ->
   valid (new ns ds) = false /\ exists msg, error_message (new ns ds) = Some msg).
Proof.
  rewrite new_cases.
  destruct (sp_sympify ns) as [n | e1] eqn:Hn;
    [destruct (sp_sympify ds) as [d | e2] eqn:Hd;
       [destruct (truediv n d) as [f | e3] eqn:Hf |] |];
    simpl; repeat split; intros;
    repeat match goal with
           | H : exists _, _ |- _ => destruct H
           | H : _ /\ _ |- _ => destruct H
           | H : _ \/ _ |- _ => destruct H
           end;
    try congruence; eauto 10.
Qed.
End Construction.

(** C5, as stated, fails: the strings "x" and "0" both parse, dividing by
    the number zero raises nothing, and the object is valid with the zero
    polynomial as its denominator. *)
Lemma zero_denominator_is_accepted :
  let self := @new PolyCAS.sympy "x" "0" in
  valid self = true /\
  denominator self = Some (sp_Integer 0) /\
  ~ (forall d, denominator self = Some d -> eq_int d 0 = false).
Proof.
  split; [reflexivity |]. split; [reflexivity |].
  intro H. specialize (H _ eq_refl). discriminate H.
Qed.

Lemma construction_witness :
  @new PolyCAS.sympy "x" "0"
  = @constructed PolyCAS.sympy
                (PolyCAS.Quotient [0%Q; 1%Q] [1%Q])
                (PolyCAS.Quotient [] [1%Q])
                (PolyCAS.Quotient [0%Q; 1%Q] []).
Proof.
  refine (proj1 (proj2 (@construction_outcome PolyCAS.sympy "x" "0"))
            _ _ _ eq_refl eq_refl eq_refl).
Defined.

(** * Invalid input and purity *)

Section Invalid.
Context {S : Sympy}.

Lemma invalid_queries (self : RationalAnalyzer) :
  valid self = false ->
  eval find_vertical_asymptotes self = Ok [] /\
  eval find_horizontal_asymptote self = Ok None /\
  eval find_holes self = Ok [] /\
  eval find_x_intercepts self = Ok [] /\
  eval find_y_intercept self = Ok None /\
  eval analyze_end_behavior self = Ok (None, None) /\
  eval get_analysis_summary self =
    Ok [("error", of_optional PyStr (error_message self))].
Proof.
  intro H.
  unfold eval, find_vertical_asymptotes, find_horizontal_asymptote, find_holes,
    find_x_intercepts, find_y_intercept, analyze_end_behavior,
    get_analysis_summary, bind, get_valid.
  rewrite H. simpl. repeat split; reflexivity.
Qed.

(** C6: when either string fails to parse, [__init__] returns normally,
    the object is marked invalid with a message, every query returns its
    empty or absent form, and the summary is the dictionary whose only
    key is "error", bound to a string. *)
Theorem invalid_input_yields_error_only (ns ds : string) :
  (exists e, sp_sympify ns = Raise e) \/ (exists e, sp_sympify ds = Raise e) ->
  fst (__init__ ns ds blank) = Ok tt /\
  valid (new ns ds) = false /\
  eval find_vertical_asymptotes (new ns ds) = Ok [] /\
  eval find_horizontal_asymptote (new ns ds) = Ok None /\
  eval find_holes (new ns ds) = Ok [] /\
  eval find_x_intercepts (new ns ds) = Ok [] /\
  eval find_y_intercept (new ns ds) = Ok None /\
  eval analyze_end_behavior (new ns ds) = Ok (None, None) /\
  exists msg,
    error_message (new ns ds) = Some msg /\
    eval get_analysis_summary (new ns ds) = Ok [("error", PyStr msg)] /\
    keys [("error", PyStr msg)] = ["error"].
Proof.
  intro Hfail.
  destruct (parse_failure_invalid ns ds Hfail) as (Hvalid & msg & Hmsg).
  destruct (invalid_queries _ Hvalid) as (H1 & H2 & H3 & H4 & H5 & H6 & H7).
  split; [apply init_returns |].
  repeat (split; [assumption |]).
  exists msg. split; [assumption |]. split; [| reflexivity].
  rewrite H7, Hmsg. reflexivity.
Qed.

(** C9: every query leaves the object as it found it, and calling it a
    second time returns what the first call returned. *)
Theorem queries_are_idempotent :
  same_twice find_vertical_asymptotes /\
  same_twice find_horizontal_asymptote /\
  same_twice find_holes /\
  same_twice find_x_intercepts /\
  same_twice find_y_intercept /\
  same_twice analyze_end_behavior /\
  same_twice get_analysis_summary.
Proof.
  repeat split;
    apply readonly_same_twice;
    first [ apply readonly_find_vertical_asymptotes
          | apply readonly_find_horizontal_asymptote
          | apply readonly_find_holes
          | apply readonly_find_x_intercepts
          | apply readonly_find_y_intercept
          | apply readonly_analyze_end_behavior
          | apply readonly_get_analysis_summary ].
Qed.
End Invalid.

Lemma invalid_input_witness :
  eval get_analysis_summary (@new PolyCAS.sympy "x+" "") =
  Ok [("error", PyStr "Invalid function: SympifyError: could not parse")].
Proof.
  destruct (@invalid_input_yields_error_only PolyCAS.sympy "x+" "")
    as (_ & _ & _ & _ & _ & _ & _ & _ & msg & Hmsg & Hsum & _).
  - left. exists "SympifyError: could not parse". vm_compute. reflexivity.
  - rewrite Hsum. vm_compute in Hmsg. injection Hmsg as <-. reflexivity.
Defined.

(** * End behaviour *)

Section EndBehavior.
Context {S : Sympy}.

(** C4: [analyze_end_behavior] always returns; its two components are
    both absent or both present; and when the limit in either direction
    raises, both are absent. *)
Theorem end_behavior_all_or_nothing (self : RationalAnalyzer) :
  exists r,
    eval analyze_end_behavior self = Ok r /\
    (r = (None, None) \/ exists a b, r = (Some a, Some b)) /\
    (forall f dir e,
       valid self = true -> function self = Some f ->
       sp_limit f dir = Raise e -> r = (None, None)).
Proof.
  unfold analyze_end_behavior.
  rewrite eval_bind by solve_readonly. rewrite eval_get_valid.
  destruct (valid self) eqn:Hv; simpl.
  2:{ exists (None, None). rewrite eval_ret.
      repeat split; auto; try (intros; discriminate). }
  rewrite eval_try_except by solve_readonly.
  destruct (function self) as [f |] eqn:Hf.
  2:{ rewrite eval_bind by solve_readonly.
      rewrite (eval_getattr_unset _ _ Hf). rewrite eval_ret.
      exists (None, None). repeat split; auto; try (intros; discriminate). }
  eval_simpl.
  destruct (sp_limit f PlusInfinity) as [lp | ep] eqn:Hp.
  2:{ eval_simpl. exists (None, None). repeat split; auto. }
  eval_simpl.
  destruct (sp_limit f MinusInfinity) as [lm | em] eqn:Hm.
  2:{ eval_simpl. exists (None, None). repeat split; auto. }
  eval_simpl.
  destruct (eval (float_or_str lp) self) as [vp | e1].
  2:{ eval_simpl. exists (None, None). repeat split; auto. }
  eval_simpl.
  destruct (eval (float_or_str lm) self) as [vm | e2].
  2:{ eval_simpl. exists (None, None). repeat split; auto. }
  eval_simpl.
  exists (Some vm, Some vp). split; [reflexivity |]. split; [right; eauto |].
  intros f' dir e _ Hf' Hraise.
  injection Hf' as <-. destruct dir; congruence.
Qed.
End EndBehavior.

Lemma end_behavior_witness :
  eval analyze_end_behavior
       (@new (failing_limit PolyCAS.sympy) "x+1" "x-2") = Ok (None, None).
Proof.
  destruct (@end_behavior_all_or_nothing (failing_limit PolyCAS.sympy)
              (@new (failing_limit PolyCAS.sympy) "x+1" "x-2"))
    as (r & Hr & _ & Hfail).
  rewrite Hr. f_equal.
  eapply (Hfail _ PlusInfinity); reflexivity.
Defined.

(** * Horizontal asymptote and y-intercept *)

Section DegreeLaw.
Context {S : Sympy}.

Lemma degree_lt_not_eq a b : degree_lt a b = true -> degree_eq a b = false.
Proof.
  destruct a, b; simpl; try congruence.
  intro H. apply N.ltb_lt in H. apply N.eqb_neq. lia.
Qed.

Lemma degree_lt_asym a b : degree_lt a b = true -> degree_lt b a = false.
Proof.
  destruct a, b; simpl; try congruence.
  intro H. apply N.ltb_lt in H. apply N.ltb_ge. lia.
Qed.

Lemma degree_eq_not_lt a b : degree_eq a b = true -> degree_lt a b = false.
Proof.
  destruct a, b; simpl; try congruence.
  intro H. apply N.eqb_eq in H. apply N.ltb_ge. lia.
Qed.

Lemma degree_trichotomy a b :
  degree_lt a b = true \/ degree_eq a b = true \/ degree_lt b a = true.
Proof.
  destruct a, b; simpl; auto.
  rewrite !N.ltb_lt, N.eqb_eq. lia.
Qed.

(** C2: with the degrees of numerator and denominator at hand, the
    horizontal asymptote is the int 0 when the numerator's degree is
    smaller, the float of the ratio of leading coefficients when the
    degrees are equal, and absent when the numerator's degree is larger;
    one of the three cases always applies. *)
Theorem horizontal_asymptote_degree_law (self : RationalAnalyzer) n d dn dd :
  valid self = true ->
  numerator self = Some n -> denominator self = Some d ->
  sp_degree n = Ok dn -> sp_degree d = Ok dd ->
  (degree_lt dn dd = true ->
   eval find_horizontal_asymptote self = Ok (Some (Int 0))) /\
  (degree_eq dn dd = true ->
   forall ln ld q f,
     sp_LC n = Ok ln -> sp_LC d = Ok ld ->
     truediv ln ld = Ok q -> py_float q = Ok f ->
     eval find_horizontal_asymptote self = Ok (Some (Float f))) /\
  (degree_lt dd dn = true ->
   eval find_horizontal_asymptote self = Ok None) /\
  (degree_lt dn dd = true \/ degree_eq dn dd = true \/ degree_lt dd dn = true).
Proof.
  intros Hv Hn Hd Hdn Hdd.
  assert (Hbody :
    eval find_horizontal_asymptote self =
    match
      (if degree_lt dn dd then Ok (Some (Int 0))
       else if degree_eq dn dd then
         match sp_LC n with
         | Ok ln =>
             match sp_LC d with
             | Ok ld =>
                 match truediv ln ld with
                 | Ok q =>
                     match py_float q with
                     | Ok f => Ok (Some (Float f))
                     | Raise e => Raise e
                     end
                 | Raise e => Raise e
                 end
             | Raise e => Raise e
             end
         | Raise e => Raise e
         end
       else Ok None)
    with
    | Ok a => Ok a
    | Raise _ => Ok None
    end).
  { unfold find_horizontal_asymptote.
    rewrite eval_bind by solve_readonly. rewrite eval_get_valid, Hv. simpl.
    rewrite eval_try_except by solve_readonly.
    eval_simpl. rewrite Hdn. eval_simpl. rewrite Hdd. cbv beta iota.
    rewrite !eval_if.
    destruct (degree_lt dn dd); [eval_simpl; reflexivity |].
    destruct (degree_eq dn dd); [| eval_simpl; reflexivity].
    eval_simpl. destruct (sp_LC n); [| eval_simpl; reflexivity].
    eval_simpl. destruct (sp_LC d); [| eval_simpl; reflexivity].
    eval_simpl. destruct (truediv a a0); [| eval_simpl; reflexivity].
    eval_simpl. destruct (py_float a1); eval_simpl; reflexivity. }
  repeat split.
  - intro H. rewrite Hbody, H. reflexivity.
  - intros H ln ld q f Hln Hld Hq Hf.
    rewrite Hbody, (degree_eq_not_lt _ _ H), H, Hln, Hld, Hq, Hf. reflexivity.
  - intro H. rewrite Hbody, (degree_lt_asym _ _ H).
    destruct (degree_eq dn dd) eqn:He; [| reflexivity].
    destruct dn, dd; simpl in *; try congruence.
    apply N.eqb_eq in He. apply N.ltb_lt in H. lia.
  - apply degree_trichotomy.
Qed.

(** C3: when the denominator can be evaluated at 0 and, for a non-zero
    value there, the function can be evaluated at 0 and converted to a
    float, the y-intercept is absent exactly when the denominator is 0
    at 0; otherwise it is the float of the function's value at 0, that
    is of numerator(0)/denominator(0). *)
Theorem y_intercept_absent_iff_denominator_zero (self : RationalAnalyzer) d f d0 :
  valid self = true ->
  denominator self = Some d -> function self = Some f ->
  subs d (sp_Integer 0) = Ok d0 ->
  (eq_int d0 0 = false ->
   exists f0 y, subs f (sp_Integer 0) = Ok f0 /\ py_float f0 = Ok y) ->
  (eval find_y_intercept self = Ok None <-> eq_int d0 0 = true) /\
  (forall n n0 q y,
     eq_int d0 0 = false ->
     numerator self = Some n -> subs n (sp_Integer 0) = Ok n0 ->
     truediv n0 d0 = Ok q -> subs f (sp_Integer 0) = Ok q ->
     py_float q = Ok y ->
     eval find_y_intercept self = Ok (Some y)).
Proof.
  intros Hv Hd Hf Hd0 Hok.
  assert (Hbody :
    eval find_y_intercept self =
    if negb (eq_int d0 0) then
      match subs f (sp_Integer 0) with
      | Ok f0 =>
          match py_float f0 with
          | Ok y => Ok (Some y)
          | Raise _ => Ok None
          end
      | Raise _ => Ok None
      end
    else Ok None).
  { unfold find_y_intercept.
    rewrite eval_bind by solve_readonly. rewrite eval_get_valid, Hv. simpl.
    rewrite eval_try_except by solve_readonly.
    eval_simpl. rewrite Hd0. cbv beta iota. rewrite eval_if.
    destruct (negb (eq_int d0 0)); [| eval_simpl; reflexivity].
    eval_simpl. destruct (subs f (sp_Integer 0)); [| eval_simpl; reflexivity].
    eval_simpl. destruct (py_float a); eval_simpl; reflexivity. }
  split.
  - rewrite Hbody. destruct (eq_int d0 0) eqn:Hz; simpl.
    + split; auto.
    + destruct (Hok eq_refl) as (f0 & y & Hf0 & Hy). rewrite Hf0, Hy.
      split; intro H; discriminate H.
  - intros n n0 q y Hz _ _ _ Hq Hy.
    rewrite Hbody, Hz, Hq, Hy. reflexivity.
Qed.
End DegreeLaw.

Lemma horizontal_asymptote_witness :
  eval find_horizontal_asymptote (@new PolyCAS.sympy "x+1" "x-2")
  = Ok (Some (@Float PolyCAS.sympy float_1_0)).
Proof.
  refine (proj1 (proj2
    (@horizontal_asymptote_degree_law PolyCAS.sympy
       (@new PolyCAS.sympy "x+1" "x-2") _ _ _ _
       eq_refl eq_refl eq_refl eq_refl eq_refl)) eq_refl _ _ _ _ eq_refl eq_refl eq_refl eq_refl).
Defined.

Lemma y_intercept_witness :
  eval find_y_intercept (@new PolyCAS.sympy "x+1" "x-2")
  = Ok (Some float_minus_0_5).
Proof.
  refine (proj2
    (@y_intercept_absent_iff_denominator_zero PolyCAS.sympy
       (@new PolyCAS.sympy "x+1" "x-2") _ _ _
       eq_refl eq_refl eq_refl eq_refl _) _ _ _ _ eq_refl eq_refl eq_refl eq_refl eq_refl eq_refl).
  intros _. eexists. eexists. split; reflexivity.
Defined.

(** * Holes and the roots they exclude *)

Section Roots.
Context {S : Sympy}.

Lemma truthy_true (b : option bool) : truthy b = true <-> b = Some true.
Proof. destruct b as [[|] |]; simpl; split; congruence. Qed.

Lemma insert_sorted_In (x y : pyfloat) (l : list pyfloat) :
  In x (insert_sorted y l) <-> x = y \/ In x l.
Proof.
  induction l as [| z rest IH]; simpl.
  - intuition.
  - destruct (float_lt y z); simpl; rewrite ?IH; intuition.
Qed.

Lemma sorted_In (x : pyfloat) (l : list pyfloat) : In x (sorted l) <-> In x l.
Proof.
  unfold sorted.
  assert (H : forall acc, In x (fold_left (fun a y => insert_sorted y a) l acc)
                          <-> In x l \/ In x acc).
  { induction l as [| y rest IH]; intro acc; simpl.
    - intuition.
    - rewrite IH, insert_sorted_In. intuition. }
  rewrite H. simpl. intuition.
Qed.

Lemma find_holes_returns (self : RationalAnalyzer) :
  exists holes, eval find_holes self = Ok holes.
Proof.
  unfold find_holes. rewrite eval_bind by solve_readonly.
  rewrite eval_get_valid. cbv beta iota.
  destruct (valid self); simpl.
  - rewrite eval_try_except by solve_readonly.
    match goal with |- context [match ?x with _ => _ end] => destruct x end;
      rewrite ?eval_ret; eauto.
  - rewrite eval_ret. eauto.
Qed.

Lemma eval_close_to (r : Expr) (h : pyfloat * pyfloat) self :
  eval (close_to r h) self = within_tolerance h r.
Proof.
  unfold close_to, within_tolerance. eval_simpl.
  destruct (rsub (fst h) r) as [diff |]; eval_simpl; [| reflexivity].
  destruct (py_abs diff); eval_simpl; reflexivity.
Qed.

Lemma eval_any_close (r : Expr) holes self :
  (forall h, In h holes -> exists b, within_tolerance h r = Ok b) ->
  eval (any (close_to r) holes) self = Ok (near_a_hole holes r).
Proof.
  induction holes as [| h rest IH]; intro Hok; simpl.
  - reflexivity.
  - rewrite eval_bind by solve_readonly. rewrite eval_close_to.
    destruct (Hok h (or_introl eq_refl)) as [b Hb]. rewrite Hb.
    destruct b; simpl; [reflexivity |].
    apply IH. intros h' Hin. apply Hok. right; assumption.
Qed.


Lemma eval_is_hole (r : Expr) holes self :
  eval find_holes self = Ok holes ->
  eval (is_hole r) self = eval (any (close_to r) holes) self.
Proof.
  intro H. unfold is_hole. rewrite eval_bind by solve_readonly.
  rewrite H. reflexivity.
Qed.

(** The filter loop, when no test and no conversion raises. *)
Lemma keep_loop_complete self holes roots :
  eval find_holes self = Ok holes ->
  (forall r h, In r roots -> is_real r = Some true -> In h holes ->
               exists b, within_tolerance h r = Ok b) ->
  (forall r, In r roots -> is_real r = Some true ->
             exists f, py_float r = Ok f) ->
  forall acc,
  exists fs,
    Forall2 (fun r f => py_float r = Ok f) (kept_roots holes roots) fs /\
    eval (for_each roots keep_step acc) self = Ok (acc ++ fs).
Proof.
  intros Hholes.
  induction roots as [| r rest IH]; intros Htest Hfloat acc.
  - exists []. split; [constructor | simpl; rewrite app_nil_r; reflexivity].
  - assert (Htest' : forall r' h, In r' rest -> is_real r' = Some true ->
                                  In h holes -> exists b, within_tolerance h r' = Ok b)
      by (intros; eapply Htest; eauto; right; assumption).
    assert (Hfloat' : forall r', In r' rest -> is_real r' = Some true ->
                                 exists f, py_float r' = Ok f)
      by (intros; eapply Hfloat; eauto; right; assumption).
    specialize (IH Htest' Hfloat').
    simpl for_each. rewrite eval_bind by solve_readonly.
    unfold keep_step at 1. rewrite eval_if.
    unfold kept_roots. simpl filter. fold (kept_roots holes rest).
    destruct (truthy (is_real r)) eqn:Hreal; simpl andb.
    + apply truthy_true in Hreal.
      rewrite eval_bind by solve_readonly.
      rewrite (@eval_is_hole r holes self Hholes).
      rewrite eval_any_close
        by (intros h Hin; apply (Htest r h); auto; left; reflexivity).
      cbv beta iota.
      destruct (near_a_hole holes r); simpl negb; cbv beta iota.
      * rewrite eval_ret. cbv beta iota. apply IH.
      * destruct (Hfloat r (or_introl eq_refl) Hreal) as [f Hf].
        eval_simpl. rewrite Hf. eval_simpl.
        destruct (IH (acc ++ [f])) as (fs & Hfs & Hloop).
        exists (f :: fs). split; [constructor; assumption |].
        rewrite Hloop, <- app_assoc. reflexivity.
    + rewrite eval_ret. cbv beta iota. apply IH.
Qed.

(** The filter loop: whatever it appends is the float of a real root
    for which [is_hole] answered False. *)
Lemma keep_loop_sound self roots :
  forall acc l,
    eval (for_each roots keep_step acc) self = Ok l ->
    forall f, In f l ->
      In f acc \/
      exists r, In r roots /\ is_real r = Some true /\
                py_float r = Ok f /\ eval (is_hole r) self = Ok false.
Proof.
  induction roots as [| r rest IH]; intros acc l Hloop f Hin.
  - simpl in Hloop. rewrite eval_ret in Hloop. injection Hloop as <-. auto.
  - simpl for_each in Hloop. rewrite eval_bind in Hloop by solve_readonly.
    unfold keep_step at 1 in Hloop. rewrite eval_if in Hloop.
    destruct (truthy (is_real r)) eqn:Hreal.
    + apply truthy_true in Hreal.
      rewrite eval_bind in Hloop by solve_readonly.
      destruct (eval (is_hole r) self) as [[|] | e] eqn:Hh;
        simpl negb in Hloop; cbv beta iota in Hloop; try discriminate.
      * rewrite eval_ret in Hloop.
        destruct (IH _ _ Hloop f Hin) as [? | (r' & ? & ?)]; auto.
        right. exists r'. split; [right |]; assumption.
      * rewrite eval_bind, eval_call in Hloop by solve_readonly.
        destruct (py_float r) as [fr | e] eqn:Hfr; try discriminate.
        rewrite eval_ret in Hloop.
        destruct (IH _ _ Hloop f Hin) as [Hacc | (r' & ? & ?)].
        -- apply in_app_or in Hacc. destruct Hacc as [? | [<- | []]]; auto.
           right. exists r. repeat split; auto. left; reflexivity.
        -- right. exists r'. split; [right |]; assumption.
    + rewrite eval_ret in Hloop.
      destruct (IH _ _ Hloop f Hin) as [? | (r' & ? & ?)]; auto.
      right. exists r'. split; [right |]; assumption.
Qed.


End Roots.

Section Exclusion.
Context {S : Sympy}.

Lemma near_a_hole_true holes (r : Expr) :
  near_a_hole holes r = true <->
  exists h, In h holes /\ within_tolerance h r = Ok true.
Proof.
  unfold near_a_hole. rewrite existsb_exists.
  split; intros (h & Hin & Hh); exists h; split; auto.
  - destruct (within_tolerance h r) as [[|] |]; congruence.
  - rewrite Hh. reflexivity.
Qed.

Lemma kept_roots_In holes roots (r : Expr) :
  In r (kept_roots holes roots) <->
  In r roots /\ is_real r = Some true /\
  ~ (exists h, In h holes /\ within_tolerance h r = Ok true).
Proof.
  unfold kept_roots. rewrite filter_In, andb_true_iff, truthy_true.
  rewrite <- near_a_hole_true.
  destruct (near_a_hole holes r); simpl; intuition congruence.
Qed.

Lemma insert_sorted_Permutation (x : pyfloat) (l : list pyfloat) :
  Permutation (insert_sorted x l) (x :: l).
Proof.
  induction l as [| y rest IH]; simpl.
  - apply Permutation_refl.
  - destruct (float_lt x y).
    + apply Permutation_refl.
    + eapply Permutation_trans; [apply perm_skip, IH | apply perm_swap].
Qed.

(** [sorted] keeps every element, as often as it occurs. *)
Lemma sorted_Permutation (l : list pyfloat) : Permutation (sorted l) l.
Proof.
  unfold sorted.
  assert (H : forall acc,
            Permutation (fold_left (fun a y => insert_sorted y a) l acc) (acc ++ l)).
  { induction l as [| y rest IH]; intro acc; simpl.
    - rewrite app_nil_r. apply Permutation_refl.
    - eapply Permutation_trans; [apply IH |].
      eapply Permutation_trans;
        [apply Permutation_app_tail, insert_sorted_Permutation |].
      simpl. apply Permutation_middle. }
  exact (H []).
Qed.

Lemma Forall2_In_left {A B} (R : A -> B -> Prop) l1 l2 x :
  Forall2 R l1 l2 -> In x l1 -> exists y, In y l2 /\ R x y.
Proof.
  induction 1 as [| a b l1 l2 Hab _ IH]; intros Hin; [contradiction |].
  destruct Hin as [<- | Hin].
  - exists b. split; [left; reflexivity | exact Hab].
  - destruct (IH Hin) as (y & Hy & HR). exists y. split; [right |]; assumption.
Qed.

Lemma Forall2_In_right {A B} (R : A -> B -> Prop) l1 l2 y :
  Forall2 R l1 l2 -> In y l2 -> exists x, In x l1 /\ R x y.
Proof.
  induction 1 as [| a b l1 l2 Hab _ IH]; intros Hin; [contradiction |].
  destruct Hin as [<- | Hin].
  - exists a. split; [left; reflexivity | exact Hab].
  - destruct (IH Hin) as (x & Hx & HR). exists x. split; [right |]; assumption.
Qed.

(** What a root query returns when no test and no conversion raises: the
    floats of the kept roots, one entry per kept root, put in order. *)
Lemma eval_root_filter self (getter : RationalAnalyzer -> option Expr)
      e roots holes :
  valid self = true -> getter self = Some e -> sp_solve e = Ok roots ->
  eval find_holes self = Ok holes ->
  (forall r h, In r roots -> is_real r = Some true -> In h holes ->
               exists b, within_tolerance h r = Ok b) ->
  (forall r, In r roots -> is_real r = Some true ->
             exists f, py_float r = Ok f) ->
  exists l fs,
    eval
      (v <- get_valid ;;
       if negb v then ret []
       else
         try_except
           (e <- getattr getter ;;
            roots <- call (sp_solve e) ;;
            kept <- for_each roots keep_step [] ;;
            ret (sorted kept))
           (fun _ => ret [])) self = Ok l /\
    l = sorted fs /\
    Permutation l fs /\
    Forall2 (fun r f => py_float r = Ok f) (kept_roots holes roots) fs /\
    (forall f,
       In f l <->
       exists r,
         In r roots /\ is_real r = Some true /\ py_float r = Ok f /\
         ~ (exists h, In h holes /\ within_tolerance h r = Ok true)) /\
    (holes = [] ->
     Forall2 (fun r f => py_float r = Ok f)
             (filter (fun r => truthy (is_real r)) roots) fs).
Proof.
  intros Hv He Hroots Hholes Htest Hfloat.
  destruct (@keep_loop_complete _ self holes roots Hholes Htest Hfloat [])
    as (fs & Hfs & Hloop).
  exists (sorted fs), fs.
  split; [| split; [reflexivity | split; [apply sorted_Permutation | split;
    [exact Hfs | split]]]].
  - rewrite eval_bind by solve_readonly. rewrite eval_get_valid, Hv. simpl negb.
    cbv beta iota. rewrite eval_try_except by solve_readonly.
    eval_simpl. rewrite Hroots. eval_simpl. rewrite Hloop. eval_simpl.
    reflexivity.
  - intro f. rewrite sorted_In. split.
    + intro Hin.
      destruct (Forall2_In_right _ Hfs Hin) as (r & Hr & Hrf).
      apply kept_roots_In in Hr. exists r. tauto.
    + intros (r & Hr & Hreal & Hrf & Hfar).
      assert (Hkept : In r (kept_roots holes roots))
        by (apply kept_roots_In; auto).
      destruct (Forall2_In_left _ Hfs Hkept) as (f' & Hf' & Hrf').
      rewrite Hrf in Hrf'. injection Hrf' as <-. exact Hf'.
  - intros ->.
    replace (filter (fun r => truthy (is_real r)) roots)
      with (kept_roots [] roots); [exact Hfs |].
    unfold kept_roots, near_a_hole. simpl.
    apply filter_ext. intro r. apply andb_true_r.
Qed.

(** C10: when the roots of numerator and denominator are at hand and
    neither the tolerance test nor the float conversion raises on a real
    root, the list [find_vertical_asymptotes] returns holds, up to order,
    one float per kept root of the denominator and nothing else, a root
    being kept when it is real and no hole of [find_holes] is within
    1e-10 of it; so the float of a real root is in the list exactly when
    such a root converts to it, and a real root is left out exactly when
    some hole passes the test against it.  [find_x_intercepts] does the
    same with the roots of the numerator.  When [find_holes] returns the
    empty list, each list holds one float per real root. *)
Theorem roots_excluded_by_tolerance (self : RationalAnalyzer)
        n d nroots droots holes :
  valid self = true ->
  numerator self = Some n -> denominator self = Some d ->
  sp_solve n = Ok nroots -> sp_solve d = Ok droots ->
  eval find_holes self = Ok holes ->
  (forall r h, In r (droots ++ nroots) -> is_real r = Some true ->
               In h holes -> exists b, within_tolerance h r = Ok b) ->
  (forall r, In r (droots ++ nroots) -> is_real r = Some true ->
             exists f, py_float r = Ok f) ->
  (exists va fs,
     eval find_vertical_asymptotes self = Ok va /\
     va = sorted fs /\
     Permutation va fs /\
     Forall2 (fun r f => py_float r = Ok f) (kept_roots holes droots) fs /\
     (forall f,
        In f va <->
        exists r,
          In r droots /\ is_real r = Some true /\ py_float r = Ok f /\
          ~ (exists h, In h holes /\ within_tolerance h r = Ok true)) /\
     (holes = [] ->
      Forall2 (fun r f => py_float r = Ok f)
              (filter (fun r => truthy (is_real r)) droots) fs)) /\
  (exists xi fs,
     eval find_x_intercepts self = Ok xi /\
     xi = sorted fs /\
     Permutation xi fs /\
     Forall2 (fun r f => py_float r = Ok f) (kept_roots holes nroots) fs /\
     (forall f,
        In f xi <->
        exists r,
          In r nroots /\ is_real r = Some true /\ py_float r = Ok f /\
          ~ (exists h, In h holes /\ within_tolerance h r = Ok true)) /\
     (holes = [] ->
      Forall2 (fun r f => py_float r = Ok f)
              (filter (fun r => truthy (is_real r)) nroots) fs)) /\
  (forall roots r,
     In r roots -> is_real r = Some true ->
     (~ In r (kept_roots holes roots) <->
      exists h, In h holes /\ within_tolerance h r = Ok true)) /\
  (holes = [] ->
   forall roots,
     kept_roots holes roots = filter (fun r => truthy (is_real r)) roots).
Proof.
  intros Hv Hn Hd Hnr Hdr Hholes Htest Hfloat.
  split; [| split; [| split]].
  - apply (@eval_root_filter self denominator d droots holes); auto.
    + intros; eapply Htest; eauto. apply in_or_app; left; assumption.
    + intros; eapply Hfloat; eauto. apply in_or_app; left; assumption.
  - apply (@eval_root_filter self numerator n nroots holes); auto.
    + intros; eapply Htest; eauto. apply in_or_app; right; assumption.
    + intros; eapply Hfloat; eauto. apply in_or_app; right; assumption.
  - intros roots r Hin Hreal. unfold kept_roots. rewrite filter_In.
    rewrite <- near_a_hole_true.
    apply truthy_true in Hreal. rewrite Hreal. simpl andb.
    destruct (near_a_hole holes r); simpl; intuition congruence.
  - intros -> roots. unfold kept_roots, near_a_hole. simpl.
    apply filter_ext. intro r. apply andb_true_r.
Qed.


End Exclusion.

(** * The scenarios of the specification, on the reference instance *)

Lemma roots_excluded_witness :
  (exists va fs,
     eval find_vertical_asymptotes (@new PolyCAS.sympy "x**2-1" "x-1") = Ok va /\
     va = sorted fs /\
     Permutation va fs /\
     Forall2 (fun r f => @py_float PolyCAS.sympy r = Ok f)
             (@kept_roots PolyCAS.sympy [(float_1_0, float_2_0)]
                          [PolyCAS.rational (1 # 1)]) fs /\
     (forall f,
        In f va <->
        exists r,
          In r [PolyCAS.rational (1 # 1)] /\
          @is_real PolyCAS.sympy r = Some true /\
          @py_float PolyCAS.sympy r = Ok f /\
          ~ (exists h, In h [(float_1_0, float_2_0)] /\
                       @within_tolerance PolyCAS.sympy h r = Ok true)) /\
     ([(float_1_0, float_2_0)] = [] ->
      Forall2 (fun r f => @py_float PolyCAS.sympy r = Ok f)
              (filter (fun r => truthy (@is_real PolyCAS.sympy r))
                      [PolyCAS.rational (1 # 1)]) fs)) /\
  (exists xi fs,
     eval find_x_intercepts (@new PolyCAS.sympy "x**2-1" "x-1") = Ok xi /\
     xi = sorted fs /\
     Permutation xi fs /\
     Forall2 (fun r f => @py_float PolyCAS.sympy r = Ok f)
             (@kept_roots PolyCAS.sympy [(float_1_0, float_2_0)]
                          [PolyCAS.rational (-1 # 1); PolyCAS.rational (1 # 1)])
             fs /\
     (forall f,
        In f xi <->
        exists r,
          In r [PolyCAS.rational (-1 # 1); PolyCAS.rational (1 # 1)] /\
          @is_real PolyCAS.sympy r = Some true /\
          @py_float PolyCAS.sympy r = Ok f /\
          ~ (exists h, In h [(float_1_0, float_2_0)] /\
                       @within_tolerance PolyCAS.sympy h r = Ok true)) /\
     ([(float_1_0, float_2_0)] = [] ->
      Forall2 (fun r f => @py_float PolyCAS.sympy r = Ok f)
              (filter (fun r => truthy (@is_real PolyCAS.sympy r))
                      [PolyCAS.rational (-1 # 1); PolyCAS.rational (1 # 1)])
              fs)) /\
  eval find_vertical_asymptotes (@new PolyCAS.sympy "x**2-1" "x-1") = Ok [] /\
  eval find_x_intercepts (@new PolyCAS.sympy "x**2-1" "x-1")
  = Ok [float_minus_1_0].
Proof.
  refine ((fun H => conj (proj1 H)
                      (conj (proj1 (proj2 H)) (conj eq_refl eq_refl)))
    (@roots_excluded_by_tolerance PolyCAS.sympy
       (@new PolyCAS.sympy "x**2-1" "x-1")
       (PolyCAS.Quotient [(-1 # 1)%Q; 0%Q; 1%Q] [1%Q])
       (PolyCAS.Quotient [(-1 # 1)%Q; 1%Q] [1%Q])
       [PolyCAS.rational (-1 # 1); PolyCAS.rational (1 # 1)]
       [PolyCAS.rational (1 # 1)]
       [(float_1_0, float_2_0)]
       eq_refl eq_refl eq_refl eq_refl eq_refl eq_refl _ _)).
  - intros r h Hr _ Hh. simpl in Hr, Hh.
    destruct Hh as [<- | []].
    destruct Hr as [<- | [<- | [<- | []]]]; eexists; vm_compute; reflexivity.
  - intros r Hr _. simpl in Hr.
    destruct Hr as [<- | [<- | [<- | []]]]; eexists; vm_compute; reflexivity.
Defined.



(** C7: numerator "x**2-1" over denominator "x-1" has the one hole
    (1.0, 2.0), no vertical asymptote, the x-intercept -1.0 alone (1 is
    left out as a hole) and the y-intercept 1.0, in the queries and in
    the summary. *)
Theorem scenario_removable_hole :
  let self := @new PolyCAS.sympy "x**2-1" "x-1" in
  valid self = true /\
  eval find_holes self = Ok [(float_1_0, float_2_0)] /\
  eval find_vertical_asymptotes self = Ok [] /\
  eval find_x_intercepts self = Ok [float_minus_1_0] /\
  eval find_y_intercept self = Ok (Some float_1_0) /\
  eval get_analysis_summary self =
    Ok [("vertical_asymptotes", PyList []);
        ("horizontal_asymptote", PyNone);
        ("holes", PyList [PyTuple [PyFloat float_1_0; PyFloat float_2_0]]);
        ("x_intercepts", PyList [PyFloat float_minus_1_0]);
        ("y_intercept", PyFloat float_1_0);
        ("end_behavior", PyTuple [PyStr "-oo"; PyStr "oo"])].
Proof.
  cbv zeta. repeat split; vm_compute; reflexivity.
Qed.

(** C8: numerator "x+1" over denominator "x-2" has the vertical
    asymptote 2.0, the horizontal asymptote 1.0, no hole, the
    x-intercept -1.0, the y-intercept -0.5 and the end behaviour
    (1.0, 1.0). *)
Theorem scenario_simple_asymptotes :
  let self := @new PolyCAS.sympy "x+1" "x-2" in
  valid self = true /\
  eval get_analysis_summary self =
    Ok [("vertical_asymptotes", PyList [PyFloat float_2_0]);
        ("horizontal_asymptote", PyFloat float_1_0);
        ("holes", PyList []);
        ("x_intercepts", PyList [PyFloat float_minus_1_0]);
        ("y_intercept", PyFloat float_minus_0_5);
        ("end_behavior", PyTuple [PyFloat float_1_0; PyFloat float_1_0])] /\
  eval find_vertical_asymptotes self = Ok [float_2_0] /\
  eval find_horizontal_asymptote self = Ok (Some (Float float_1_0)) /\
  eval find_holes self = Ok [] /\
  eval find_x_intercepts self = Ok [float_minus_1_0] /\
  eval find_y_intercept self = Ok (Some float_minus_0_5) /\
  eval analyze_end_behavior self
    = Ok (Some (LimitFloat float_1_0), Some (LimitFloat float_1_0)).
Proof.
  cbv zeta. repeat split; vm_compute; reflexivity.
Qed.

(** * Further properties of the analyzer *)

Section Totality.
Context {S : Sympy}.

(** A query of the common shape -- the validity guard, then a [try]
    whose [except] returns the default -- always returns. *)
Lemma guarded_query_returns {A} (body : M A) (default : A) self :
  readonly body ->
  exists v,
    eval (v <- get_valid ;;
          if negb v then ret default
          else try_except body (fun _ => ret default)) self = Ok v.
Proof.
  intro Hbody.
  rewrite eval_bind by solve_readonly. rewrite eval_get_valid. cbv beta iota.
  rewrite eval_if. destruct (negb (valid self)).
  - rewrite eval_ret. eauto.
  - rewrite eval_try_except by solve_readonly.
    destruct (eval body self); rewrite ?eval_ret; eauto.
Qed.

Lemma find_vertical_asymptotes_returns self :
  exists v, eval find_vertical_asymptotes self = Ok v.
Proof. apply guarded_query_returns. solve_readonly. Qed.

Lemma find_x_intercepts_returns self :
  exists v, eval find_x_intercepts self = Ok v.
Proof. apply guarded_query_returns. solve_readonly. Qed.

Lemma find_horizontal_asymptote_returns self :
  exists v, eval find_horizontal_asymptote self = Ok v.
Proof. apply guarded_query_returns. solve_readonly. Qed.

Lemma find_y_intercept_returns self :
  exists v, eval find_y_intercept self = Ok v.
Proof. apply guarded_query_returns. solve_readonly. Qed.

Lemma analyze_end_behavior_returns self :
  exists v, eval analyze_end_behavior self = Ok v.
Proof. apply guarded_query_returns. solve_readonly. Qed.

(** The summary of a valid object is assembled from the six queries, each
    run on the unchanged object. *)
Lemma summary_of_valid self :
  valid self = true ->
  exists va ha holes xi yi eb,
    eval find_vertical_asymptotes self = Ok va /\
    eval find_horizontal_asymptote self = Ok ha /\
    eval find_holes self = Ok holes /\
    eval find_x_intercepts self = Ok xi /\
    eval find_y_intercept self = Ok yi /\
    eval analyze_end_behavior self = Ok eb /\
    eval get_analysis_summary self = Ok (summary_of va ha holes xi yi eb).
Proof.
  intro Hv.
  destruct (find_vertical_asymptotes_returns self) as [va Hva].
  destruct (find_horizontal_asymptote_returns self) as [ha Hha].
  destruct (find_holes_returns self) as [holes Hholes].
  destruct (find_x_intercepts_returns self) as [xi Hxi].
  destruct (find_y_intercept_returns self) as [yi Hyi].
  destruct (analyze_end_behavior_returns self) as [eb Heb].
  exists va, ha, holes, xi, yi, eb. repeat (split; [assumption |]).
  unfold get_analysis_summary.
  rewrite eval_bind by solve_readonly. rewrite eval_get_valid, Hv.
  simpl negb. cbv beta iota.
  rewrite eval_bind by solve_readonly. rewrite Hva. cbv beta iota.
  rewrite eval_bind by solve_readonly. rewrite Hha. cbv beta iota.
  rewrite eval_bind by solve_readonly. rewrite Hholes. cbv beta iota.
  rewrite eval_bind by solve_readonly. rewrite Hxi. cbv beta iota.
  rewrite eval_bind by solve_readonly. rewrite Hyi. cbv beta iota.
  rewrite eval_bind by solve_readonly. rewrite Heb. cbv beta iota.
  reflexivity.
Qed.

Lemma summary_of_invalid self :
  valid self = false ->
  eval get_analysis_summary self =
  Ok [("error", of_optional PyStr (error_message self))].
Proof.
  intro Hv. unfold eval, get_analysis_summary, bind, get_valid.
  rewrite Hv. reflexivity.
Qed.

(** X1: whatever the object holds and whatever the library does, none of
    the six queries and not the summary lets an exception escape. *)
Theorem queries_never_raise (self : RationalAnalyzer) :
  (exists v, eval find_vertical_asymptotes self = Ok v) /\
  (exists v, eval find_horizontal_asymptote self = Ok v) /\
  (exists v, eval find_holes self = Ok v) /\
  (exists v, eval find_x_intercepts self = Ok v) /\
  (exists v, eval find_y_intercept self = Ok v) /\
  (exists v, eval analyze_end_behavior self = Ok v) /\
  (exists v, eval get_analysis_summary self = Ok v).
Proof.
  repeat split;
    try first [ apply find_vertical_asymptotes_returns
              | apply find_horizontal_asymptote_returns
              | apply find_holes_returns
              | apply find_x_intercepts_returns
              | apply find_y_intercept_returns
              | apply analyze_end_behavior_returns ].
  destruct (valid self) eqn:Hv.
  - destruct (summary_of_valid self Hv) as (? & ? & ? & ? & ? & ? & H).
    destruct H as (_ & _ & _ & _ & _ & _ & H). eauto.
  - rewrite (summary_of_invalid self Hv). eauto.
Qed.

(** X2: the summary has the key "error" exactly for an invalid object,
    where it is the only key; for a valid object it has the six feature
    keys, bound to what the six queries return on that object. *)
Theorem summary_collects_queries (self : RationalAnalyzer) :
  exists summary,
    eval get_analysis_summary self = Ok summary /\
    (In "error" (keys summary) <-> valid self = false) /\
    (valid self = false -> keys summary = ["error"]) /\
    (valid self = true ->
     keys summary =
       ["vertical_asymptotes"; "horizontal_asymptote"; "holes";
        "x_intercepts"; "y_intercept"; "end_behavior"] /\
     exists va ha holes xi yi eb,
       eval find_vertical_asymptotes self = Ok va /\
       eval find_horizontal_asymptote self = Ok ha /\
       eval find_holes self = Ok holes /\
       eval find_x_intercepts self = Ok xi /\
       eval find_y_intercept self = Ok yi /\
       eval analyze_end_behavior self = Ok eb /\
       summary = summary_of va ha holes xi yi eb).
Proof.
  destruct (valid self) eqn:Hv.
  - destruct (summary_of_valid self Hv)
      as (va & ha & holes & xi & yi & eb & H1 & H2 & H3 & H4 & H5 & H6 & H7).
    exists (summary_of va ha holes xi yi eb).
    split; [assumption |]. split; [| split].
    + simpl. split; [| discriminate].
      intros [H | [H | [H | [H | [H | [H | []]]]]]]; discriminate H.
    + discriminate.
    + intros _. split; [reflexivity |].
      exists va, ha, holes, xi, yi, eb. auto 10.
  - exists [("error", of_optional PyStr (error_message self))].
    split; [apply summary_of_invalid; assumption |]. split; [| split].
    + simpl. split; auto.
    + reflexivity.
    + discriminate.
Qed.
End Totality.

Section Soundness.
Context {S : Sympy}.

Lemma root_filter_sound self (getter : RationalAnalyzer -> option Expr) e l f :
  getter self = Some e ->
  eval
    (v <- get_valid ;;
     if negb v then ret []
     else
       try_except
         (e <- getattr getter ;;
          roots <- call (sp_solve e) ;;
          kept <- for_each roots keep_step [] ;;
          ret (sorted kept))
         (fun _ => ret [])) self = Ok l ->
  In f l ->
  exists roots r,
    sp_solve e = Ok roots /\ In r roots /\ is_real r = Some true /\
    py_float r = Ok f /\ eval (is_hole r) self = Ok false.
Proof.
  intros He Hrun Hl.
  rewrite eval_bind, eval_get_valid in Hrun by solve_readonly.
  cbv beta iota in Hrun. rewrite eval_if in Hrun.
  destruct (negb (valid self)).
  { rewrite eval_ret in Hrun. injection Hrun as <-. contradiction. }
  rewrite eval_try_except in Hrun by solve_readonly.
  rewrite eval_bind, (eval_getattr _ _ He) in Hrun by solve_readonly.
  cbv beta iota in Hrun.
  rewrite eval_bind, eval_call in Hrun by solve_readonly.
  destruct (sp_solve e) as [roots | err] eqn:Hroots.
  2:{ rewrite eval_ret in Hrun. injection Hrun as <-. contradiction. }
  rewrite eval_bind in Hrun by solve_readonly.
  destruct (eval (for_each roots keep_step []) self) as [kept | err] eqn:Hloop.
  2:{ rewrite eval_ret in Hrun. injection Hrun as <-. contradiction. }
  rewrite eval_ret in Hrun. injection Hrun as <-.
  apply (proj1 (sorted_In _ _)) in Hl.
  destruct (@keep_loop_sound _ self roots [] kept Hloop f Hl)
    as [[] | (r & Hr & Hreal & Hfloat & Hnot)].
  exists roots, r. auto.
Qed.

(** X3: every vertical asymptote reported is the float of a real root of
    the denominator, and every x-intercept the float of a real root of
    the numerator, for which [is_hole] answered False. *)
Theorem reported_values_are_real_roots (self : RationalAnalyzer) n d :
  numerator self = Some n -> denominator self = Some d ->
  (forall va f,
     eval find_vertical_asymptotes self = Ok va -> In f va ->
     exists roots r,
       sp_solve d = Ok roots /\ In r roots /\ is_real r = Some true /\
       py_float r = Ok f /\ eval (is_hole r) self = Ok false) /\
  (forall xi f,
     eval find_x_intercepts self = Ok xi -> In f xi ->
     exists roots r,
       sp_solve n = Ok roots /\ In r roots /\ is_real r = Some true /\
       py_float r = Ok f /\ eval (is_hole r) self = Ok false).
Proof.
  intros Hn Hd. split.
  - intros va f Hva Hin.
    exact (@root_filter_sound self denominator d va f Hd Hva Hin).
  - intros xi f Hxi Hin.
    exact (@root_filter_sound self numerator n xi f Hn Hxi Hin).
Qed.

(** The loop body of [find_holes], by the pure computation of one hole. *)
Lemma eval_hole_step self n d g r acc :
  numerator self = Some n -> denominator self = Some d ->
  eval (hole_step g r acc) self =
  if truthy (is_real r) then
    match hole_at n d g r with
    | Ok h => Ok (acc ++ [h])
    | Raise e => Raise e
    end
  else Ok acc.
Proof.
  intros Hn Hd. unfold hole_step, hole_at. rewrite eval_if.
  destruct (truthy (is_real r)); [| apply eval_ret].
  eval_simpl. destruct (truediv n g); eval_simpl; [| reflexivity].
  destruct (sp_simplify a); eval_simpl; [| reflexivity].
  destruct (truediv d g); eval_simpl; [| reflexivity].
  destruct (sp_simplify a1); eval_simpl; [| reflexivity].
  destruct (subs a0 r); eval_simpl; [| reflexivity].
  destruct (subs a2 r); eval_simpl; [| reflexivity].
  destruct (truediv a3 a4); eval_simpl; [| reflexivity].
  destruct (py_float a5); eval_simpl; [| reflexivity].
  destruct (py_float r); eval_simpl; reflexivity.
Qed.

Lemma hole_loop_raises self n d g rs r e :
  numerator self = Some n -> denominator self = Some d ->
  In r rs -> is_real r = Some true -> hole_at n d g r = Raise e ->
  forall acc, exists e', eval (for_each rs (hole_step g) acc) self = Raise e'.
Proof.
  intros Hn Hd Hin Hreal Hraise.
  induction rs as [| r0 rest IH]; intro acc; [contradiction |].
  simpl for_each. rewrite eval_bind by solve_readonly.
  rewrite (@eval_hole_step self n d g r0 acc Hn Hd).
  destruct Hin as [-> | Hin].
  - rewrite (proj2 (truthy_true _) Hreal), Hraise. eauto.
  - destruct (truthy (is_real r0)); [destruct (hole_at n d g r0) |]; eauto.
Qed.

Lemma hole_loop_exact self n d g rs :
  numerator self = Some n -> denominator self = Some d ->
  forall acc l,
    eval (for_each rs (hole_step g) acc) self = Ok l ->
    exists hs,
      l = acc ++ hs /\
      Forall2 (fun r h => hole_at n d g r = Ok h)
              (filter (fun r => truthy (is_real r)) rs) hs.
Proof.
  intros Hn Hd.
  induction rs as [| r rest IH]; intros acc l Hloop.
  - simpl in Hloop. rewrite eval_ret in Hloop. injection Hloop as <-.
    exists []. split; [symmetry; apply app_nil_r | constructor].
  - simpl for_each in Hloop. rewrite eval_bind in Hloop by solve_readonly.
    rewrite (@eval_hole_step self n d g r acc Hn Hd) in Hloop.
    simpl filter. destruct (truthy (is_real r)).
    + destruct (hole_at n d g r) as [h | e] eqn:Hh; [| discriminate].
      destruct (IH _ _ Hloop) as (hs & -> & Hall).
      exists (h :: hs). split; [rewrite <- app_assoc; reflexivity |].
      constructor; assumption.
    + apply IH. assumption.
Qed.

(** What [find_holes] returns once the common factor and its roots are
    at hand: the result of the loop, or the empty list if that raised. *)
Lemma find_holes_after_roots self n d g rs :
  valid self = true ->
  numerator self = Some n -> denominator self = Some d ->
  sp_gcd n d = Ok g -> sp_solve g = Ok rs ->
  eval find_holes self = Ok [] \/
  (eq_int g 1 = false /\
   eval find_holes self =
   match eval (for_each rs (hole_step g) []) self with
   | Ok l => Ok l
   | Raise _ => Ok []
   end).
Proof.
  intros Hv Hn Hd Hg Hrs. unfold find_holes.
  rewrite eval_bind by solve_readonly. rewrite eval_get_valid, Hv.
  simpl negb. cbv beta iota.
  rewrite eval_try_except by solve_readonly.
  rewrite eval_bind, (eval_getattr _ _ Hn) by solve_readonly. cbv beta iota.
  rewrite eval_bind, eval_call by solve_readonly.
  destruct (sp_factor n); [| rewrite eval_ret; auto].
  rewrite eval_bind, (eval_getattr _ _ Hd) by solve_readonly. cbv beta iota.
  rewrite eval_bind, eval_call by solve_readonly.
  destruct (sp_factor d); [| rewrite eval_ret; auto].
  rewrite eval_bind, (eval_getattr _ _ Hn) by solve_readonly. cbv beta iota.
  rewrite eval_bind, (eval_getattr _ _ Hd) by solve_readonly. cbv beta iota.
  rewrite eval_bind, eval_call, Hg by solve_readonly.
  rewrite eval_if. destruct (eq_int g 1); [rewrite eval_ret; auto |].
  rewrite eval_bind, eval_call, Hrs by solve_readonly.
  right. split; [reflexivity |].
  destruct (eval (for_each rs (hole_step g) []) self);
    rewrite ?eval_ret; reflexivity.
Qed.

(** X4: [find_holes] is all or nothing: if the evaluation of the hole at
    one real root of the common factor raises, the result is the empty
    list, and the holes at the other roots are lost with it. *)
Theorem holes_all_or_nothing (self : RationalAnalyzer) n d g rs r e :
  numerator self = Some n -> denominator self = Some d ->
  sp_gcd n d = Ok g -> sp_solve g = Ok rs ->
  In r rs -> is_real r = Some true -> hole_at n d g r = Raise e ->
  eval find_holes self = Ok [].
Proof.
  intros Hn Hd Hg Hrs Hin Hreal Hraise.
  destruct (valid self) eqn:Hv.
  2:{ unfold eval, find_holes, bind, get_valid. rewrite Hv. reflexivity. }
  destruct (@find_holes_after_roots self n d g rs Hv Hn Hd Hg Hrs)
    as [H | [_ H]]; [assumption |].
  rewrite H.
  destruct (@hole_loop_raises self n d g rs r e Hn Hd Hin Hreal Hraise [])
    as [e' He'].
  rewrite He'. reflexivity.
Qed.

(** X5: a non-empty result of [find_holes] has exactly one hole per real
    root of the common factor, in the solver's order: its x is the float
    of the root and its y the float of the reduced quotient at the root. *)
Theorem holes_one_per_real_common_root (self : RationalAnalyzer)
        n d g rs holes :
  numerator self = Some n -> denominator self = Some d ->
  sp_gcd n d = Ok g -> sp_solve g = Ok rs ->
  eval find_holes self = Ok holes -> holes <> [] ->
  Forall2 (fun r h => hole_at n d g r = Ok h)
          (filter (fun r => truthy (is_real r)) rs) holes.
Proof.
  intros Hn Hd Hg Hrs Hholes Hne.
  destruct (valid self) eqn:Hv.
  2:{ unfold eval, find_holes, bind, get_valid in Hholes.
      rewrite Hv in Hholes. simpl in Hholes. congruence. }
  destruct (@find_holes_after_roots self n d g rs Hv Hn Hd Hg Hrs)
    as [H | [_ H]]; [congruence |].
  rewrite H in Hholes.
  destruct (eval (for_each rs (hole_step g) []) self) as [l | e'] eqn:Hloop;
    [| congruence].
  injection Hholes as ->.
  destruct (@hole_loop_exact self n d g rs Hn Hd [] holes Hloop)
    as (hs & -> & Hall).
  exact Hall.
Qed.
End Soundness.

Lemma reported_values_witness :
  exists roots r,
    @sp_solve PolyCAS.sympy (PolyCAS.Quotient [(-2 # 1)%Q; 1%Q] [1%Q])
      = Ok roots /\
    In r roots /\ @is_real PolyCAS.sympy r = Some true /\
    @py_float PolyCAS.sympy r = Ok float_2_0 /\
    eval (is_hole r) (@new PolyCAS.sympy "x+1" "x-2") = Ok false.
Proof.
  refine (proj1
    (@reported_values_are_real_roots PolyCAS.sympy
       (@new PolyCAS.sympy "x+1" "x-2")
       (PolyCAS.Quotient [1%Q; 1%Q] [1%Q])
       (PolyCAS.Quotient [(-2 # 1)%Q; 1%Q] [1%Q])
       eq_refl eq_refl) [float_2_0] float_2_0 _ _).
  - vm_compute. reflexivity.
  - left. reflexivity.
Defined.

Lemma holes_all_or_nothing_witness :
  eval find_holes (@new PolyCAS.sympy "(x-1)**2*(x-2)" "(x-1)*(x-2)**2")
  = Ok [].
Proof.
  apply (@holes_all_or_nothing PolyCAS.sympy
           (@new PolyCAS.sympy "(x-1)**2*(x-2)" "(x-1)*(x-2)**2")
           (PolyCAS.Quotient [(-2 # 1)%Q; (5 # 1)%Q; (-4 # 1)%Q; 1%Q] [1%Q])
           (PolyCAS.Quotient [(-4 # 1)%Q; (8 # 1)%Q; (-5 # 1)%Q; 1%Q] [1%Q])
           (PolyCAS.Quotient [(2 # 1)%Q; (-3 # 1)%Q; 1%Q] [1%Q])
           [PolyCAS.Quotient [1%Q] [1%Q]; PolyCAS.Quotient [(2 # 1)%Q] [1%Q]]
           (PolyCAS.Quotient [(2 # 1)%Q] [1%Q])
           "TypeError: Cannot convert complex to float").
  - vm_compute. reflexivity.
  - vm_compute. reflexivity.
  - vm_compute. reflexivity.
  - vm_compute. reflexivity.
  - right. left. reflexivity.
  - vm_compute. reflexivity.
  - vm_compute. reflexivity.
Defined.

Lemma holes_one_per_root_witness :
  Forall2
    (fun r h =>
       @hole_at PolyCAS.sympy
         (PolyCAS.Quotient [(-1 # 1)%Q; 0%Q; 1%Q] [1%Q])
         (PolyCAS.Quotient [(-1 # 1)%Q; 1%Q] [1%Q])
         (PolyCAS.Quotient [(-1 # 1)%Q; 1%Q] [1%Q]) r = Ok h)
    (filter (fun r => truthy (@is_real PolyCAS.sympy r))
            [PolyCAS.Quotient [1%Q] [1%Q]])
    [(float_1_0, float_2_0)].
Proof.
  apply (@holes_one_per_real_common_root PolyCAS.sympy
           (@new PolyCAS.sympy "x**2-1" "x-1")).
  - vm_compute. reflexivity.
  - vm_compute. reflexivity.
  - vm_compute. reflexivity.
  - vm_compute. reflexivity.
  - vm_compute. reflexivity.
  - discriminate.
Defined.

(** * The two sides of the end behaviour *)

Section EndBehavior.
Context {S : Sympy}.

Lemma eval_float_or_str l self :
  eval (float_or_str l) self = limit_side l.
Proof.
  unfold float_or_str, limit_side.
  rewrite eval_try_except by solve_readonly. rewrite eval_if.
  destruct (truthy (is_finite l)).
  - eval_simpl. destruct (py_float l); eval_simpl; [reflexivity |].
    destruct (py_str l); eval_simpl; reflexivity.
  - eval_simpl. destruct (py_str l) eqn:E; eval_simpl; [reflexivity |].
    rewrite ?E. eval_simpl. reflexivity.
Qed.

(** X6: when both limits are computed, [analyze_end_behavior] returns
    the pair (side at minus infinity, side at plus infinity), each side
    being the float of the limit when the limit is finite and converts,
    and the printed limit otherwise. *)
Theorem end_behavior_sides (self : RationalAnalyzer) f lp ln p n :
  valid self = true ->
  function self = Some f ->
  sp_limit f PlusInfinity = Ok lp ->
  sp_limit f MinusInfinity = Ok ln ->
  limit_side lp = Ok p ->
  limit_side ln = Ok n ->
  eval analyze_end_behavior self = Ok (Some n, Some p).
Proof.
  intros Hv Hf Hlp Hln Hp Hn. unfold analyze_end_behavior.
  rewrite eval_bind by solve_readonly. rewrite eval_get_valid, Hv.
  simpl negb. cbv beta iota.
  rewrite eval_try_except by solve_readonly.
  rewrite eval_bind, (eval_getattr _ _ Hf) by solve_readonly. cbv beta iota.
  rewrite eval_bind, eval_call, Hlp by solve_readonly. cbv beta iota.
  rewrite eval_bind, (eval_getattr _ _ Hf) by solve_readonly. cbv beta iota.
  rewrite eval_bind, eval_call, Hln by solve_readonly. cbv beta iota.
  rewrite eval_bind, eval_float_or_str, Hp by solve_readonly. cbv beta iota.
  rewrite eval_bind, eval_float_or_str, Hn by solve_readonly. cbv beta iota.
  rewrite eval_ret. reflexivity.
Qed.
End EndBehavior.

Lemma end_behavior_sides_witness :
  eval analyze_end_behavior (@new PolyCAS.sympy "x**2" "x+1")
  = Ok (Some (@LimitStr PolyCAS.sympy "-oo"), Some (@LimitStr PolyCAS.sympy "oo")).
Proof.
  apply (@end_behavior_sides PolyCAS.sympy (@new PolyCAS.sympy "x**2" "x+1")
           (PolyCAS.Quotient [0%Q; 0%Q; 1%Q] [1%Q; 1%Q])
           (PolyCAS.Infinity false) (PolyCAS.Infinity true)).
  - reflexivity.
  - reflexivity.
  - reflexivity.
  - reflexivity.
  - reflexivity.
  - reflexivity.
Defined.

(** * Grading of quiz answers (game_modes.py) *)

Section Grading.
Context {S : Sympy} {P : Python S}.

Lemma readonly_close_answer answer correct : readonly (close_answer answer correct).
Proof. unfold close_answer. solve_readonly. Qed.

Lemma readonly_check_vertical_asymptotes analysis answer s :
  readonly (check_vertical_asymptotes analysis answer s).
Proof. unfold check_vertical_asymptotes. solve_readonly. Qed.

Lemma readonly_check_x_intercepts analysis answer s :
  readonly (check_x_intercepts analysis answer s).
Proof. unfold check_x_intercepts. solve_readonly. Qed.

Lemma readonly_check_horizontal_asymptote analysis answer s :
  readonly (check_horizontal_asymptote analysis answer s).
Proof.
  unfold check_horizontal_asymptote.
  apply readonly_try_except; [| intro; apply readonly_ret].
  apply readonly_bind; [apply readonly_call | intro].
  apply readonly_if; [apply readonly_ret |].
  apply readonly_if; [| apply readonly_ret].
  apply readonly_bind; [apply readonly_close_answer | intro].
  apply readonly_if; apply readonly_ret.
Qed.

Lemma readonly_check_y_intercept analysis answer s :
  readonly (check_y_intercept analysis answer s).
Proof.
  unfold check_y_intercept.
  apply readonly_try_except; [| intro; apply readonly_ret].
  apply readonly_bind; [apply readonly_call | intro].
  apply readonly_if; [| apply readonly_ret].
  apply readonly_bind; [apply readonly_close_answer | intro].
  apply readonly_if; apply readonly_ret.
Qed.

Lemma readonly_grade_quiz_answers va ha xi yi :
  readonly (grade_quiz_answers va ha xi yi).
Proof.
  unfold grade_quiz_answers.
  apply readonly_bind; [apply readonly_get_analysis_summary | intro].
  apply readonly_bind; [apply readonly_check_vertical_asymptotes | intro].
  apply readonly_bind; [apply readonly_check_horizontal_asymptote | intro].
  apply readonly_bind; [apply readonly_check_x_intercepts | intro].
  apply readonly_bind; [apply readonly_check_y_intercept | intro].
  apply readonly_ret.
Qed.

(** The answer is within 0.01 of the correct value. *)
Lemma eval_close_answer answer correct self :
  eval (close_answer answer correct) self =
  match float_of_str (str_strip answer) with
  | Raise e => Raise e
  | Ok u =>
      match float_operand correct with
      | Raise e => Raise e
      | Ok c => Ok (float_lt (float_abs (float_sub u c)) float_0_01)
      end
  end.
Proof.
  unfold close_answer. eval_simpl.
  destruct (float_of_str (str_strip answer)); eval_simpl; [| reflexivity].
  destruct (float_operand correct); eval_simpl; reflexivity.
Qed.

(** A block that compares the set of answered floats with the list under
    [key]: it adds [k] exactly when the answer parses and the sets agree. *)
Lemma set_block analysis key answer k self :
  k <> 0 ->
  exists p,
    (p = 0 \/ p = k) /\
    (forall s,
       eval
         (try_except
            (user <- call (floats_of_pieces (split_comma answer)) ;;
             correct <- call (summary_item analysis key) ;;
             correct_set <- call (floats_of_value correct) ;;
             if set_eq user correct_set then ret (s + k) else ret s)
            (fun _ => ret s)) self = Ok (s + p)) /\
    (p = k <->
     exists user v correct,
       floats_of_pieces (split_comma answer) = Ok user /\
       summary_item analysis key = Ok v /\
       floats_of_value v = Ok correct /\
       set_eq user correct = true).
Proof.
  intro Hk.
  destruct (floats_of_pieces (split_comma answer)) as [user | e1] eqn:Huser.
  2:{ exists 0. split; [auto |]. split.
      - intro s. rewrite eval_try_except by solve_readonly. eval_simpl.
        rewrite Z.add_0_r. reflexivity.
      - split; [congruence |]. intros (? & ? & ? & H & _). discriminate H. }
  destruct (summary_item analysis key) as [v | e2] eqn:Hv.
  2:{ exists 0. split; [auto |]. split.
      - intro s. rewrite eval_try_except by solve_readonly. eval_simpl.
        rewrite ?Hv. eval_simpl. rewrite Z.add_0_r. reflexivity.
      - split; [congruence |]. intros (? & ? & ? & _ & H & _). discriminate H. }
  destruct (floats_of_value v) as [correct | e3] eqn:Hcorrect.
  2:{ exists 0. split; [auto |]. split.
      - intro s. rewrite eval_try_except by solve_readonly. eval_simpl.
        rewrite ?Hv. eval_simpl. rewrite Hcorrect. eval_simpl.
        rewrite Z.add_0_r. reflexivity.
      - split; [congruence |]. intros (? & v' & ? & _ & H & H' & _).
        injection H as <-. rewrite Hcorrect in H'. discriminate H'. }
  destruct (set_eq user correct) eqn:Heq.
  - exists k. split; [auto |]. split.
    + intro s. rewrite eval_try_except by solve_readonly. eval_simpl.
      rewrite ?Hv. eval_simpl. rewrite Hcorrect. eval_simpl.
      rewrite Heq. eval_simpl. reflexivity.
    + split; [| reflexivity]. intros _. exists user, v, correct. auto.
  - exists 0. split; [auto |]. split.
    + intro s. rewrite eval_try_except by solve_readonly. eval_simpl.
      rewrite ?Hv. eval_simpl. rewrite Hcorrect. eval_simpl.
      rewrite Heq. eval_simpl. rewrite Z.add_0_r. reflexivity.
    + split; [congruence |].
      intros (u' & v' & c' & H1 & H2 & H3 & H4).
      injection H1 as <-. injection H2 as <-. rewrite Hcorrect in H3.
      injection H3 as <-. congruence.
Qed.

(** A block that checks a number within the tolerance: it adds [k]
    exactly when the correct value is present, the answer parses and
    lies within 0.01. *)
Lemma number_points answer v k self :
  k <> 0 ->
  exists p,
    (p = 0 \/ p = k) /\
    (forall s,
       eval (if negb (is_none v) then
               ok <- close_answer answer v ;;
               if ok then ret (s + k) else ret s
             else ret s) self = Ok (s + p) \/
       (p = 0 /\
        exists e,
          eval (if negb (is_none v) then
                  ok <- close_answer answer v ;;
                  if ok then ret (s + k) else ret s
                else ret s) self = Raise e)) /\
    (p = k <->
     is_none v = false /\
     exists u c,
       float_of_str (str_strip answer) = Ok u /\ float_operand v = Ok c /\
       float_lt (float_abs (float_sub u c)) float_0_01 = true).
Proof.
  intro Hk.
  destruct (is_none v) eqn:Hnone; simpl negb; cbv beta iota.
  { exists 0. split; [auto |]. split.
    - intro s. left. rewrite eval_ret, Z.add_0_r. reflexivity.
    - split; [congruence |]. intros [H _]. discriminate H. }
  assert (Hrun : forall s,
    eval (ok <- close_answer answer v ;;
          if ok then ret (s + k) else ret s) self =
    match eval (close_answer answer v) self with
    | Ok true => Ok (s + k)
    | Ok false => Ok s
    | Raise e => Raise e
    end).
  { intro s. rewrite eval_bind by (apply readonly_close_answer).
    destruct (eval (close_answer answer v) self) as [[|] |]; reflexivity. }
  pose proof (eval_close_answer answer v self) as Hclose.
  destruct (float_of_str (str_strip answer)) as [u | e1] eqn:Hu.
  2:{ exists 0. split; [auto |]. split.
      - intro s. right. split; [reflexivity |]. rewrite Hrun, Hclose. eauto.
      - split; [congruence |]. intros (_ & ? & ? & H & _). discriminate H. }
  destruct (float_operand v) as [c | e2] eqn:Hc.
  2:{ exists 0. split; [auto |]. split.
      - intro s. right. split; [reflexivity |]. rewrite Hrun, Hclose. eauto.
      - split; [congruence |]. intros (_ & ? & ? & _ & H & _). discriminate H. }
  destruct (float_lt (float_abs (float_sub u c)) float_0_01) eqn:Hlt.
  - exists k. split; [auto |]. split.
    + intro s. left. rewrite Hrun, Hclose. reflexivity.
    + split; [| reflexivity]. intros _. split; [reflexivity |].
      exists u, c. auto.
  - exists 0. split; [auto |]. split.
    + intro s. left. rewrite Hrun, Hclose, Z.add_0_r. reflexivity.
    + split; [congruence |]. intros (_ & u' & c' & H1 & H2 & H3).
      injection H1 as <-. injection H2 as <-. congruence.
Qed.

Lemma y_block analysis answer self :
  exists p,
    (p = 0 \/ p = 1) /\
    (forall s, eval (check_y_intercept analysis answer s) self = Ok (s + p)) /\
    (p = 1 <->
     exists v u c,
       summary_item analysis "y_intercept" = Ok v /\ is_none v = false /\
       float_of_str (str_strip answer) = Ok u /\ float_operand v = Ok c /\
       float_lt (float_abs (float_sub u c)) float_0_01 = true).
Proof.
  unfold check_y_intercept.
  destruct (summary_item analysis "y_intercept") as [v | e] eqn:Hv.
  2:{ exists 0. split; [auto |]. split.
      - intro s. rewrite eval_try_except by solve_readonly.
        rewrite eval_bind, eval_call by solve_readonly. rewrite ?Hv.
        rewrite eval_ret, Z.add_0_r. reflexivity.
      - split; [congruence |]. intros (? & ? & ? & H & _). discriminate H. }
  destruct (@number_points answer v 1 self ltac:(discriminate))
    as (p & Hp & Hrun & Hiff).
  exists p. split; [assumption |]. split.
  - intro s.
    rewrite eval_try_except
      by (apply readonly_bind; [apply readonly_call | intro];
          apply readonly_if; [| apply readonly_ret];
          apply readonly_bind; [apply readonly_close_answer | intro];
          apply readonly_if; apply readonly_ret).
    rewrite eval_bind, eval_call by solve_readonly. rewrite ?Hv.
    destruct (Hrun s) as [H | (-> & e & H)]; rewrite H.
    + reflexivity.
    + rewrite eval_ret, Z.add_0_r. reflexivity.
  - rewrite Hiff. split.
    + intros (Hn & u & c & H). exists v, u, c. tauto.
    + intros (v' & u & c & H1 & H2 & H). injection H1 as <-.
      split; [assumption |]. exists u, c. assumption.
Qed.

Lemma ha_block analysis answer self :
  exists p,
    (p = 0 \/ p = 2) /\
    (forall s,
       eval (check_horizontal_asymptote analysis answer s) self = Ok (s + p)) /\
    (p = 2 <->
     exists v,
       summary_item analysis "horizontal_asymptote" = Ok v /\
       ((is_none v = true /\ str_lower (str_strip answer) = "none") \/
        (is_none v = false /\
         exists u c,
           float_of_str (str_strip answer) = Ok u /\ float_operand v = Ok c /\
           float_lt (float_abs (float_sub u c)) float_0_01 = true))).
Proof.
  unfold check_horizontal_asymptote.
  assert (Hro : forall s,
    readonly
      (correct_ha <- call (summary_item analysis "horizontal_asymptote") ;;
       if String.eqb (str_lower (str_strip answer)) "none" && is_none correct_ha
       then ret (s + 2)
       else if negb (is_none correct_ha) then
         ok <- close_answer answer correct_ha ;;
         if ok then ret (s + 2) else ret s
       else ret s)).
  { intro s. apply readonly_bind; [apply readonly_call | intro].
    apply readonly_if; [apply readonly_ret |].
    apply readonly_if; [| apply readonly_ret].
    apply readonly_bind; [apply readonly_close_answer | intro].
    apply readonly_if; apply readonly_ret. }
  destruct (summary_item analysis "horizontal_asymptote") as [v | e] eqn:Hv.
  2:{ exists 0. split; [auto |]. split.
      - intro s. rewrite eval_try_except by apply Hro.
        rewrite eval_bind, eval_call by solve_readonly. rewrite ?Hv.
        rewrite eval_ret, Z.add_0_r. reflexivity.
      - split; [congruence |]. intros (? & H & _). discriminate H. }
  destruct (String.eqb (str_lower (str_strip answer)) "none" && is_none v)
    eqn:Hnone.
  - apply andb_true_iff in Hnone. destruct Hnone as [Hans Hn].
    apply String.eqb_eq in Hans.
    exists 2. split; [auto |]. split.
    + intro s. rewrite eval_try_except by apply Hro.
      rewrite eval_bind, eval_call by solve_readonly. rewrite ?Hv. cbv beta iota.
      rewrite eval_if, Hn, Hans. simpl. rewrite ?eval_ret. reflexivity.
    + split; [| reflexivity]. intros _. exists v. split; [reflexivity |].
      left. auto.
  - destruct (@number_points answer v 2 self ltac:(discriminate))
      as (p & Hp & Hrun & Hiff).
    exists p. split; [assumption |]. split.
    + intro s. rewrite eval_try_except by apply Hro.
      rewrite eval_bind, eval_call by solve_readonly. rewrite ?Hv. cbv beta iota.
      rewrite eval_if, Hnone.
      destruct (Hrun s) as [H | (-> & e & H)]; rewrite H.
      * reflexivity.
      * rewrite eval_ret, Z.add_0_r. reflexivity.
    + rewrite Hiff. split.
      * intros (Hn & H). exists v. split; [reflexivity |]. right. auto.
      * intros (v' & H1 & H). injection H1 as <-.
        destruct H as [[Hn Hans] | H]; [| assumption].
        rewrite Hn, Hans in Hnone. simpl in Hnone. discriminate Hnone.
Qed.

Lemma floats_of_items_floats (l : list pyfloat) :
  floats_of_items (map PyFloat l) = Ok l.
Proof.
  induction l as [| f rest IH]; simpl; [reflexivity |].
  rewrite IH. reflexivity.
Qed.

(** The score of [grade_quiz_answers] on a given summary: the sum of the
    points of the four blocks. *)
Lemma grade_on_summary va ha xi yi analysis self :
  eval get_analysis_summary self = Ok analysis ->
  forall p1 p2 p3 p4,
    (forall s, eval (check_vertical_asymptotes analysis va s) self = Ok (s + p1)) ->
    (forall s, eval (check_horizontal_asymptote analysis ha s) self = Ok (s + p2)) ->
    (forall s, eval (check_x_intercepts analysis xi s) self = Ok (s + p3)) ->
    (forall s, eval (check_y_intercept analysis yi s) self = Ok (s + p4)) ->
    eval (grade_quiz_answers va ha xi yi) self = Ok (p1 + p2 + p3 + p4).
Proof.
  intros Hsum p1 p2 p3 p4 H1 H2 H3 H4. unfold grade_quiz_answers.
  rewrite eval_bind by apply readonly_get_analysis_summary.
  rewrite Hsum. cbv beta iota.
  rewrite eval_bind by apply readonly_check_vertical_asymptotes.
  rewrite H1. cbv beta iota.
  rewrite eval_bind by apply readonly_check_horizontal_asymptote.
  rewrite H2. cbv beta iota.
  rewrite eval_bind by apply readonly_check_x_intercepts.
  rewrite H3. cbv beta iota.
  rewrite eval_bind by apply readonly_check_y_intercept.
  rewrite H4. cbv beta iota.
  rewrite eval_ret. reflexivity.
Qed.

(** X7: grading never raises and never touches the analyzer; the score
    is between 0 and 6. *)
Theorem grading_is_bounded va ha xi yi (self : RationalAnalyzer) :
  snd (grade_quiz_answers va ha xi yi self) = self /\
  exists points,
    eval (grade_quiz_answers va ha xi yi) self = Ok points /\
    0 <= points <= 6.
Proof.
  split; [apply readonly_grade_quiz_answers |].
  assert (Hsum : exists analysis, eval get_analysis_summary self = Ok analysis).
  { destruct (valid self) eqn:Hv.
    - destruct (summary_of_valid self Hv)
        as (? & ? & ? & ? & ? & ? & _ & _ & _ & _ & _ & _ & H). eauto.
    - rewrite (summary_of_invalid self Hv). eauto. }
  destruct Hsum as [analysis Hsum].
  destruct (@set_block analysis "vertical_asymptotes" va 2 self ltac:(discriminate))
    as (p1 & Hp1 & H1 & _).
  destruct (ha_block analysis ha self) as (p2 & Hp2 & H2 & _).
  destruct (@set_block analysis "x_intercepts" xi 1 self ltac:(discriminate))
    as (p3 & Hp3 & H3 & _).
  destruct (y_block analysis yi self) as (p4 & Hp4 & H4 & _).
  exists (p1 + p2 + p3 + p4). split.
  - exact (@grade_on_summary va ha xi yi analysis self Hsum p1 p2 p3 p4 H1 H2 H3 H4).
  - lia.
Qed.

(** X8: on an invalid analyzer every answer scores 0: the summary holds
    only the key "error", so each block ends in its [except] clause. *)
Theorem grading_invalid_scores_zero va ha xi yi (self : RationalAnalyzer) :
  valid self = false ->
  eval (grade_quiz_answers va ha xi yi) self = Ok 0.
Proof.
  intro Hv.
  pose proof (summary_of_invalid self Hv) as Hsum.
  set (analysis := [("error", of_optional PyStr (error_message self))]) in *.
  destruct (@set_block analysis "vertical_asymptotes" va 2 self ltac:(discriminate))
    as (p1 & _ & H1 & Hi1).
  destruct (ha_block analysis ha self) as (p2 & _ & H2 & Hi2).
  destruct (@set_block analysis "x_intercepts" xi 1 self ltac:(discriminate))
    as (p3 & _ & H3 & Hi3).
  destruct (y_block analysis yi self) as (p4 & _ & H4 & Hi4).
  rewrite (@grade_on_summary va ha xi yi analysis self Hsum p1 p2 p3 p4 H1 H2 H3 H4).
  assert (E1 : p1 = 0).
  { specialize (H1 0). unfold check_vertical_asymptotes in H1.
    rewrite eval_try_except in H1 by solve_readonly.
    rewrite eval_bind, eval_call in H1 by solve_readonly.
    destruct (floats_of_pieces (split_comma va));
      [rewrite eval_bind, eval_call in H1 by solve_readonly; simpl in H1 |];
      rewrite eval_ret in H1; injection H1 as H1; lia. }
  assert (E2 : p2 = 0).
  { specialize (H2 0). unfold check_horizontal_asymptote in H2.
    unfold eval, try_except, bind, call, summary_item in H2. simpl in H2.
    injection H2 as H2. lia. }
  assert (E3 : p3 = 0).
  { specialize (H3 0). unfold check_x_intercepts in H3.
    rewrite eval_try_except in H3 by solve_readonly.
    rewrite eval_bind, eval_call in H3 by solve_readonly.
    destruct (floats_of_pieces (split_comma xi));
      [rewrite eval_bind, eval_call in H3 by solve_readonly; simpl in H3 |];
      rewrite eval_ret in H3; injection H3 as H3; lia. }
  assert (E4 : p4 = 0).
  { specialize (H4 0). unfold check_y_intercept in H4.
    unfold eval, try_except, bind, call, summary_item in H4. simpl in H4.
    injection H4 as H4. lia. }
  subst. reflexivity.
Qed.

(** X9: on a valid analyzer the score is the sum of four independent
    awards: 2 points when the comma-separated vertical asymptotes parse
    and equal the correct ones as a set, 2 points for the horizontal
    asymptote (the word "none", in any case and with blanks around it,
    when there is none; a number within 0.01 of it otherwise), 1 point
    for the x-intercepts as a set, and 1 point for a y-intercept within
    0.01 -- never when the function has no y-intercept. *)
Theorem grading_awards_points va ha xi yi (self : RationalAnalyzer)
        cva cha cxi cyi :
  valid self = true ->
  eval find_vertical_asymptotes self = Ok cva ->
  eval find_horizontal_asymptote self = Ok cha ->
  eval find_x_intercepts self = Ok cxi ->
  eval find_y_intercept self = Ok cyi ->
  exists p_va p_ha p_xi p_yi,
    eval (grade_quiz_answers va ha xi yi) self
      = Ok (p_va + p_ha + p_xi + p_yi) /\
    (p_va = 0 \/ p_va = 2) /\ (p_ha = 0 \/ p_ha = 2) /\
    (p_xi = 0 \/ p_xi = 1) /\ (p_yi = 0 \/ p_yi = 1) /\
    (p_va = 2 <->
     exists user,
       floats_of_pieces (split_comma va) = Ok user /\ set_eq user cva = true) /\
    (p_ha = 2 <->
     match cha with
     | None => str_lower (str_strip ha) = "none"
     | Some c =>
         exists u,
           float_of_str (str_strip ha) = Ok u /\
           float_lt
             (float_abs
                (float_sub u
                   match c with Int z => float_of_int z | Float f => f end))
             float_0_01 = true
     end) /\
    (p_xi = 1 <->
     exists user,
       floats_of_pieces (split_comma xi) = Ok user /\ set_eq user cxi = true) /\
    (p_yi = 1 <->
     match cyi with
     | None => False
     | Some y =>
         exists u,
           float_of_str (str_strip yi) = Ok u /\
           float_lt (float_abs (float_sub u y)) float_0_01 = true
     end).
Proof.
  intros Hv Hva Hha Hxi Hyi.
  destruct (summary_of_valid self Hv)
    as (va' & ha' & holes & xi' & yi' & eb & E1 & E2 & _ & E4 & E5 & _ & Hsum).
  rewrite Hva in E1. injection E1 as <-.
  rewrite Hha in E2. injection E2 as <-.
  rewrite Hxi in E4. injection E4 as <-.
  rewrite Hyi in E5. injection E5 as <-.
  set (analysis := summary_of cva cha holes cxi cyi eb) in *.
  destruct (@set_block analysis "vertical_asymptotes" va 2 self ltac:(discriminate))
    as (p1 & Hp1 & H1 & Hi1).
  destruct (ha_block analysis ha self) as (p2 & Hp2 & H2 & Hi2).
  destruct (@set_block analysis "x_intercepts" xi 1 self ltac:(discriminate))
    as (p3 & Hp3 & H3 & Hi3).
  destruct (y_block analysis yi self) as (p4 & Hp4 & H4 & Hi4).
  exists p1, p2, p3, p4.
  split;
    [exact (@grade_on_summary va ha xi yi analysis self Hsum p1 p2 p3 p4
              H1 H2 H3 H4) |].
  repeat (split; [assumption |]).
  assert (Iva : summary_item analysis "vertical_asymptotes"
                = Ok (PyList (map PyFloat cva))) by reflexivity.
  assert (Iha : summary_item analysis "horizontal_asymptote"
                = Ok (of_optional of_number cha)) by reflexivity.
  assert (Ixi : summary_item analysis "x_intercepts"
                = Ok (PyList (map PyFloat cxi))) by reflexivity.
  assert (Iyi : summary_item analysis "y_intercept"
                = Ok (of_optional PyFloat cyi)) by reflexivity.
  split; [| split; [| split]].
  - rewrite Hi1. split.
    + intros (user & v & correct & Hu & Hitem & Hc & Heq).
      rewrite Iva in Hitem. injection Hitem as <-.
      simpl in Hc. rewrite floats_of_items_floats in Hc. injection Hc as <-.
      exists user. auto.
    + intros (user & Hu & Heq).
      exists user, (PyList (map PyFloat cva)), cva.
      repeat split; auto. simpl. apply floats_of_items_floats.
  - rewrite Hi2. split.
    + intros (v & Hitem & Hcase).
      rewrite Iha in Hitem. injection Hitem as <-.
      destruct cha as [[z | f] |]; simpl in Hcase;
        destruct Hcase as [[Hn Hans] | (Hn & u & c & Hu & Hc & Hlt)];
        try discriminate; try assumption;
        injection Hc as <-; exists u; auto.
    + intro Hcase. exists (of_optional of_number cha).
      split; [assumption |].
      destruct cha as [[z | f] |]; simpl.
      * destruct Hcase as (u & Hu & Hlt). right. split; [reflexivity |].
        exists u, (float_of_int z). auto.
      * destruct Hcase as (u & Hu & Hlt). right. split; [reflexivity |].
        exists u, f. auto.
      * left. auto.
  - rewrite Hi3. split.
    + intros (user & v & correct & Hu & Hitem & Hc & Heq).
      rewrite Ixi in Hitem. injection Hitem as <-.
      simpl in Hc. rewrite floats_of_items_floats in Hc. injection Hc as <-.
      exists user. auto.
    + intros (user & Hu & Heq).
      exists user, (PyList (map PyFloat cxi)), cxi.
      repeat split; auto. simpl. apply floats_of_items_floats.
  - rewrite Hi4. split.
    + intros (v & u & c & Hitem & Hn & Hu & Hc & Hlt).
      rewrite Iyi in Hitem. injection Hitem as <-.
      destruct cyi as [y |]; simpl in *; [| discriminate].
      injection Hc as <-. exists u. auto.
    + destruct cyi as [y |]; [| contradiction].
      intros (u & Hu & Hlt). exists (PyFloat y), u, y.
      repeat split; auto.
Qed.
(** Two answers with the same floats, in any order and any number of
    times, compare alike with a list. *)
Lemma set_eq_same_elements (l1 l2 correct : list pyfloat) :
  (forall x, In x l1 <-> In x l2) ->
  set_eq l1 correct = set_eq l2 correct.
Proof.
  intro Hsame. unfold set_eq. f_equal.
  - apply eq_iff_eq_true. rewrite !forallb_forall.
    split; intros H x Hin; apply H; apply Hsame; exact Hin.
  - induction correct as [| y rest IH]; [reflexivity |].
    cbn [forallb]. rewrite IH. f_equal.
    apply eq_iff_eq_true. rewrite !existsb_exists.
    split; intros (x & Hin & Heq); exists x; split; auto; apply Hsame; exact Hin.
Qed.

Lemma summary_returns self :
  exists analysis, eval get_analysis_summary self = Ok analysis.
Proof.
  destruct (valid self) eqn:Hv.
  - destruct (summary_of_valid self Hv)
      as (? & ? & ? & ? & ? & ? & _ & _ & _ & _ & _ & _ & H). eauto.
  - rewrite (summary_of_invalid self Hv). eauto.
Qed.

(** The points of a set block depend on the answer only through the set
    of floats it lists. *)
Lemma set_block_same_elements (analysis : dict) key a1 a2 l1 l2 (k : Z) :
  k <> 0 ->
  floats_of_pieces (split_comma a1) = Ok l1 ->
  floats_of_pieces (split_comma a2) = Ok l2 ->
  (forall x, In x l1 <-> In x l2) ->
  forall p1 p2,
    (p1 = 0 \/ p1 = k) ->
    (p1 = k <->
     exists user v correct,
       floats_of_pieces (split_comma a1) = Ok user /\
       summary_item analysis key = Ok v /\
       floats_of_value v = Ok correct /\
       set_eq user correct = true) ->
    (p2 = 0 \/ p2 = k) ->
    (p2 = k <->
     exists user v correct,
       floats_of_pieces (split_comma a2) = Ok user /\
       summary_item analysis key = Ok v /\
       floats_of_value v = Ok correct /\
       set_eq user correct = true) ->
    p1 = p2.
Proof.
  intros Hk H1 H2 Hsame p1 p2 Hp1 Hi1 Hp2 Hi2.
  assert (Hiff : p1 = k <-> p2 = k).
  { rewrite Hi1, Hi2. split.
    - intros (user & v & correct & Hu & Hv & Hc & Heq).
      rewrite H1 in Hu. injection Hu as <-.
      exists l2, v, correct. repeat split; auto.
      rewrite <- (@set_eq_same_elements l1 l2 correct Hsame). exact Heq.
    - intros (user & v & correct & Hu & Hv & Hc & Heq).
      rewrite H2 in Hu. injection Hu as <-.
      exists l1, v, correct. repeat split; auto.
      rewrite (@set_eq_same_elements l1 l2 correct Hsame). exact Heq. }
  destruct Hp1 as [-> | ->], Hp2 as [-> | ->]; try reflexivity.
  - apply (proj2 Hiff). reflexivity.
  - symmetry. apply (proj1 Hiff). reflexivity.
Qed.

(** X10: the vertical asymptotes and the x-intercepts are graded as
    sets: two answers that list the same floats, in any order and with
    any repetitions, get the same score. *)
Theorem grading_ignores_order va1 va2 xi1 xi2 ha yi (self : RationalAnalyzer)
        (lva1 lva2 lxi1 lxi2 : list pyfloat) :
  floats_of_pieces (split_comma va1) = Ok lva1 ->
  floats_of_pieces (split_comma va2) = Ok lva2 ->
  (forall x, In x lva1 <-> In x lva2) ->
  floats_of_pieces (split_comma xi1) = Ok lxi1 ->
  floats_of_pieces (split_comma xi2) = Ok lxi2 ->
  (forall x, In x lxi1 <-> In x lxi2) ->
  eval (grade_quiz_answers va1 ha xi1 yi) self =
  eval (grade_quiz_answers va2 ha xi2 yi) self.
Proof.
  intros Hva1 Hva2 Hva Hxi1 Hxi2 Hxi.
  destruct (summary_returns self) as [analysis Hsum].
  destruct (@set_block analysis "vertical_asymptotes" va1 2 self ltac:(discriminate))
    as (p1 & Hp1 & H1 & Hi1).
  destruct (@set_block analysis "vertical_asymptotes" va2 2 self ltac:(discriminate))
    as (q1 & Hq1 & G1 & Gi1).
  destruct (ha_block analysis ha self) as (p2 & _ & H2 & _).
  destruct (@set_block analysis "x_intercepts" xi1 1 self ltac:(discriminate))
    as (p3 & Hp3 & H3 & Hi3).
  destruct (@set_block analysis "x_intercepts" xi2 1 self ltac:(discriminate))
    as (q3 & Hq3 & G3 & Gi3).
  destruct (y_block analysis yi self) as (p4 & _ & H4 & _).
  rewrite (@grade_on_summary va1 ha xi1 yi analysis self Hsum p1 p2 p3 p4 H1 H2 H3 H4).
  rewrite (@grade_on_summary va2 ha xi2 yi analysis self Hsum q1 p2 q3 p4 G1 H2 G3 H4).
  rewrite (@set_block_same_elements analysis "vertical_asymptotes" va1 va2 lva1 lva2
             2 ltac:(discriminate) Hva1 Hva2 Hva p1 q1 Hp1 Hi1 Hq1 Gi1).
  rewrite (@set_block_same_elements analysis "x_intercepts" xi1 xi2 lxi1 lxi2
             1 ltac:(discriminate) Hxi1 Hxi2 Hxi p3 q3 Hp3 Hi3 Hq3 Gi3).
  reflexivity.
Qed.

(** X11: the empty form.  With all four answers blank, a valid function
    earns 2 points when it has no vertical asymptote and 1 point when it
    has no x-intercept: a blank list is read as the empty set.  The two
    number answers earn nothing, as [float] of a blank raises. *)
Theorem blank_answers_score (self : RationalAnalyzer) cva cxi e :
  str_strip "" = ""%string ->
  str_lower "" = ""%string ->
  float_of_str "" = Raise e ->
  valid self = true ->
  eval find_vertical_asymptotes self = Ok cva ->
  eval find_x_intercepts self = Ok cxi ->
  eval (grade_quiz_answers "" "" "" "") self =
  Ok ((match cva with [] => 2 | _ :: _ => 0 end) +
      (match cxi with [] => 1 | _ :: _ => 0 end)).
Proof.
  intros Hstrip Hlower Hfloat Hv Hva Hxi.
  destruct (summary_of_valid self Hv)
    as (va' & cha & holes & xi' & cyi & eb & E1 & _ & _ & E4 & _ & _ & Hsum).
  rewrite Hva in E1. injection E1 as <-.
  rewrite Hxi in E4. injection E4 as <-.
  set (analysis := summary_of cva cha holes cxi cyi eb) in *.
  assert (Hblank : floats_of_pieces (split_comma "") = Ok []).
  { cbn. rewrite Hstrip. reflexivity. }
  assert (Hempty : forall l : list pyfloat,
            set_eq [] l = match l with [] => true | _ :: _ => false end).
  { intros [| x l]; reflexivity. }
  destruct (@set_block analysis "vertical_asymptotes" "" 2 self ltac:(discriminate))
    as (p1 & Hp1 & H1 & Hi1).
  destruct (ha_block analysis "" self) as (p2 & Hp2 & H2 & Hi2).
  destruct (@set_block analysis "x_intercepts" "" 1 self ltac:(discriminate))
    as (p3 & Hp3 & H3 & Hi3).
  destruct (y_block analysis "" self) as (p4 & Hp4 & H4 & Hi4).
  rewrite (@grade_on_summary "" "" "" "" analysis self Hsum p1 p2 p3 p4 H1 H2 H3 H4).
  assert (E1 : p1 = match cva with [] => 2 | _ :: _ => 0 end).
  { destruct cva as [| x l].
    - apply Hi1. exists [], (PyList []), []. repeat split; auto.
    - destruct Hp1 as [-> | Hp1]; [reflexivity |]. exfalso.
      apply Hi1 in Hp1. destruct Hp1 as (user & v & correct & Hu & Hitem & Hc & Heq).
      rewrite Hblank in Hu. injection Hu as <-.
      change (summary_item analysis "vertical_asymptotes")
        with (Ok (PyList (map PyFloat (x :: l)))) in Hitem.
      injection Hitem as <-.
      change (floats_of_items (map PyFloat (x :: l)) = Ok correct) in Hc.
      rewrite floats_of_items_floats in Hc. injection Hc as <-.
      rewrite Hempty in Heq. discriminate Heq. }
  assert (E3 : p3 = match cxi with [] => 1 | _ :: _ => 0 end).
  { destruct cxi as [| x l].
    - apply Hi3. exists [], (PyList []), []. repeat split; auto.
    - destruct Hp3 as [-> | Hp3]; [reflexivity |]. exfalso.
      apply Hi3 in Hp3. destruct Hp3 as (user & v & correct & Hu & Hitem & Hc & Heq).
      rewrite Hblank in Hu. injection Hu as <-.
      change (summary_item analysis "x_intercepts")
        with (Ok (PyList (map PyFloat (x :: l)))) in Hitem.
      injection Hitem as <-.
      change (floats_of_items (map PyFloat (x :: l)) = Ok correct) in Hc.
      rewrite floats_of_items_floats in Hc. injection Hc as <-.
      rewrite Hempty in Heq. discriminate Heq. }
  assert (E2 : p2 = 0).
  { destruct Hp2 as [-> | Hp2]; [reflexivity |]. exfalso.
    apply Hi2 in Hp2. destruct Hp2 as (v & _ & [[_ Hnone] | (_ & u & c & Hu & _)]).
    - rewrite Hstrip, Hlower in Hnone. discriminate Hnone.
    - rewrite Hstrip, Hfloat in Hu. discriminate Hu. }
  assert (E4 : p4 = 0).
  { destruct Hp4 as [-> | Hp4]; [reflexivity |]. exfalso.
    apply Hi4 in Hp4. destruct Hp4 as (v & u & c & _ & _ & Hu & _).
    rewrite Hstrip, Hfloat in Hu. discriminate Hu. }
  rewrite E1, E2, E3, E4. f_equal. lia.
Qed.
End Grading.

Lemma grading_invalid_witness :
  eval (@grade_quiz_answers PolyCAS.sympy AsciiPython.python "2" "none" "" "1")
       (@new PolyCAS.sympy "x+" "x-2") = Ok 0.
Proof.
  apply (@grading_invalid_scores_zero PolyCAS.sympy AsciiPython.python).
  vm_compute. reflexivity.
Defined.

Lemma grading_points_witness :
  exists p_va p_ha p_xi p_yi,
    eval (@grade_quiz_answers PolyCAS.sympy AsciiPython.python
            " 2.0" "NONE" "-1" "-0.5")
         (@new PolyCAS.sympy "x+1" "x-2") = Ok (p_va + p_ha + p_xi + p_yi) /\
    p_va = 2 /\ p_ha = 0 /\ p_xi = 1 /\ p_yi = 1.
Proof.
  assert (Hv : valid (@new PolyCAS.sympy "x+1" "x-2") = true)
    by (vm_compute; reflexivity).
  assert (Hva : eval find_vertical_asymptotes (@new PolyCAS.sympy "x+1" "x-2")
                = Ok [float_2_0]) by (vm_compute; reflexivity).
  assert (Hha : eval find_horizontal_asymptote (@new PolyCAS.sympy "x+1" "x-2")
                = Ok (Some (@Float PolyCAS.sympy float_1_0)))
    by reflexivity.
  assert (Hxi : eval find_x_intercepts (@new PolyCAS.sympy "x+1" "x-2")
                = Ok [float_minus_1_0]) by (vm_compute; reflexivity).
  assert (Hyi : eval find_y_intercept (@new PolyCAS.sympy "x+1" "x-2")
                = Ok (Some float_minus_0_5)) by (vm_compute; reflexivity).
  destruct (@grading_awards_points PolyCAS.sympy AsciiPython.python
              " 2.0" "NONE" "-1" "-0.5" (@new PolyCAS.sympy "x+1" "x-2")
              [float_2_0] (Some (@Float PolyCAS.sympy float_1_0))
              [float_minus_1_0] (Some float_minus_0_5) Hv Hva Hha Hxi Hyi)
    as (p1 & p2 & p3 & p4 & Hrun & Hp1 & Hp2 & Hp3 & Hp4 & H1 & H2 & H3 & H4).
  exists p1, p2, p3, p4. split; [exact Hrun |].
  split; [| split; [| split]].
  - apply H1. exists [float_2_0]. split; vm_compute; reflexivity.
  - destruct Hp2 as [E | E]; [exact E |].
    apply H2 in E. destruct E as (u & Hu & _). vm_compute in Hu. discriminate Hu.
  - apply H3. exists [float_minus_1_0]. split; vm_compute; reflexivity.
  - apply H4. exists float_minus_0_5. split; vm_compute; reflexivity.
Defined.

Lemma grading_order_witness :
  eval (@grade_quiz_answers PolyCAS.sympy AsciiPython.python "1, 2" "1" "-1" "")
       (@new PolyCAS.sympy "x+1" "x-2") =
  eval (@grade_quiz_answers PolyCAS.sympy AsciiPython.python "2,1,2," "1" "-1,-1.0" "")
       (@new PolyCAS.sympy "x+1" "x-2").
Proof.
  apply (@grading_ignores_order PolyCAS.sympy AsciiPython.python
           "1, 2" "2,1,2," "-1" "-1,-1.0" "1" "" (@new PolyCAS.sympy "x+1" "x-2")
           [float_1_0; float_2_0] [float_2_0; float_1_0; float_2_0]
           [float_minus_1_0] [float_minus_1_0; float_minus_1_0]).
  - vm_compute. reflexivity.
  - vm_compute. reflexivity.
  - cbn [In]. tauto.
  - vm_compute. reflexivity.
  - vm_compute. reflexivity.
  - cbn [In]. tauto.
Defined.

Lemma blank_answers_witness :
  eval (@grade_quiz_answers PolyCAS.sympy AsciiPython.python "" "" "" "")
       (@new PolyCAS.sympy "x" "x") = Ok 3.
Proof.
  apply (@blank_answers_score PolyCAS.sympy AsciiPython.python
           (@new PolyCAS.sympy "x" "x") [] []
           "ValueError: could not convert string to float").
  - reflexivity.
  - reflexivity.
  - reflexivity.
  - vm_compute. reflexivity.
  - vm_compute. reflexivity.
  - vm_compute. reflexivity.
Defined.

(** * The generated functions and their display strings (game_modes.py) *)

Lemma replace_star_is_without s : replace "*" "" s = without "*" s.
Proof.
  unfold replace. induction s as [| c rest IH]; [reflexivity |].
  cbn [replace_from without String.prefix String.length Nat.sub].
  destruct (ascii_dec "*" c) as [<- | Hne].
  - cbn. replace (String.prefix "" rest) with true by (destruct rest; reflexivity).
    exact IH.
  - destruct (Ascii.eqb c "*") eqn:E.
    + apply Ascii.eqb_eq in E. congruence.
    + rewrite IH. reflexivity.
Qed.

Lemma replace_power_dead s :
  replace "**" "^" (without "*" s) = without "*" s.
Proof.
  unfold replace. induction s as [| c rest IH]; [reflexivity |].
  cbn [without]. destruct (Ascii.eqb c "*") eqn:E; [exact IH |].
  cbn [replace_from String.prefix].
  destruct (ascii_dec "*" c) as [<- | Hne].
  - rewrite Ascii.eqb_refl in E. discriminate E.
  - rewrite IH. reflexivity.
Qed.

Lemma latex_of_without s : latex_of s = without "*" s.
Proof.
  unfold latex_of. rewrite replace_star_is_without. apply replace_power_dead.
Qed.

(** X12: the display strings are the function strings with every [*]
    deleted: the second replacement, of [**] by [^], never finds
    anything, so a power [x**2] is shown as [x2].  This holds for every
    string, hence for every quiz and builder function drawn. *)
Theorem latex_only_deletes_stars :
  (forall s, latex_of s = without "*" s) /\
  (forall session_level raw i,
     exists n d,
       fst (generate_quiz_function session_level raw i) =
       function_entry n d (without "*" n) (without "*" d)) /\
  (forall raw i,
     exists n d,
       fst (generate_builder_function raw i) =
       function_entry n d (without "*" n) (without "*" d)).
Proof.
  split; [exact latex_of_without |]. split.
  - intros session_level raw i. unfold generate_quiz_function.
    destruct (Z.min session_level 4 =? 1); [| destruct (Z.min session_level 4 =? 2)];
      cbv beta iota zeta delta [rand_bind randint rand_ret randints fst];
      rewrite !latex_of_without; eexists; eexists; reflexivity.
  - intros raw i. unfold generate_builder_function.
    cbv beta iota zeta delta [rand_bind randint rand_ret fst].
    rewrite latex_of_without, replace_star_is_without.
    eexists; eexists; reflexivity.
Qed.

(** ** Random draws *)

Lemma randint_range lo hi raw i :
  lo <= hi -> lo <= fst (randint lo hi raw i) <= hi.
Proof.
  intro H. unfold randint. cbn [fst].
  pose proof (Z.mod_pos_bound (Z.of_N (raw i)) (hi - lo + 1) ltac:(lia)). lia.
Qed.

Lemma race_function_shaped raw i :
  race_shaped (fst (race_function raw i)) /\
  snd (race_function raw i) = (i + 4)%nat.
Proof.
  unfold race_function.
  cbv beta iota zeta delta [rand_bind randint rand_ret randints fst snd nth].
  split.
  - exists (1 + Z.of_N (raw i) mod (3 - 1 + 1)),
           (1 + Z.of_N (raw (Datatypes.S i)) mod (3 - 1 + 1)),
           (1 + Z.of_N (raw (Datatypes.S (Datatypes.S i))) mod (3 - 1 + 1)),
           (1 + Z.of_N (raw (Datatypes.S (Datatypes.S (Datatypes.S i)))) mod (3 - 1 + 1)).
    rewrite !replace_star_is_without.
    repeat split;
      try (match goal with
           | |- context [Z.of_N ?x mod _] =>
               pose proof (Z.mod_pos_bound (Z.of_N x) (3 - 1 + 1) ltac:(lia)); lia
           end).
  - lia.
Qed.

Lemma race_functions_loop_shaped rounds :
  forall functions raw i,
    exists fs,
      fst (race_functions_loop rounds functions raw i) = functions ++ fs /\
      List.length fs = rounds /\ Forall race_shaped fs.
Proof.
  induction rounds as [| k IH]; intros functions raw i.
  - exists []. cbn. rewrite app_nil_r. auto.
  - cbn [race_functions_loop]. unfold rand_bind.
    destruct (race_function raw i) as [f j] eqn:Hf.
    destruct (IH (functions ++ [f]) raw j) as (fs & Hrun & Hlen & Hall).
    exists (f :: fs). rewrite Hrun, <- app_assoc. cbn.
    split; [reflexivity |]. split; [lia |].
    constructor; [| assumption].
    pose proof (race_function_shaped raw i) as [H _]. rewrite Hf in H. exact H.
Qed.

(** * The end-behaviour race (game_modes.py) *)

Section Race.
Context {S : Sympy}.

Lemma check_end_behavior_present data n d neg_inf_answer pos_inf_answer :
  getitem data "numerator" = Ok n ->
  getitem data "denominator" = Ok d ->
  check_end_behavior data neg_inf_answer pos_inf_answer = Ok true.
Proof.
  intros Hn Hd. unfold check_end_behavior. rewrite Hn, Hd.
  destruct (analyze_end_behavior_returns (new n d)) as [[l r] H].
  unfold eval in H. rewrite H. reflexivity.
Qed.

(** X13: [check_end_behavior] never looks at the two answers: it returns
    [True] whenever the function data holds both strings -- whether or
    not they parse, and whatever the library does -- and raises
    [KeyError] otherwise; it never returns [False]. *)
Theorem end_behavior_check_ignores_answers
        (data : func_data) (neg_inf_answer pos_inf_answer : string) :
  check_end_behavior data neg_inf_answer pos_inf_answer <> Ok false /\
  (check_end_behavior data neg_inf_answer pos_inf_answer = Ok true <->
   (exists n, getitem data "numerator" = Ok n) /\
   (exists d, getitem data "denominator" = Ok d)) /\
  (check_end_behavior data neg_inf_answer pos_inf_answer = Raise "KeyError" <->
   getitem data "numerator" = Raise "KeyError" \/
   getitem data "denominator" = Raise "KeyError").
Proof.
  assert (Hkey : forall (d : func_data) k e, getitem d k = Raise e -> e = "KeyError").
  { intros d k e. induction d as [| [k' v] rest IH]; cbn.
    - congruence.
    - destruct (String.eqb k k'); [discriminate | exact IH]. }
  destruct (getitem data "numerator") as [n | e1] eqn:Hn.
  - destruct (getitem data "denominator") as [d | e2] eqn:Hd.
    + rewrite (check_end_behavior_present _ _ _ Hn Hd).
      split; [discriminate |]. split.
      * split; eauto.
      * split; [discriminate | intros [H | H]; discriminate H].
    + pose proof (Hkey _ _ _ Hd) as ->.
      unfold check_end_behavior. rewrite Hn, Hd.
      split; [discriminate |]. split.
      * split; [discriminate | intros [_ [? H]]; discriminate H].
      * split; auto.
  - pose proof (Hkey _ _ _ Hn) as ->.
    unfold check_end_behavior. rewrite Hn.
    split; [discriminate |]. split.
    + split; [discriminate | intros [[? H] _]; discriminate H].
    + split; auto.
Qed.

(** X14: [generate_race_functions] returns [count] functions (none for a
    count below one), each with both sides linear and every coefficient
    between 1 and 3; [check_end_behavior] accepts every one of them
    whatever is answered, so a race of five always scores five. *)
Theorem race_always_scores (count : Z) (raw : nat -> N) (i : nat) :
  let functions := fst (generate_race_functions count raw i) in
  List.length functions = Z.to_nat count /\
  Forall race_shaped functions /\
  Forall (fun f => forall neg_inf_answer pos_inf_answer,
            check_end_behavior f neg_inf_answer pos_inf_answer = Ok true)
         functions.
Proof.
  cbv zeta. unfold generate_race_functions.
  destruct (race_functions_loop_shaped (Z.to_nat count) [] raw i)
    as (fs & Hrun & Hlen & Hall).
  rewrite Hrun. cbn [app]. split; [exact Hlen |]. split; [exact Hall |].
  apply Forall_forall. intros f Hin neg pos.
  rewrite Forall_forall in Hall.
  destruct (Hall f Hin) as (a & b & c & d & _ & _ & _ & _ & ->).
  eapply check_end_behavior_present; reflexivity.
Qed.
End Race.

(** * Achievements (app.py) *)

Lemma earned_In name owned : earned name owned = true <-> In name owned.
Proof.
  unfold earned. rewrite existsb_exists. split.
  - intros (x & Hin & Heq). apply String.eqb_eq in Heq. subst. exact Hin.
  - intro H. exists name. split; [exact H | apply String.eqb_refl].
Qed.

Lemma condition_iff reached name owned :
  reached && negb (earned name owned) = true <->
  reached = true /\ ~ In name owned.
Proof.
  rewrite andb_true_iff, negb_true_iff, <- earned_In.
  destruct (earned name owned); intuition congruence.
Qed.

(** The loop appends a list of distinct names that are not owned yet as
    it stands, with one message each. *)
Lemma unlock_fresh news :
  forall st messages,
    NoDup news ->
    (forall n, In n news -> ~ In n (achievements st)) ->
    unlock news st messages =
    ({| score := score st; level := level st;
        achievements := achievements st ++ news |},
     messages ++ map announce news).
Proof.
  induction news as [| a rest IH]; intros st messages Hnd Hfresh.
  - cbn. rewrite !app_nil_r. destruct st; reflexivity.
  - cbn [unlock].
    assert (E : earned a (achievements st) = false).
    { destruct (earned a (achievements st)) eqn:E; [| reflexivity].
      apply earned_In in E. exfalso.
      apply (Hfresh a); [left; reflexivity | exact E]. }
    rewrite E. cbn [negb]. inversion Hnd as [| ? ? Hnotin Hnd']; subst.
    rewrite IH.
    + cbn. rewrite <- !app_assoc. reflexivity.
    + exact Hnd'.
    + intros n Hin. cbn. rewrite in_app_iff. intros [H1 | [H1 | []]].
      * apply (Hfresh n); [right; assumption | assumption].
      * subst. contradiction.
Qed.

(** The list collected before the loop: the due achievements, in the
    order of the four tests. *)
Lemma new_achievements_due st :
  exists news,
    check_achievements st = unlock news st [] /\
    NoDup news /\
    (forall name, In name news <-> due name st).
Proof.
  unfold check_achievements. cbv zeta.
  set (c1 := (10 <=? score st) && negb (earned "First Steps" (achievements st))).
  set (c2 := (50 <=? score st) && negb (earned "Asymptote Ace" (achievements st))).
  set (c3 := (5 <=? level st) && negb (earned "Level Master" (achievements st))).
  set (c4 := (100 <=? score st) && negb (earned "Function Expert" (achievements st))).
  assert (F1 : c1 = true <-> 10 <= score st /\ ~ In "First Steps" (achievements st))
    by (unfold c1; rewrite condition_iff, Z.leb_le; tauto).
  assert (F2 : c2 = true <-> 50 <= score st /\ ~ In "Asymptote Ace" (achievements st))
    by (unfold c2; rewrite condition_iff, Z.leb_le; tauto).
  assert (F3 : c3 = true <-> 5 <= level st /\ ~ In "Level Master" (achievements st))
    by (unfold c3; rewrite condition_iff, Z.leb_le; tauto).
  assert (F4 : c4 = true <-> 100 <= score st /\ ~ In "Function Expert" (achievements st))
    by (unfold c4; rewrite condition_iff, Z.leb_le; tauto).
  clearbody c1 c2 c3 c4.
  destruct c1, c2, c3, c4; cbn [app];
    (eexists; split; [reflexivity |]; split;
     [ repeat constructor; cbn [In]; intuition discriminate
     | intro name; unfold due; cbn [In]; split;
       [ intros H; repeat (destruct H as [<- | H]); try contradiction;
         intuition (auto; discriminate)
       | intros (Hnew & [[-> H] | [[-> H] | [[-> H] | [-> H]]]]);
         intuition (auto; discriminate) ] ]).
Qed.

(** X15: [check_achievements] appends exactly the achievements that are
    due -- threshold reached and not owned -- each once, in the order of
    the four tests, after the ones already owned, and shows one message
    for each; the score and the level are left as they are. *)
Theorem achievements_unlocked (st : session) :
  exists news,
    check_achievements st =
      ({| score := score st; level := level st;
          achievements := achievements st ++ news |},
       map announce news) /\
    NoDup news /\
    (forall name, In name news <-> due name st).
Proof.
  destruct (new_achievements_due st) as (news & Hrun & Hnd & Hdue).
  exists news. split; [| split; assumption].
  rewrite Hrun. rewrite unlock_fresh; [reflexivity | exact Hnd |].
  intros n Hin. apply Hdue in Hin. exact (proj1 Hin).
Qed.

(** X16: checking the achievements again, with nothing else changed,
    adds nothing and shows no message. *)
Theorem achievements_check_is_idempotent (st : session) :
  check_achievements (fst (check_achievements st)) =
  (fst (check_achievements st), []).
Proof.
  destruct (new_achievements_due st) as (news & Hrun & Hnd & Hdue).
  rewrite Hrun.
  rewrite unlock_fresh;
    [| exact Hnd | intros n Hin; apply Hdue in Hin; exact (proj1 Hin)].
  cbn [fst].
  set (st' := {| score := score st; level := level st;
                 achievements := achievements st ++ news |}).
  destruct (new_achievements_due st') as (news' & Hrun' & _ & Hdue').
  assert (Hnone : news' = []).
  { destruct news' as [| name rest]; [reflexivity |]. exfalso.
    destruct (proj1 (Hdue' name) (or_introl eq_refl)) as [Hnew Hreached].
    cbn in Hnew, Hreached. rewrite in_app_iff in Hnew.
    apply Hnew. right. apply Hdue. split; [tauto | exact Hreached]. }
  rewrite Hrun', Hnone. reflexivity.
Qed.

(** * The generated functions under the analyzer *)

Lemma race_features_hold a b c d :
  1 <= a <= 3 -> 1 <= b <= 3 -> 1 <= c <= 3 -> 1 <= d <= 3 ->
  race_features a b c d.
Proof.
  intros Ha Hb Hc Hd.
  assert (A : a = 1 \/ a = 2 \/ a = 3) by lia.
  assert (B : b = 1 \/ b = 2 \/ b = 3) by lia.
  assert (C : c = 1 \/ c = 2 \/ c = 3) by lia.
  assert (D : d = 1 \/ d = 2 \/ d = 3) by lia.
  clear Ha Hb Hc Hd.
  destruct A as [-> | [-> | ->]], B as [-> | [-> | ->]],
           C as [-> | [-> | ->]], D as [-> | [-> | ->]];
    (repeat (split; [reflexivity |]); reflexivity).
Qed.

Lemma level_one_features_hold a b c :
  1 <= a <= 3 -> -3 <= b <= 3 -> -3 <= c <= 3 -> c <> 0 ->
  level_one_features a b c.
Proof.
  intros Ha Hb Hc Hd.
  assert (A : a = 1 \/ a = 2 \/ a = 3) by lia.
  assert (B : b = -3 \/ b = -2 \/ b = -1 \/ b = 0 \/ b = 1 \/ b = 2 \/ b = 3) by lia.
  assert (C : c = -3 \/ c = -2 \/ c = -1 \/ c = 1 \/ c = 2 \/ c = 3) by lia.
  clear Ha Hb Hc Hd.
  destruct A as [-> | [-> | ->]],
           B as [-> | [-> | [-> | [-> | [-> | [-> | ->]]]]]],
           C as [-> | [-> | [-> | [-> | [-> | ->]]]]];
    (repeat (split; [reflexivity |]); reflexivity).
Qed.

Lemma builder_features_hold a b c d :
  1 <= a <= 2 -> -2 <= b <= 2 -> -2 <= c <= 2 -> -2 <= d <= 2 ->
  builder_features a b c d.
Proof.
  intros Ha Hb Hc Hd.
  assert (A : a = 1 \/ a = 2) by lia.
  assert (B : b = -2 \/ b = -1 \/ b = 0 \/ b = 1 \/ b = 2) by lia.
  assert (C : c = -2 \/ c = -1 \/ c = 0 \/ c = 1 \/ c = 2) by lia.
  assert (D : d = -2 \/ d = -1 \/ d = 0 \/ d = 1 \/ d = 2) by lia.
  clear Ha Hb Hc Hd.
  destruct A as [-> | ->],
           B as [-> | [-> | [-> | [-> | ->]]]],
           C as [-> | [-> | [-> | [-> | ->]]]],
           D as [-> | [-> | [-> | [-> | ->]]]];
    (split; [reflexivity |]; split; [reflexivity |]; split; [reflexivity |];
     vm_compute; exact I).
Qed.

(** X17: in the race the right answer is always the finite value: for
    every function [(a*x + b)/(c*x + d)] that [generate_race_functions]
    draws, the analyzer on the reference library accepts it and reports
    the float of [a/c] as the limit at both ends and as the horizontal
    asymptote. *)
Theorem race_limits_are_finite (count : Z) (raw : nat -> N) (i : nat) :
  Forall
    (fun f =>
       exists a b c d,
         getitem f "numerator"
           = Ok (format_int a ++ "*x + " ++ format_int b)%string /\
         getitem f "denominator"
           = Ok (format_int c ++ "*x + " ++ format_int d)%string /\
         race_features a b c d)
    (fst (generate_race_functions count raw i)).
Proof.
  unfold generate_race_functions.
  destruct (race_functions_loop_shaped (Z.to_nat count) [] raw i)
    as (fs & Hrun & _ & Hall).
  rewrite Hrun. cbn [app]. eapply Forall_impl; [| exact Hall].
  intros f (a & b & c & d & Ha & Hb & Hc & Hd & ->).
  exists a, b, c, d. split; [reflexivity |]. split; [reflexivity |].
  apply race_features_hold; assumption.
Qed.

(** X18: a quiz function of level 1 is [(a*x + b)/(x + c)] with
    [1 <= a <= 3], [-3 <= b <= 3], [-3 <= c <= 3] and [c] never 0, so it
    always has a y-intercept; on the reference library the analyzer
    reports the horizontal asymptote [a], the y-intercept [b/c], and
    either the hole [(-c, a)] with no asymptote and no x-intercept (when
    [b = a*c]) or the vertical asymptote [-c] and the x-intercept
    [-b/a]. *)
Theorem quiz_level_one_features (raw : nat -> N) (i : nat) :
  exists a b c,
    1 <= a <= 3 /\ -3 <= b <= 3 /\ -3 <= c <= 3 /\ c <> 0 /\
    getitem (fst (generate_quiz_function 1 raw i)) "numerator"
      = Ok (format_int a ++ "*x + " ++ format_int b)%string /\
    getitem (fst (generate_quiz_function 1 raw i)) "denominator"
      = Ok ("x + " ++ format_int c)%string /\
    level_one_features a b c.
Proof.
  unfold generate_quiz_function.
  change (Z.min 1 4 =? 1) with true. cbv iota.
  cbv beta iota zeta delta [rand_bind randint rand_ret fst].
  set (a := 1 + Z.of_N (raw i) mod (3 - 1 + 1)).
  set (b := -3 + Z.of_N (raw (Datatypes.S i)) mod (3 - -3 + 1)).
  set (c0 := -3 + Z.of_N (raw (Datatypes.S (Datatypes.S i))) mod (3 - -3 + 1)).
  set (c := if c0 =? 0 then 1 else c0).
  assert (Ha : 1 <= a <= 3).
  { unfold a. pose proof (Z.mod_pos_bound (Z.of_N (raw i)) (3 - 1 + 1)). lia. }
  assert (Hb : -3 <= b <= 3).
  { unfold b.
    pose proof (Z.mod_pos_bound (Z.of_N (raw (Datatypes.S i))) (3 - -3 + 1)). lia. }
  assert (Hc0 : -3 <= c0 <= 3).
  { unfold c0.
    pose proof (Z.mod_pos_bound
                  (Z.of_N (raw (Datatypes.S (Datatypes.S i)))) (3 - -3 + 1)). lia. }
  assert (Hc : -3 <= c <= 3 /\ c <> 0).
  { unfold c. destruct (c0 =? 0) eqn:E; [lia |]. apply Z.eqb_neq in E. lia. }
  clearbody a b c0.
  exists a, b, c.
  split; [exact Ha |]. split; [exact Hb |]. split; [exact (proj1 Hc) |].
  split; [exact (proj2 Hc) |]. split; [reflexivity |]. split; [reflexivity |].
  apply level_one_features_hold; lia.
Qed.

(** X19: a builder function is [(a*x + b)/((x + c)*(x + d))] with
    [1 <= a <= 2] and [b], [c], [d] between -2 and 2; on the reference
    library the analyzer reports the int 0 as its horizontal asymptote,
    0.0 as the limit at both ends, and at least one vertical
    asymptote. *)
Theorem builder_function_features (raw : nat -> N) (i : nat) :
  exists a b c d,
    1 <= a <= 2 /\ -2 <= b <= 2 /\ -2 <= c <= 2 /\ -2 <= d <= 2 /\
    getitem (fst (generate_builder_function raw i)) "numerator"
      = Ok (format_int a ++ "*x + " ++ format_int b)%string /\
    getitem (fst (generate_builder_function raw i)) "denominator"
      = Ok ("(x + " ++ format_int c ++ ")*(x + " ++ format_int d ++ ")")%string /\
    builder_features a b c d.
Proof.
  unfold generate_builder_function.
  cbv beta iota zeta delta [rand_bind randint rand_ret fst].
  set (a := 1 + Z.of_N (raw i) mod (2 - 1 + 1)).
  set (b := -2 + Z.of_N (raw (Datatypes.S i)) mod (2 - -2 + 1)).
  set (c := -2 + Z.of_N (raw (Datatypes.S (Datatypes.S i))) mod (2 - -2 + 1)).
  set (d := -2 + Z.of_N (raw (Datatypes.S (Datatypes.S (Datatypes.S i))))
                 mod (2 - -2 + 1)).
  assert (Ha : 1 <= a <= 2).
  { unfold a. pose proof (Z.mod_pos_bound (Z.of_N (raw i)) (2 - 1 + 1)). lia. }
  assert (Hb : -2 <= b <= 2).
  { unfold b.
    pose proof (Z.mod_pos_bound (Z.of_N (raw (Datatypes.S i))) (2 - -2 + 1)). lia. }
  assert (Hc : -2 <= c <= 2).
  { unfold c.
    pose proof (Z.mod_pos_bound
                  (Z.of_N (raw (Datatypes.S (Datatypes.S i)))) (2 - -2 + 1)). lia. }
  assert (Hd : -2 <= d <= 2).
  { unfold d.
    pose proof (Z.mod_pos_bound
                  (Z.of_N (raw (Datatypes.S (Datatypes.S (Datatypes.S i)))))
                  (2 - -2 + 1)). lia. }
  clearbody a b c d.
  exists a, b, c, d.
  split; [exact Ha |]. split; [exact Hb |]. split; [exact Hc |].
  split; [exact Hd |]. split; [reflexivity |]. split; [reflexivity |].
  apply builder_features_hold; lia.
Qed.
